(** * WK2132 I2C-to-dual-UART bridge driver: ring buffer, register proxy,
      channel data path and component setup.

    The file has three parts: the model of the drivers, the lemmas on the
    model, and the claims of the specification, C1 to C10, each stated on
    the model and proved.

    Shallow embedding of
      - esphome/components/wk2132_i2c/wk2132_i2c.h   (RingBuffer, constants)
      - esphome/components/wk2132_i2c/wk2132_i2c.cpp (register proxy, channel,
        component)
      - esphome/components/wk2132/wk2132.cpp         (the earlier driver)

    Conventions.  C++ unsigned integers are [Z] with the wrap-around written
    out ([u8], [u16], [u32], [size_t]); [int] is [Z] through [to_int].  The
    target is a 32-bit micro-controller, so [size_t] is 32 bits wide.
    Methods that touch the I2C bus, the component or the logger are state
    transformers over the component record. *)

From stdpp Require Import base numbers list strings.

Open Scope Z_scope.

(** ** Machine integers *)

Definition u8 (x : Z) : Z := x mod 2 ^ 8.
Definition u16 (x : Z) : Z := x mod 2 ^ 16.
Definition u32 (x : Z) : Z := x mod 2 ^ 32.

(** [size_t] of the 32-bit targets. *)
Definition size_t (x : Z) : Z := u32 x.

(** Conversion to a 32-bit [int] (two's complement). *)
Definition to_int (x : Z) : Z := (x + 2 ^ 31) mod 2 ^ 32 - 2 ^ 31.

(** C arrays as lists.  An access outside the array is undefined behaviour
    in the source; here a store outside the array changes nothing and a load
    outside it yields 0. *)
Definition array_get (a : list Z) (i : Z) : Z :=
  if bool_decide (0 <= i) then default 0 (a !! Z.to_nat i) else 0.

Definition array_set (a : list Z) (i : Z) (x : Z) : list Z :=
  if bool_decide (0 <= i) then <[Z.to_nat i := x]> a else a.

(** The elements of an array from index [i], [n] of them. *)
Definition slice (a : list Z) (i : Z) (n : nat) : list Z :=
  (fun k : nat => array_get a (i + Z.of_nat k)) <$> seq 0 n.

(** ** RingBuffer<uint8_t, SIZE>  (wk2132_i2c.h, lines 53-113) *)

Module RingBuffer.

Record t : Type := Make {
  rb_ : list Z;   (* std::array<T, SIZE> rb_{0} *)
  tail_ : Z;      (* int tail_{0}: position of the next element to read *)
  head_ : Z;      (* int head_{0}: position of the next element to write *)
  count_ : Z      (* size_t count_{0} *)
}.

Section WithSize.
Variable SIZE : Z.

(** A default-constructed buffer. *)
Definition init : t :=
  {| rb_ := replicate (Z.to_nat SIZE) 0; tail_ := 0; head_ := 0; count_ := 0 |}.

Definition is_empty (b : t) : bool := bool_decide (count_ b = 0).
Definition is_full (b : t) : bool := bool_decide (count_ b = SIZE).
Definition count (b : t) : Z := count_ b.
Definition free (b : t) : Z := size_t (SIZE - count_ b).

(** [(idx + 1) % SIZE]: the [int] index is converted to [size_t] for the
    remainder and the result is stored back in an [int]. *)
Definition next (idx : Z) : Z := to_int (u32 (idx + 1) mod SIZE).

(** [bool push(const T item)] *)
Definition push (item : Z) (b : t) : bool * t :=
  if is_full b then (false, b)
  else (true, {| rb_ := array_set (rb_ b) (head_ b) item;
                 tail_ := tail_ b;
                 head_ := next (head_ b);
                 count_ := size_t (count_ b + 1) |}).

(** [bool pop(T &item)]: the referenced item is an argument and a result. *)
Definition pop (item : Z) (b : t) : bool * Z * t :=
  if is_empty b then (false, item, b)
  else (true, array_get (rb_ b) (tail_ b),
        {| rb_ := rb_ b;
           tail_ := next (tail_ b);
           head_ := head_ b;
           count_ := size_t (count_ b - 1) |}).

(** [bool peek(T &item)] *)
Definition peek (item : Z) (b : t) : bool * Z * t :=
  if is_empty b then (false, item, b)
  else (true, array_get (rb_ b) (tail_ b), b).

(** [void clear()] *)
Definition clear (b : t) : t :=
  {| rb_ := rb_ b; tail_ := 0; head_ := 0; count_ := 0 |}.

(** The mutating interface of the class, as a script of calls. *)
Inductive op : Type :=
| Push (item : Z)
| Pop
| Peek
| Clear.

Definition step (b : t) (o : op) : t :=
  match o with
  | Push item => snd (push item b)
  | Pop => snd (pop 0 b)
  | Peek => snd (peek 0 b)
  | Clear => clear b
  end.

Definition run (ops : list op) (b : t) : t := foldl step b ops.

(** The bytes held, oldest first. *)
Definition contents (b : t) : list Z :=
  (fun i : nat => array_get (rb_ b) ((tail_ b + Z.of_nat i) mod SIZE))
    <$> seq 0 (Z.to_nat (count_ b)).

(** The counter is within the capacity. *)
Definition bounded (b : t) : Prop := 0 <= count_ b <= SIZE.

(** The representation invariant of a buffer in use. *)
Record wf (b : t) : Prop := {
  wf_size : 0 < SIZE < 2 ^ 31;
  wf_storage : Z.of_nat (length (rb_ b)) = SIZE;
  wf_tail : 0 <= tail_ b < SIZE;
  wf_count : 0 <= count_ b <= SIZE;
  wf_head : head_ b = (tail_ b + count_ b) mod SIZE
}.
End WithSize.

End RingBuffer.

(** ** The I2C bus and the host framework

    The bus transport, the component status flags and the logger belong to
    the host framework (i2c::I2CDevice, Component and ESP_LOGx), whose
    sources are not part of the driver.  Section 6 of the specification
    gives the transport as an addressed read or write of N bytes with a
    success-or-failure result; that is what is modelled. *)

Module i2c.

(** Modelled from the spec: the result of an exchange (i2c::ErrorCode).  The
    driver only ever compares an error code with [ERROR_OK]. *)
Inductive ErrorCode : Type :=
| ERROR_OK
| ERROR_NOT_OK (code : positive).

Definition is_ok (e : ErrorCode) : bool :=
  match e with ERROR_OK => true | ERROR_NOT_OK _ => false end.

(** Modelled from the spec: one addressed exchange of the bus transport, as
    requested by the driver through i2c::I2CDevice. *)
Inductive Transaction : Type :=
| WriteRegister (address a_register : Z) (data : list Z)
| ReadRegister (address a_register : Z) (len : Z)
| Write (address : Z) (data : list Z)
| Read (address : Z) (len : Z).

(** Modelled from the spec: what the bus transport answers, a result code
    and the bytes it delivered (none for a write, possibly none for a read
    that failed). *)
Record Reply : Type := { code : ErrorCode; received : list Z }.

(** Modelled from the spec: the bus transport seen from one device, as the
    answer to the n-th exchange, for every n, and the exchanges made so far,
    oldest first. *)
Record I2CBus : Type := { replies : nat -> Reply; traffic : list Transaction }.

(** Modelled from the spec: one exchange on the bus transport. *)
Definition exchange (t : Transaction) (bus : I2CBus) : Reply * I2CBus :=
  (replies bus (length (traffic bus)),
   {| replies := replies bus; traffic := traffic bus ++ [t] |}).

(** Modelled from the spec: the caller's buffer after a read of [len] bytes
    by the bus transport; the delivered bytes overwrite its beginning, the
    rest keeps what it held. *)
Definition deposit (len : Z) (delivered buffer : list Z) : list Z :=
  let got := u8 <$> take (Z.to_nat len) delivered in
  take (length buffer) (got ++ drop (length got) buffer).

End i2c.

(** Modelled from the spec: uart::UARTParityOptions of the host framework
    (parity none, even or odd). *)
Inductive UARTParityOptions : Type :=
| UART_CONFIG_PARITY_NONE
| UART_CONFIG_PARITY_EVEN
| UART_CONFIG_PARITY_ODD.

(** The log lines of the levels ERROR, WARN and CONFIG that the modelled
    methods print.  The drivers are taken at the default log level, where
    ESP_LOGV and ESP_LOGVV expand to nothing and their arguments are not
    evaluated. *)
Inductive LogLine : Type :=
| SettingUpComponent (children : nat) (base_address : Z)
| SettingUpUARTNamed (name : string)
| SettingUpUARTNumbered (channel : Z)
| RegisterError (is_write : bool) (address a_register : Z) (page1 : bool)
                (channel value : Z) (error : i2c.ErrorCode)
| BufferUnderflow (requested available : Z)
| XferError (error : i2c.ErrorCode)
| BaudRegisters (crystal baud_rate baud_high baud_low baud_dec : Z)
| LineConfig (data_bits stop_bits : Z) (parity : UARTParityOptions) (lcr : Z).

(** Modelled from the spec: what a component inherits from i2c::I2CDevice
    and Component (the host framework), with the logger output and the
    contents of uninitialised automatic storage. *)
Record Host : Type := {
  address_ : Z;               (* I2CDevice::address_ *)
  bus_ : i2c.I2CBus;          (* I2CDevice::bus_ *)
  warning_ : bool;            (* the status warning flag of Component *)
  console : list LogLine;     (* lines printed so far, oldest first *)
  indeterminate : nat -> Z    (* what an uninitialised local happens to hold *)
}.

(** State transformers. *)
Definition M (S A : Type) : Type := S -> A * S.

Definition ret {S A} (a : A) : M S A := fun s => (a, s).

Definition bind {S A B} (m : M S A) (k : A -> M S B) : M S B :=
  fun s => let '(a, s') := m s in k a s'.

Notation "'let*' x ':=' m 'in' k" := (bind m (fun x => k))
  (at level 10, x pattern, m at level 100, k at level 200).
Notation "m1 ';;' m2" := (bind m1 (fun _ => m2))
  (at level 100, m2 at level 200, right associativity).

Module host.

Definition set_address (a : Z) : M Host unit := fun h =>
  (tt, {| address_ := a; bus_ := bus_ h; warning_ := warning_ h;
          console := console h; indeterminate := indeterminate h |}).

Definition set_bus (b : i2c.I2CBus) (h : Host) : Host :=
  {| address_ := address_ h; bus_ := b; warning_ := warning_ h;
     console := console h; indeterminate := indeterminate h |}.

Definition set_warning (w : bool) : M Host unit := fun h =>
  (tt, {| address_ := address_ h; bus_ := bus_ h; warning_ := w;
          console := console h; indeterminate := indeterminate h |}).

(** Modelled from the spec: Component::status_set_warning and
    Component::status_clear_warning, the persistent warning flag. *)
Definition status_set_warning : M Host unit := set_warning true.
Definition status_clear_warning : M Host unit := set_warning false.

(** Modelled from the spec: ESP_LOGE, ESP_LOGW and ESP_LOGCONFIG. *)
Definition log (l : LogLine) : M Host unit := fun h =>
  (tt, {| address_ := address_ h; bus_ := bus_ h; warning_ := warning_ h;
          console := console h ++ [l]; indeterminate := indeterminate h |}).

Definition transact (t : i2c.Transaction) : M Host i2c.Reply := fun h =>
  let '(r, bus') := i2c.exchange t (bus_ h) in (r, set_bus bus' h).

(** Modelled from the spec: I2CDevice::read_register(a_register, data, len),
    one addressed register read. *)
Definition read_register (a_register : Z) (data : list Z) (len : Z)
  : M Host (i2c.ErrorCode * list Z) := fun h =>
  let '(r, h') := transact (i2c.ReadRegister (address_ h) a_register len) h in
  ((i2c.code r, i2c.deposit len (i2c.received r) data), h').

(** Modelled from the spec: I2CDevice::write_register(a_register, data, len),
    one addressed register write. *)
Definition write_register (a_register : Z) (data : list Z) (len : Z)
  : M Host i2c.ErrorCode := fun h =>
  let '(r, h') :=
    transact (i2c.WriteRegister (address_ h) a_register (take (Z.to_nat len) data)) h in
  (i2c.code r, h').

(** Modelled from the spec: I2CDevice::read(data, len), one raw read. *)
Definition read (data : list Z) (len : Z) : M Host (i2c.ErrorCode * list Z) := fun h =>
  let '(r, h') := transact (i2c.Read (address_ h) len) h in
  ((i2c.code r, i2c.deposit len (i2c.received r) data), h').

(** Modelled from the spec: I2CDevice::write(data, len), one raw write. *)
Definition write (data : list Z) (len : Z) : M Host i2c.ErrorCode := fun h =>
  let '(r, h') := transact (i2c.Write (address_ h) (take (Z.to_nat len) data)) h in
  (i2c.code r, h').

(** An automatic array of [n] bytes that is declared without initialiser. *)
Definition uninitialised (n : Z) : M Host (list Z) := fun h =>
  ((fun i => u8 (indeterminate h i)) <$> seq 0 (Z.to_nat n), h).

End host.

(** [inline uint8_t i2c_address(uint8_t base_address, uint8_t channel, uint8_t fifo)]
    (wk2132_i2c.cpp lines 195-206, wk2132.cpp lines 26-33) *)
Definition i2c_address (base_address channel fifo : Z) : Z :=
  u8 (Z.lor (Z.lor base_address (Z.shiftl channel 1)) fifo).

(** ** Register map (wk2132_i2c.h) *)

Definition REG_WK2132_GENA : Z := 0x00.
Definition GENA_C2EN : Z := Z.shiftl 1 1.
Definition GENA_C1EN : Z := Z.shiftl 1 0.
Definition REG_WK2132_GRST : Z := 0x01.
Definition GRST_C2RST : Z := Z.shiftl 1 1.
Definition GRST_C1RST : Z := Z.shiftl 1 0.
Definition REG_WK2132_SPAGE : Z := 0x03.
Definition REG_WK2132_SCR : Z := 0x04.
Definition SCR_TXEN : Z := Z.shiftl 1 1.
Definition SCR_RXEN : Z := Z.shiftl 1 0.
Definition REG_WK2132_LCR : Z := 0x05.
Definition LCR_PAEN : Z := Z.shiftl 1 3.
Definition LCR_PAR_ODD : Z := Z.shiftl 1 1.
Definition LCR_PAR_EVEN : Z := Z.shiftl 2 1.
Definition LCR_STPL : Z := Z.shiftl 1 0.
Definition REG_WK2132_FCR : Z := 0x06.
Definition FCR_TFEN : Z := Z.shiftl 1 3.
Definition FCR_RFEN : Z := Z.shiftl 1 2.
Definition FCR_TFRST : Z := Z.shiftl 1 3.
Definition FCR_RFRST : Z := Z.shiftl 1 3.
Definition REG_WK2132_TFCNT : Z := 0x09.
Definition REG_WK2132_RFCNT : Z := 0x0A.
Definition REG_WK2132_FSR : Z := 0x0B.
Definition FSR_RFEMPTY : Z := Z.shiftl 1 3.
Definition FSR_TFEMPTY : Z := Z.shiftl 1 2.
Definition FSR_TFFULL : Z := Z.shiftl 1 1.
Definition REG_WK2132_BRH : Z := 0x04.
Definition REG_WK2132_BRL : Z := 0x05.
Definition REG_WK2132_BRD : Z := 0x06.

(** [constexpr size_t FIFO_SIZE = 256] *)
Definition FIFO_SIZE : Z := 256.

(** ** Baud-rate arithmetic

    The first six lines of [WK2132Channel::set_baudrate_], which are the same
    text in wk2132_i2c.cpp (lines 356-362) and wk2132.cpp (lines 184-190).
    [crystal_] and [baud_rate_] are [uint32_t].  A zero divisor is a division
    by zero in the source; every statement below about these functions
    assumes the divisor is not zero. *)
Module baud.

(** [baud_rate_ * 16] in 32-bit unsigned arithmetic. *)
Definition divisor (baud_rate : Z) : Z := u32 (u32 baud_rate * 16).

(** [uint16_t const val_int = crystal_ / (baud_rate_ * 16) - 1] *)
Definition val_int (crystal baud_rate : Z) : Z :=
  u16 (u32 (u32 crystal / divisor baud_rate - 1)).

(** [uint16_t val_dec = (crystal_ % (baud_rate_ * 16)) / (baud_rate_ * 16)] *)
Definition val_dec (crystal baud_rate : Z) : Z :=
  u16 ((u32 crystal mod divisor baud_rate) / divisor baud_rate).

(** [while (val_dec > 0x0A) val_dec /= 0x0A;] with the number of times the
    body ran.  A [uint16_t] leaves the loop after at most four divisions,
    so [reduce_fuel] iterations are never exhausted (see [reduce_total]). *)
Fixpoint reduce_loop (fuel : nat) (val_dec : Z) : Z * nat :=
  match fuel with
  | O => (val_dec, O)
  | S fuel' =>
      if bool_decide (val_dec > 0x0A)
      then let '(v, n) := reduce_loop fuel' (u16 (val_dec / 0x0A)) in (v, S n)
      else (val_dec, O)
  end.

Definition reduce_fuel : nat := 16.

Definition reduce (val_dec : Z) : Z * nat := reduce_loop reduce_fuel val_dec.

(** [baud_high], [baud_low] and [baud_dec] *)
Definition baud_high (crystal baud_rate : Z) : Z :=
  u8 (Z.shiftr (val_int crystal baud_rate) 8).
Definition baud_low (crystal baud_rate : Z) : Z :=
  u8 (Z.land (val_int crystal baud_rate) 0xFF).
Definition baud_dec (crystal baud_rate : Z) : Z :=
  u8 (fst (reduce (val_dec crystal baud_rate))).

End baud.

(** ** Observations on the bus traffic and on the console *)

Definition is_spage_write (t : i2c.Transaction) : bool :=
  match t with
  | i2c.WriteRegister _ a_register _ => bool_decide (a_register = REG_WK2132_SPAGE)
  | _ => false
  end.

(** The number of writes to the global page register in a stretch of traffic. *)
Definition spage_writes (l : list i2c.Transaction) : nat :=
  length (List.filter is_spage_write l).

Definition is_register_write (t : i2c.Transaction) : bool :=
  match t with
  | i2c.WriteRegister _ _ _ => true
  | _ => false
  end.

(** The channels whose setup was announced on the console, in order. *)
Definition uart_setups (l : list LogLine) : list (string + Z) :=
  omap (fun line =>
          match line with
          | SettingUpUARTNamed name => Some (inl name)
          | SettingUpUARTNumbered channel => Some (inr channel)
          | _ => None
          end) l.

(** ** The driver of wk2132_i2c.cpp *)

Module wk2132_i2c.

(** The build: the framework macros that fix [XFER_MAX_SIZE]
    (wk2132_i2c.h lines 23-27).  Their definitions are not part of the
    driver, so they are parameters. *)
Record Build : Type := {
  I2C_BUFFER_LENGTH : Z;
  USE_ESP32_FRAMEWORK_ARDUINO : bool
}.

(** [constexpr size_t XFER_MAX_SIZE], under the [#if] of the header. *)
Definition XFER_MAX_SIZE (build : Build) : Z :=
  if bool_decide (I2C_BUFFER_LENGTH build > 255) && USE_ESP32_FRAMEWORK_ARDUINO build
  then 255
  else size_t (I2C_BUFFER_LENGTH build).

(** [constexpr size_t RING_BUFFER_SIZE = XFER_MAX_SIZE] *)
Definition RING_BUFFER_SIZE (build : Build) : Z := XFER_MAX_SIZE build.

(** class WK2132Component (its [children_] are kept beside it, see [setup]) *)
Record WK2132Component : Type := {
  host : Host;
  crystal_ : Z;        (* uint32_t *)
  base_address_ : Z;   (* uint8_t *)
  test_mode_ : Z;
  page1_ : bool;
  name_ : string
}.

(** class WK2132Register; [parent_] is the one component of the state. *)
Record WK2132Register : Type := {
  register_ : Z;
  reg_channel_ : Z     (* channel_ of the class *)
}.

(** class WK2132Channel with the members of uart::UARTComponent it uses. *)
Record WK2132Channel : Type := {
  baud_rate_ : Z;      (* uint32_t *)
  stop_bits_ : Z;
  data_bits_ : Z;
  parity_ : UARTParityOptions;
  receive_buffer_ : RingBuffer.t;
  channel_ : Z;        (* uint8_t *)
  data_ : Z;
  channel_name_ : string   (* name_ of the class *)
}.

Definition set_host (h : Host) (c : WK2132Component) : WK2132Component :=
  {| host := h; crystal_ := crystal_ c; base_address_ := base_address_ c;
     test_mode_ := test_mode_ c; page1_ := page1_ c; name_ := name_ c |}.

Definition set_page1 (p : bool) : M WK2132Component unit := fun c =>
  (tt, {| host := host c; crystal_ := crystal_ c; base_address_ := base_address_ c;
          test_mode_ := test_mode_ c; page1_ := p; name_ := name_ c |}).

Definition set_base_address (a : Z) : M WK2132Component unit := fun c =>
  (tt, {| host := host c; crystal_ := crystal_ c; base_address_ := a;
          test_mode_ := test_mode_ c; page1_ := page1_ c; name_ := name_ c |}).

(** A method of the inherited classes, run on the component. *)
Definition inherited {A} (m : M Host A) : M WK2132Component A := fun c =>
  let '(a, h) := m (host c) in (a, set_host h c).

(** The bus exchanges made and the lines printed so far. *)
Definition traffic_of (c : WK2132Component) : list i2c.Transaction :=
  i2c.traffic (bus_ (host c)).
Definition console_of (c : WK2132Component) : list LogLine := console (host c).

(** The answer that the bus gives to the n-th exchange. *)
Definition reply_of (c : WK2132Component) (n : nat) : i2c.Reply :=
  i2c.replies (bus_ (host c)) n.

Definition set_receive_buffer (b : RingBuffer.t) (ch : WK2132Channel) : WK2132Channel :=
  {| baud_rate_ := baud_rate_ ch; stop_bits_ := stop_bits_ ch;
     data_bits_ := data_bits_ ch; parity_ := parity_ ch;
     receive_buffer_ := b; channel_ := channel_ ch; data_ := data_ ch;
     channel_name_ := channel_name_ ch |}.

Definition set_data_bits (n : Z) (ch : WK2132Channel) : WK2132Channel :=
  {| baud_rate_ := baud_rate_ ch; stop_bits_ := stop_bits_ ch;
     data_bits_ := n; parity_ := parity_ ch;
     receive_buffer_ := receive_buffer_ ch; channel_ := channel_ ch;
     data_ := data_ ch; channel_name_ := channel_name_ ch |}.

(** [WK2132Component::component_reg], [WK2132Channel::channel_reg] *)
Definition component_reg (a_register : Z) : WK2132Register :=
  {| register_ := a_register; reg_channel_ := 0 |}.
Definition channel_reg (ch : WK2132Channel) (a_register : Z) : WK2132Register :=
  {| register_ := a_register; reg_channel_ := channel_ ch |}.

(** [uint8_t WK2132Register::get() const]  (lines 243-257) *)
Definition get (r : WK2132Register) : M WK2132Component Z := fun c =>
  let value := 0x00 in
  let address := i2c_address (base_address_ c) (reg_channel_ r) 0 in
  (inherited (host.set_address address) ;;
   let* (error, buffer) := inherited (host.read_register (register_ r) [value] 1) in
   let value := array_get buffer 0 in
   (if i2c.is_ok error
    then inherited host.status_clear_warning
    else inherited host.status_set_warning ;;
         inherited (host.log (RegisterError false address (register_ r) (page1_ c)
                                            (reg_channel_ r) value error))) ;;
   ret value) c.

(** [void WK2132Register::set(uint8_t value)]  (lines 259-271) *)
Definition set (r : WK2132Register) (value : Z) : M WK2132Component unit := fun c =>
  let value := u8 value in
  let address := i2c_address (base_address_ c) (reg_channel_ r) 0 in
  (inherited (host.set_address address) ;;
   let* error := inherited (host.write_register (register_ r) [value] 1) in
   if i2c.is_ok error
   then inherited host.status_clear_warning
   else inherited host.status_set_warning ;;
        inherited (host.log (RegisterError true address (register_ r) (page1_ c)
                                           (reg_channel_ r) value error))) c.

(** [operator=], [operator&=] and [operator|=]  (lines 228-241).  They
    return the proxy itself, which carries no result of the exchange. *)
Definition assign (r : WK2132Register) (value : Z) : M WK2132Component unit :=
  set r value.

Definition and_assign (r : WK2132Register) (value : Z) : M WK2132Component unit :=
  let value := u8 value in
  let* got := get r in
  let value := Z.land value got in
  set r value.

Definition or_assign (r : WK2132Register) (value : Z) : M WK2132Component unit :=
  let value := u8 value in
  let* got := get r in
  let value := Z.lor value got in
  set r value.

(** The page switch of [set_baudrate_]: the pair of statements at lines
    365-366 (page 1) and 371-372 (page 0).  The source has no function for
    it; the pair is named here because it occurs twice. *)
Definition select_page (ch : WK2132Channel) (page : bool) : M WK2132Component unit :=
  set_page1 page ;;
  assign (channel_reg ch REG_WK2132_SPAGE) (if page then 1 else 0).

(** [void WK2132Channel::reset_fifo_()] *)
Definition reset_fifo_ (ch : WK2132Channel) : M WK2132Component unit :=
  assign (channel_reg ch REG_WK2132_FCR)
         (Z.lor (Z.lor (Z.lor FCR_TFEN FCR_RFEN) FCR_TFRST) FCR_TFRST).

(** [void WK2132Channel::set_line_param_()]  (lines 333-353) *)
Definition set_line_param_ (ch : WK2132Channel) : M WK2132Component WK2132Channel :=
  let ch := set_data_bits 8 ch in
  let lcr := channel_reg ch REG_WK2132_LCR in
  and_assign lcr 0xF0 ;;
  (if bool_decide (stop_bits_ ch = 2) then or_assign lcr LCR_STPL else ret tt) ;;
  match parity_ ch with
  | UART_CONFIG_PARITY_ODD => or_assign lcr (Z.lor LCR_PAEN LCR_PAR_ODD)
  | UART_CONFIG_PARITY_EVEN => or_assign lcr (Z.lor LCR_PAEN LCR_PAR_EVEN)
  | UART_CONFIG_PARITY_NONE => ret tt
  end ;;
  ret ch.

(** [void WK2132Channel::set_baudrate_()]  (lines 355-376) *)
Definition set_baudrate_ (ch : WK2132Channel) : M WK2132Component unit := fun c =>
  let baud_high := baud.baud_high (crystal_ c) (baud_rate_ ch) in
  let baud_low := baud.baud_low (crystal_ c) (baud_rate_ ch) in
  let baud_dec := baud.baud_dec (crystal_ c) (baud_rate_ ch) in
  (select_page ch true ;;
   assign (channel_reg ch REG_WK2132_BRH) baud_high ;;
   assign (channel_reg ch REG_WK2132_BRL) baud_low ;;
   assign (channel_reg ch REG_WK2132_BRD) baud_dec ;;
   select_page ch false) c.

(** [void WK2132Channel::setup_channel_()]  (lines 317-326) *)
Definition setup_channel_ (ch : WK2132Channel) : M WK2132Component WK2132Channel :=
  inherited (host.log (SettingUpUARTNamed (channel_name_ ch))) ;;
  assign (channel_reg ch REG_WK2132_SCR) (Z.lor SCR_RXEN SCR_TXEN) ;;
  reset_fifo_ ch ;;
  let ch := set_receive_buffer (RingBuffer.clear (receive_buffer_ ch)) ch in
  let* ch := set_line_param_ ch in
  set_baudrate_ ch ;;
  ret ch.

(** The loop over [children_] of [setup]. *)
Fixpoint setup_children (children : list WK2132Channel)
  : M WK2132Component (list WK2132Channel) :=
  match children with
  | [] => ret []
  | child :: rest =>
      let* child' := setup_channel_ child in
      let* rest' := setup_children rest in
      ret (child' :: rest')
  end.

(** [void WK2132Component::setup()]  (lines 276-294).  [children_] holds
    pointers to the channels; the channels are passed and returned. *)
Definition setup (children_ : list WK2132Channel)
  : M WK2132Component (list WK2132Channel) := fun c =>
  (set_base_address (address_ (host c)) ;;
   inherited (host.log (SettingUpComponent (length children_) (address_ (host c)))) ;;
   assign (component_reg REG_WK2132_GENA) (Z.lor GENA_C1EN GENA_C2EN) ;;
   assign (component_reg REG_WK2132_GRST) (Z.lor GRST_C1RST GRST_C2RST) ;;
   assign (component_reg REG_WK2132_SPAGE) 0 ;;
   set_page1 false ;;
   setup_children children_) c.

(** [size_t WK2132Channel::rx_in_fifo_()]  (lines 395-406) *)
Definition rx_in_fifo_ (ch : WK2132Channel) : M WK2132Component Z :=
  let* available := get (channel_reg ch REG_WK2132_RFCNT) in
  if bool_decide (available = 0)
  then
    let* fsr := get (channel_reg ch REG_WK2132_FSR) in
    if bool_decide (Z.land fsr FSR_RFEMPTY <> 0)
    then ret FIFO_SIZE
    else ret available
  else ret available.

Section WithBuild.
Variable build : Build.

(** The first statements of [xfer_fifo_to_buffer_] after the call of
    [rx_in_fifo_] (lines 471-475): the two clamps. *)
Definition clamp (to_transfer free : Z) : Z :=
  let to_transfer :=
    if bool_decide (to_transfer > XFER_MAX_SIZE build)
    then XFER_MAX_SIZE build else to_transfer in
  if bool_decide (to_transfer > free) then free else to_transfer.

(** [for (size_t i = 0; i < to_transfer; i++) receive_buffer_.push(data[i]);]
    from index [i], [n] more times.  The source drops the value of each
    push; it is kept here beside the buffer. *)
Fixpoint push_loop (n : nat) (i : Z) (data : list Z) (b : RingBuffer.t)
  : list bool * RingBuffer.t :=
  match n with
  | O => ([], b)
  | S n' =>
      let '(pushed, b') := RingBuffer.push (RING_BUFFER_SIZE build) (array_get data i) b in
      let '(results, b'') := push_loop n' (i + 1) data b' in
      (pushed :: results, b'')
  end.

(** The raw read of [xfer_fifo_to_buffer_] (lines 477-484): the local
    array, the bus address with the fifo flag, the read and the error line. *)
Definition read_fifo (ch : WK2132Channel) (to_transfer : Z)
  : M WK2132Component (i2c.ErrorCode * list Z) := fun c =>
  (let* data := inherited (host.uninitialised to_transfer) in
   inherited (host.set_address (i2c_address (base_address_ c) (channel_ ch) 1)) ;;
   let* (error, data) := inherited (host.read data to_transfer) in
   (if i2c.is_ok error then ret tt else inherited (host.log (XferError error))) ;;
   ret (error, data)) c.

(** [size_t WK2132Channel::xfer_fifo_to_buffer_()]  (lines 469-492) *)
Definition xfer_fifo_to_buffer_ (ch : WK2132Channel)
  : M WK2132Component (Z * WK2132Channel) :=
  let* to_transfer := rx_in_fifo_ ch in
  let free := RingBuffer.free (RING_BUFFER_SIZE build) (receive_buffer_ ch) in
  let to_transfer := clamp to_transfer free in
  if bool_decide (to_transfer <> 0)
  then
    let* (_, data) := read_fifo ch to_transfer in
    let '(_, b) := push_loop (Z.to_nat to_transfer) 0 data (receive_buffer_ ch) in
    ret (to_transfer, set_receive_buffer b ch)
  else ret (to_transfer, ch).

(** [int WK2132Channel::available()]  (lines 415-420) *)
Definition available (ch : WK2132Channel) : M WK2132Component (Z * WK2132Channel) :=
  let available := RingBuffer.count (receive_buffer_ ch) in
  if bool_decide (available = 0)
  then
    let* (available, ch) := xfer_fifo_to_buffer_ ch in
    ret (to_int available, ch)
  else ret (to_int available, ch).

(** [bool WK2132Channel::peek_byte(uint8_t *buffer)]  (lines 408-413) *)
Definition peek_byte (buffer : Z) (ch : WK2132Channel)
  : M WK2132Component (bool * Z * WK2132Channel) :=
  let available := RingBuffer.count (receive_buffer_ ch) in
  let* ch :=
    if bool_decide (available = 0)
    then let* (_, ch) := xfer_fifo_to_buffer_ ch in ret ch
    else ret ch in
  let '(found, item, b) := RingBuffer.peek buffer (receive_buffer_ ch) in
  ret (found, item, set_receive_buffer b ch).

(** [for (size_t i = 0; i < length; i++) receive_buffer_.pop(buffer[i]);]
    from index [i], [n] more times. *)
Fixpoint pop_loop (n : nat) (i : Z) (buffer : list Z) (b : RingBuffer.t)
  : list Z * RingBuffer.t :=
  match n with
  | O => (buffer, b)
  | S n' =>
      let '(_, item, b') := RingBuffer.pop (RING_BUFFER_SIZE build) (array_get buffer i) b in
      pop_loop n' (i + 1) (array_set buffer i item) b'
  end.

(** [bool WK2132Channel::read_array(uint8_t *buffer, size_t length)]
    (lines 422-437); the caller's array is an argument and a result. *)
Definition read_array (buffer : list Z) (length : Z) (ch : WK2132Channel)
  : M WK2132Component (bool * list Z * WK2132Channel) :=
  let available := RingBuffer.count (receive_buffer_ ch) in
  let* (length, status) :=
    if bool_decide (length > available)
    then inherited (host.log (BufferUnderflow length available)) ;;
         ret (available, false)
    else ret (length, true) in
  let '(buffer, b) := pop_loop (Z.to_nat length) 0 buffer (receive_buffer_ ch) in
  ret (status, buffer, set_receive_buffer b ch).
End WithBuild.

(** *** Vocabulary of the statements about the driver *)

(** The bus address of a register access. *)
Definition register_address (c : WK2132Component) (r : WK2132Register) : Z :=
  i2c_address (base_address_ c) (reg_channel_ r) 0.

(** The bytes of an uninitialised array of [n] bytes on the host. *)
Definition garbage (c : WK2132Component) (n : Z) : list Z :=
  (fun i => u8 (indeterminate (host c) i)) <$> seq 0 (Z.to_nat n).

(** What the register accesses leave alone: the configuration, the
    answers the bus will give, the uninitialised storage and the setup
    lines of the console. *)
Record frame (c c' : WK2132Component) : Prop := {
  same_crystal : crystal_ c' = crystal_ c;
  same_base_address : base_address_ c' = base_address_ c;
  same_replies : forall n, reply_of c' n = reply_of c n;
  same_indeterminate : indeterminate (host c') = indeterminate (host c);
  same_setups : uart_setups (console_of c') = uart_setups (console_of c)
}.

(** A computation that stays within the frame from every state. *)
Definition quiet {A} (m : M WK2132Component A) : Prop :=
  forall c, frame c (snd (m c)).

(** A computation that prints the given setup lines, from every state. *)
Definition announces {A} (m : M WK2132Component A) (lines : list (string + Z)) : Prop :=
  forall c, uart_setups (console_of (snd (m c))) = uart_setups (console_of c) ++ lines.

End wk2132_i2c.

(** ** The earlier driver of wk2132.cpp

    Its header wk2132.h is not among the sources; the records hold the
    members that the modelled methods of wk2132.cpp read or write. *)

Module wk2132.

(** Modelled from the spec: class WK2132Component, declared in wk2132.h;
    section 3 of the specification gives the device its base address, its
    current page and its crystal frequency, and wk2132.cpp uses [data_] as
    the byte that register reads are stored in. *)
Record WK2132Component : Type := {
  host : Host;
  crystal_ : Z;        (* uint32_t *)
  base_address_ : Z;   (* uint8_t *)
  page1_ : bool;
  data_ : Z            (* one byte of storage for register reads *)
}.

(** Modelled from the spec: class WK2132Channel, declared in wk2132.h;
    section 3 of the specification gives the channel its number and its line
    configuration (baud rate, data bits, stop bits, parity). *)
Record WK2132Channel : Type := {
  baud_rate_ : Z;      (* uint32_t *)
  stop_bits_ : Z;
  data_bits_ : Z;
  parity_ : UARTParityOptions;
  channel_ : Z         (* uint8_t *)
}.

Definition set_host (h : Host) (c : WK2132Component) : WK2132Component :=
  {| host := h; crystal_ := crystal_ c; base_address_ := base_address_ c;
     page1_ := page1_ c; data_ := data_ c |}.

Definition set_page1 (p : bool) : M WK2132Component unit := fun c =>
  (tt, {| host := host c; crystal_ := crystal_ c; base_address_ := base_address_ c;
          page1_ := p; data_ := data_ c |}).

Definition set_base_address (a : Z) : M WK2132Component unit := fun c =>
  (tt, {| host := host c; crystal_ := crystal_ c; base_address_ := a;
          page1_ := page1_ c; data_ := data_ c |}).

Definition set_data (d : Z) : M WK2132Component unit := fun c =>
  (tt, {| host := host c; crystal_ := crystal_ c; base_address_ := base_address_ c;
          page1_ := page1_ c; data_ := d |}).

Definition inherited {A} (m : M Host A) : M WK2132Component A := fun c =>
  let '(a, h) := m (host c) in (a, set_host h c).

Definition traffic_of (c : WK2132Component) : list i2c.Transaction :=
  i2c.traffic (bus_ (host c)).
Definition console_of (c : WK2132Component) : list LogLine := console (host c).
Definition reply_of (c : WK2132Component) (n : nat) : i2c.Reply :=
  i2c.replies (bus_ (host c)) n.

Definition set_data_bits (n : Z) (ch : WK2132Channel) : WK2132Channel :=
  {| baud_rate_ := baud_rate_ ch; stop_bits_ := stop_bits_ ch; data_bits_ := n;
     parity_ := parity_ ch; channel_ := channel_ ch |}.

(** [void WK2132Component::write_wk2132_register_(reg_number, channel, buffer, len)]
    (lines 59-71) *)
Definition write_wk2132_register_ (reg_number channel : Z) (buffer : list Z) (len : Z)
  : M WK2132Component unit := fun c =>
  let address := i2c_address (base_address_ c) channel 0 in
  (inherited (host.set_address address) ;;
   let* error := inherited (host.write_register reg_number buffer len) in
   if i2c.is_ok error
   then inherited host.status_clear_warning
   else inherited host.status_set_warning ;;
        inherited (host.log (RegisterError true address reg_number (page1_ c)
                                           channel (array_get buffer 0) error))) c.

(** [uint8_t WK2132Component::read_wk2132_register_(reg_number, channel, buffer, len)]
    (lines 73-86); the caller's buffer is an argument and a result, beside
    the returned [*buffer]. *)
Definition read_wk2132_register_ (reg_number channel : Z) (buffer : list Z) (len : Z)
  : M WK2132Component (Z * list Z) := fun c =>
  let address := i2c_address (base_address_ c) channel 0 in
  (inherited (host.set_address address) ;;
   let* (error, buffer) := inherited (host.read_register reg_number buffer len) in
   (if i2c.is_ok error
    then inherited host.status_clear_warning
    else inherited host.status_set_warning ;;
         inherited (host.log (RegisterError false address reg_number (page1_ c)
                                            channel (array_get buffer 0) error))) ;;
   ret (array_get buffer 0, buffer)) c.

(** [void WK2132Channel::set_baudrate_()]  (lines 183-204) *)
Definition set_baudrate_ (ch : WK2132Channel) : M WK2132Component unit := fun c =>
  let baud_high := baud.baud_high (crystal_ c) (baud_rate_ ch) in
  let baud_low := baud.baud_low (crystal_ c) (baud_rate_ ch) in
  let baud_dec := baud.baud_dec (crystal_ c) (baud_rate_ ch) in
  (write_wk2132_register_ REG_WK2132_SPAGE (channel_ ch) [1] 1 ;;
   set_page1 true ;;
   write_wk2132_register_ REG_WK2132_BRH (channel_ ch) [baud_high] 1 ;;
   write_wk2132_register_ REG_WK2132_BRL (channel_ ch) [baud_low] 1 ;;
   write_wk2132_register_ REG_WK2132_BRD (channel_ ch) [baud_dec] 1 ;;
   write_wk2132_register_ REG_WK2132_SPAGE (channel_ ch) [0] 1 ;;
   set_page1 false ;;
   inherited (host.log (BaudRegisters (crystal_ c) (baud_rate_ ch)
                                      baud_high baud_low baud_dec))) c.

(** [void WK2132Channel::set_line_param_()]  (lines 206-233) *)
Definition set_line_param_ (ch : WK2132Channel) : M WK2132Component WK2132Channel :=
  let ch := set_data_bits 8 ch in
  let* lcr := inherited (host.uninitialised 1) in
  let* (_, lcr) := read_wk2132_register_ REG_WK2132_LCR (channel_ ch) lcr 1 in
  let lcr := array_get lcr 0 in
  let lcr := Z.land lcr 0xF0 in
  let lcr := if bool_decide (stop_bits_ ch = 2) then Z.lor lcr 0x01 else lcr in
  let lcr :=
    match parity_ ch with
    | UART_CONFIG_PARITY_ODD => Z.lor lcr (Z.shiftl 0x5 1)
    | UART_CONFIG_PARITY_EVEN => Z.lor lcr (Z.shiftl 0x6 1)
    | UART_CONFIG_PARITY_NONE => lcr
    end in
  write_wk2132_register_ REG_WK2132_LCR (channel_ ch) [lcr] 1 ;;
  inherited (host.log (LineConfig (data_bits_ ch) (stop_bits_ ch) (parity_ ch) lcr)) ;;
  ret ch.

(** [void WK2132Channel::setup_channel_()]  (lines 126-181) *)
Definition setup_channel_ (ch : WK2132Channel) : M WK2132Component WK2132Channel :=
  inherited (host.log (SettingUpUARTNumbered (channel_ ch))) ;;
  let* gena := inherited (host.uninitialised 1) in
  let* (_, gena) := read_wk2132_register_ REG_WK2132_GENA 0 gena 1 in
  let gena :=
    if bool_decide (channel_ ch = 0)
    then Z.lor (array_get gena 0) 0x01 else Z.lor (array_get gena 0) 0x02 in
  write_wk2132_register_ REG_WK2132_GENA 0 [gena] 1 ;;
  let grst := 0 in
  let* (_, gena) := read_wk2132_register_ REG_WK2132_GRST 0 [gena] 1 in
  let grst :=
    if bool_decide (channel_ ch = 0) then Z.lor grst 0x01 else Z.lor grst 0x02 in
  write_wk2132_register_ REG_WK2132_GRST 0 [grst] 1 ;;
  set_page1 false ;;
  write_wk2132_register_ REG_WK2132_SPAGE (channel_ ch) [0] 1 ;;
  write_wk2132_register_ REG_WK2132_FCR (channel_ ch) [0x0F] 1 ;;
  write_wk2132_register_ REG_WK2132_SCR (channel_ ch) [0x3] 1 ;;
  set_baudrate_ ch ;;
  set_line_param_ ch.

Fixpoint setup_children (children : list WK2132Channel)
  : M WK2132Component (list WK2132Channel) :=
  match children with
  | [] => ret []
  | child :: rest =>
      let* child' := setup_channel_ child in
      let* rest' := setup_children rest in
      ret (child' :: rest')
  end.

(** [void WK2132Component::setup()]  (lines 91-100): the read of the global
    enable register is the test of the communication with the device. *)
Definition setup (children_ : list WK2132Channel)
  : M WK2132Component (list WK2132Channel) := fun c =>
  (set_base_address (address_ (host c)) ;;
   inherited (host.log (SettingUpComponent (length children_) (address_ (host c)))) ;;
   let* (_, data) := read_wk2132_register_ REG_WK2132_GENA 0 [data_ c] 1 in
   set_data (array_get data 0) ;;
   setup_children children_) c.

(** *** Vocabulary of the statements about the driver *)

Record frame (c c' : WK2132Component) : Prop := {
  same_crystal : crystal_ c' = crystal_ c;
  same_base_address : base_address_ c' = base_address_ c;
  same_setups : uart_setups (console_of c') = uart_setups (console_of c)
}.

Definition quiet {A} (m : M WK2132Component A) : Prop :=
  forall c, frame c (snd (m c)).

Definition announces {A} (m : M WK2132Component A) (lines : list (string + Z)) : Prop :=
  forall c, uart_setups (console_of (snd (m c))) = uart_setups (console_of c) ++ lines.

End wk2132.

(** ** Concrete devices, used to run the model *)

Module example.

Definition ok (bytes : list Z) : i2c.Reply :=
  {| i2c.code := i2c.ERROR_OK; i2c.received := bytes |}.

(** A failed exchange that delivered nothing. *)
Definition failed : i2c.Reply :=
  {| i2c.code := i2c.ERROR_NOT_OK 3; i2c.received := [] |}.

(** A bus that gives the listed answers in turn and [otherwise] after. *)
Definition scripted (answers : list i2c.Reply) (otherwise : i2c.Reply) : i2c.I2CBus :=
  {| i2c.replies := fun n => default otherwise (answers !! n); i2c.traffic := [] |}.

Definition host_on (bus : i2c.I2CBus) : Host :=
  {| address_ := 0x70; bus_ := bus; warning_ := false; console := [];
     indeterminate := fun i => 0xA0 + Z.of_nat i |}.

Definition component_on (bus : i2c.I2CBus) : wk2132_i2c.WK2132Component :=
  {| wk2132_i2c.host := host_on bus; wk2132_i2c.crystal_ := 14745600;
     wk2132_i2c.base_address_ := 0x70; wk2132_i2c.test_mode_ := 0;
     wk2132_i2c.page1_ := false; wk2132_i2c.name_ := "wk2132" |}.

Definition channel (number : Z) (name : string) (buffer : RingBuffer.t)
  : wk2132_i2c.WK2132Channel :=
  {| wk2132_i2c.baud_rate_ := 9600; wk2132_i2c.stop_bits_ := 1;
     wk2132_i2c.data_bits_ := 8; wk2132_i2c.parity_ := UART_CONFIG_PARITY_NONE;
     wk2132_i2c.receive_buffer_ := buffer; wk2132_i2c.channel_ := number;
     wk2132_i2c.data_ := 0; wk2132_i2c.channel_name_ := name |}.

(** A device whose receive FIFO holds 50 bytes and whose raw reads succeed. *)
Definition fifo50 : i2c.I2CBus := scripted [ok [50]] (ok (replicate 20 0x55)).

(** A build whose transfers are limited to 255 bytes. *)
Definition build255 : wk2132_i2c.Build :=
  {| wk2132_i2c.I2C_BUFFER_LENGTH := 255;
     wk2132_i2c.USE_ESP32_FRAMEWORK_ARDUINO := true |}.

(** A ring buffer of capacity 255 that holds the bytes 1 .. n. *)
Definition filled (n : nat) : RingBuffer.t :=
  RingBuffer.run 255 ((fun i : nat => RingBuffer.Push (Z.of_nat (S i))) <$> seq 0 n)
                 (RingBuffer.init 255).

Definition legacy_component_on (bus : i2c.I2CBus) : wk2132.WK2132Component :=
  {| wk2132.host := host_on bus; wk2132.crystal_ := 14745600;
     wk2132.base_address_ := 0x70; wk2132.page1_ := false; wk2132.data_ := 0 |}.

Definition legacy_channel (number : Z) : wk2132.WK2132Channel :=
  {| wk2132.baud_rate_ := 9600; wk2132.stop_bits_ := 1; wk2132.data_bits_ := 8;
     wk2132.parity_ := UART_CONFIG_PARITY_NONE; wk2132.channel_ := number |}.

End example.

(** ** The transmit side and the periodic transfer of wk2132_i2c.cpp *)

Module wk2132_i2c_tx.
Import wk2132_i2c.

(** [inline bool WK2132Channel::tx_fifo_is_not_empty_()]  (line 378) *)
Definition tx_fifo_is_not_empty_ (ch : WK2132Channel) : M WK2132Component bool :=
  let* fsr := get (channel_reg ch REG_WK2132_FSR) in
  ret (bool_decide (Z.land fsr FSR_TFEMPTY <> 0)).

(** [size_t WK2132Channel::tx_in_fifo_()]  (lines 380-391) *)
Definition tx_in_fifo_ (ch : WK2132Channel) : M WK2132Component Z :=
  let* tfcnt := get (channel_reg ch REG_WK2132_TFCNT) in
  if bool_decide (tfcnt = 0)
  then
    let* fsr := get (channel_reg ch REG_WK2132_FSR) in
    if bool_decide (Z.land fsr FSR_TFFULL <> 0)
    then ret FIFO_SIZE
    else ret tfcnt
  else ret tfcnt.

(** The error lines of [write_array] and [flush]. *)
Inductive Report : Type :=
| WriteTooLong (requested max : Z)
| WriteError (channel first length : Z) (error : i2c.ErrorCode)
| FlushTimeout (remaining : Z).

(** The component with what [write_array] and [flush] need beside it: their
    error lines, each with the number of console lines printed before it,
    and the millisecond clock, as the value of each reading of it. *)
Record Runtime : Type := {
  device : WK2132Component;
  journal : list (nat * Report);
  clock : nat -> Z;
  clock_reads : nat
}.

Definition on_device {A} (m : M WK2132Component A) : M Runtime A := fun rt =>
  let '(a, c) := m (device rt) in
  (a, {| device := c; journal := journal rt; clock := clock rt;
         clock_reads := clock_reads rt |}).

(** ESP_LOGE of the lines of [Report] *)
Definition report (r : Report) : M Runtime unit := fun rt =>
  (tt, {| device := device rt;
          journal := journal rt ++ [(length (console_of (device rt)), r)];
          clock := clock rt; clock_reads := clock_reads rt |}).

(** Modelled from the spec: [millis()] of the host framework, a 32-bit
    count of milliseconds. *)
Definition millis : M Runtime Z := fun rt =>
  (u32 (clock rt (clock_reads rt)),
   {| device := device rt; journal := journal rt; clock := clock rt;
      clock_reads := S (clock_reads rt) |}).

(** Modelled from the spec: [yield()] of the host framework; the scheduling
    is cooperative, and what runs meanwhile does not touch the component. *)
Definition yield : M Runtime unit := ret tt.

Section WithBuild.
Variable build : Build.

(** [void WK2132Channel::write_array(const uint8_t *buffer, size_t length)]
    (lines 439-456) *)
Definition write_array (buffer : list Z) (length : Z) (ch : WK2132Channel)
  : M Runtime unit := fun rt =>
  (let* length :=
     if bool_decide (length > XFER_MAX_SIZE build)
     then report (WriteTooLong length (XFER_MAX_SIZE build)) ;; ret (XFER_MAX_SIZE build)
     else ret length in
   on_device (inherited (host.set_address
                           (i2c_address (base_address_ (device rt)) (channel_ ch) 1))) ;;
   let* error := on_device (inherited (host.write buffer length)) in
   if i2c.is_ok error
   then on_device (inherited host.status_clear_warning)
   else on_device (inherited host.status_set_warning) ;;
        report (WriteError (channel_ ch) (array_get buffer 0) length error)) rt.

(** [for (auto *child : this->children_) transferred += child->xfer_fifo_to_buffer_();]
    of [WK2132Component::loop]  (lines 510-514), from the value [transferred]
    has so far. *)
Fixpoint transfer_children (transferred : Z) (children : list WK2132Channel)
  : M WK2132Component (Z * list WK2132Channel) :=
  match children with
  | [] => ret (transferred, [])
  | child :: rest =>
      let* (moved, child') := xfer_fifo_to_buffer_ build child in
      let* (total, rest') := transfer_children (size_t (transferred + moved)) rest in
      ret (total, child' :: rest')
  end.
End WithBuild.

(** The [while] of [flush], at most [polls] times round; [None] when the
    loop has not been left by then. *)
Fixpoint flush_loop (polls : nat) (ch : WK2132Channel) (start_time : Z)
  : M Runtime (option unit) :=
  match polls with
  | O => ret None
  | S polls' =>
      let* not_empty := on_device (tx_fifo_is_not_empty_ ch) in
      if not_empty
      then
        let* now := millis in
        if bool_decide (u32 (now - start_time) > 100)
        then
          let* remaining := on_device (tx_in_fifo_ ch) in
          report (FlushTimeout remaining) ;;
          ret (Some tt)
        else yield ;; flush_loop polls' ch start_time
      else ret (Some tt)
  end.

(** [void WK2132Channel::flush()]  (lines 458-467) *)
Definition flush (polls : nat) (ch : WK2132Channel) : M Runtime (option unit) :=
  let* start_time := millis in
  flush_loop polls ch start_time.

End wk2132_i2c_tx.

(** ** A bounded queue, to compare the ring buffer with *)

Module queue.

(** What each call of the ring buffer does to the bytes held, when they are
    kept as a list, oldest first, of at most [SIZE] bytes. *)
Definition step (SIZE : Z) (q : list Z) (o : RingBuffer.op) : list Z :=
  match o with
  | RingBuffer.Push item => if bool_decide (Z.of_nat (length q) = SIZE) then q else q ++ [item]
  | RingBuffer.Pop => drop 1 q
  | RingBuffer.Peek => q
  | RingBuffer.Clear => []
  end.

Definition run (SIZE : Z) (ops : list RingBuffer.op) (q : list Z) : list Z :=
  foldl (step SIZE) q ops.

End queue.

(** ** Line parameters and registers as a device keeps them *)

(** The low four bits of the line configuration register for the given stop
    bits and parity, as [set_line_param_] of wk2132_i2c.cpp sets them. *)
Definition line_bits (stop_bits : Z) (parity : UARTParityOptions) : Z :=
  Z.lor (if bool_decide (stop_bits = 2) then LCR_STPL else 0)
        match parity with
        | UART_CONFIG_PARITY_ODD => Z.lor LCR_PAEN LCR_PAR_ODD
        | UART_CONFIG_PARITY_EVEN => Z.lor LCR_PAEN LCR_PAR_EVEN
        | UART_CONFIG_PARITY_NONE => 0
        end.

(** The byte last written to a register in a stretch of traffic, if any. *)
Fixpoint last_written (address a_register : Z) (l : list i2c.Transaction) : option Z :=
  match l with
  | [] => None
  | t :: rest =>
      match last_written address a_register rest with
      | Some w => Some w
      | None =>
          match t with
          | i2c.WriteRegister a r [w] =>
              if bool_decide (a = address) && bool_decide (r = a_register)
              then Some w else None
          | _ => None
          end
      end
  end.

(** The device answers each one-byte register read with the byte that was
    last written to that register, when one was written in this traffic. *)
Definition reads_back (replies : nat -> i2c.Reply) (l : list i2c.Transaction) : Prop :=
  forall k address a_register w,
    l !! k = Some (i2c.ReadRegister address a_register 1) ->
    last_written address a_register (take k l) = Some w ->
    i2c.received (replies k) = [w].

(** Every exchange of a stretch of traffic is a read. *)
Definition is_read (t : i2c.Transaction) : bool :=
  match t with
  | i2c.ReadRegister _ _ _ | i2c.Read _ _ => true
  | i2c.WriteRegister _ _ _ | i2c.Write _ _ => false
  end.

(** ** Bus addresses, as a test

    The sum form of [i2c_address] and what can be read back from an
    address, for one base address, channel and fifo flag. *)
Definition address_check (base channel fifo : Z) : bool :=
  let a := i2c_address base channel fifo in
  bool_decide (a = base + 2 * channel + fifo) &&
  bool_decide (Z.land a 1 = fifo) &&
  bool_decide (Z.land (Z.shiftr a 1) 3 = channel) &&
  bool_decide (Z.land a 0xF8 = base).

(** ** The byte a register read returns

    What [WK2132Register::get] returns at the [k]-th exchange of the bus:
    the byte delivered, or the 0 its local was initialised with. *)
Definition byte_at (c : wk2132_i2c.WK2132Component) (k : nat) : Z :=
  array_get (i2c.deposit 1 (i2c.received (wk2132_i2c.reply_of c k)) [0]) 0.

(** ** Terms of the statements about the data path of wk2132_i2c.cpp *)

Module wk2132_i2c_terms.
Import wk2132_i2c wk2132_i2c_tx.

(** The exchanges of [set_line_param_], in terms of the bytes read. *)
Definition line_param_traffic (c : WK2132Component) (ch : WK2132Channel)
  : list i2c.Transaction :=
  let n := length (traffic_of c) in
  let address := i2c_address (base_address_ c) (channel_ ch) 0 in
  let pair value k :=
    [i2c.ReadRegister address REG_WK2132_LCR 1;
     i2c.WriteRegister address REG_WK2132_LCR [u8 (Z.lor (u8 value) (byte_at c (n + k)))]] in
  let stop := if bool_decide (stop_bits_ ch = 2) then pair LCR_STPL 2%nat else [] in
  [i2c.ReadRegister address REG_WK2132_LCR 1;
   i2c.WriteRegister address REG_WK2132_LCR [u8 (Z.land (u8 0xF0) (byte_at c n))]] ++
  stop ++
  match parity_ ch with
  | UART_CONFIG_PARITY_ODD => pair (Z.lor LCR_PAEN LCR_PAR_ODD) (2 + length stop)%nat
  | UART_CONFIG_PARITY_EVEN => pair (Z.lor LCR_PAEN LCR_PAR_EVEN) (2 + length stop)%nat
  | UART_CONFIG_PARITY_NONE => []
  end.

(** The bytes of the read-modify-write steps of [set_line_param_] on a
    register that holds [g] and reads back what is written, as a test. *)
Definition line_steps_check (g : Z) : bool :=
  let cleared := u8 (Z.land (u8 0xF0) g) in
  let set_bits v x := u8 (Z.lor (u8 v) (u8 x)) in
  bool_decide (cleared = Z.lor (Z.land g 0xF0) 0) &&
  bool_decide (set_bits 1 cleared = Z.lor (Z.land g 0xF0) 1) &&
  bool_decide (set_bits 10 cleared = Z.lor (Z.land g 0xF0) 10) &&
  bool_decide (set_bits 12 cleared = Z.lor (Z.land g 0xF0) 12) &&
  bool_decide (set_bits 10 (set_bits 1 cleared) = Z.lor (Z.land g 0xF0) 11) &&
  bool_decide (set_bits 12 (set_bits 1 cleared) = Z.lor (Z.land g 0xF0) 13).

(** The bytes that the raw read of a transfer leaves in its local array:
    those the bus delivered, over the uninitialised array. *)
Definition delivered (build : Build) (ch : WK2132Channel) (c : WK2132Component) : list Z :=
  let c1 := snd (rx_in_fifo_ ch c) in
  let m := clamp build (fst (rx_in_fifo_ ch c))
                 (RingBuffer.free (RING_BUFFER_SIZE build) (receive_buffer_ ch)) in
  i2c.deposit m (i2c.received (reply_of c1 (length (traffic_of c1)))) (garbage c1 m).

(** The bytes held in the receive buffers of the channels. *)
Definition bytes_held (children : list WK2132Channel) : Z :=
  foldr (fun ch n => RingBuffer.count (receive_buffer_ ch) + n) 0 children.

(** What a transfer does to a channel: it appends to the bytes held. *)
Definition extended (SIZE : Z) (ch ch' : WK2132Channel) : Prop :=
  RingBuffer.wf SIZE (receive_buffer_ ch') /\
  ch' = set_receive_buffer (receive_buffer_ ch') ch /\
  exists data,
    RingBuffer.contents SIZE (receive_buffer_ ch') =
      RingBuffer.contents SIZE (receive_buffer_ ch) ++ data.

(** A channel as [setup_channel_] returns it. *)
Definition ready (ch : WK2132Channel) : WK2132Channel :=
  set_data_bits 8 (set_receive_buffer (RingBuffer.clear (receive_buffer_ ch)) ch).

(** The traffic of [c'] is that of [c] and then reads only. *)
Definition reads_only (c c' : WK2132Component) : Prop :=
  exists l, traffic_of c' = traffic_of c ++ l /\ forallb is_read l = true.

(** What a stretch of [flush] does to the run-time state. *)
Record waited (rt rt' : Runtime) : Prop := {
  waited_reads : reads_only (device rt) (device rt');
  waited_frame : frame (device rt) (device rt');
  waited_clock : clock rt' = clock rt;
  waited_journal :
    journal rt' = journal rt \/
    exists lines remaining,
      0 <= remaining <= 256 /\
      journal rt' = journal rt ++ [(lines, FlushTimeout remaining)]
}.

End wk2132_i2c_terms.

(** * Properties *)

(** ** Running state transformers *)

Lemma bind_run {S A B} (m : M S A) (k : A -> M S B) (s : S) :
  bind m k s = k (fst (m s)) (snd (m s)).
Proof. unfold bind. destruct (m s); reflexivity. Qed.

(** ** Machine integers *)

Lemma u8_range x : 0 <= u8 x < 256.
Proof. unfold u8. apply Z.mod_pos_bound. lia. Qed.

Lemma u8_small x : 0 <= x < 256 -> u8 x = x.
Proof. intros H. unfold u8. apply Z.mod_small. lia. Qed.

Lemma u16_range x : 0 <= u16 x < 65536.
Proof. unfold u16. apply Z.mod_pos_bound. lia. Qed.

Lemma u32_range x : 0 <= u32 x < 2 ^ 32.
Proof. unfold u32. apply Z.mod_pos_bound. lia. Qed.

Lemma u32_small x : 0 <= x < 2 ^ 32 -> u32 x = x.
Proof. intros H. unfold u32. apply Z.mod_small. lia. Qed.

(** ** Baud-rate arithmetic *)

Section BaudFacts.
Import baud.

Lemma divisor_range baud_rate : 0 <= divisor baud_rate < 2 ^ 32.
Proof. apply u32_range. Qed.

Lemma val_dec_zero crystal baud_rate :
  divisor baud_rate <> 0 -> val_dec crystal baud_rate = 0.
Proof.
  intros Hd. unfold val_dec.
  pose proof (divisor_range baud_rate) as Hr.
  rewrite Z.div_small; [reflexivity|].
  apply Z.mod_pos_bound. lia.
Qed.

Lemma reduce_loop_at_most_ten fuel : forall v,
  0 <= v < 10 ^ Z.of_nat fuel -> v < 65536 ->
  fst (reduce_loop fuel v) <= 10.
Proof.
  induction fuel as [|fuel IH]; intros v Hv Hv16.
  - simpl in *. lia.
  - cbn [reduce_loop]. case_bool_decide as Hgt; [|simpl; lia].
    assert (Hq : 0 <= v / 10 < 10 ^ Z.of_nat fuel).
    { split; [apply Z.div_pos; lia|].
      apply Z.div_lt_upper_bound; [lia|].
      rewrite Nat2Z.inj_succ, Z.pow_succ_r in Hv by lia. lia. }
    assert (Hq16 : v / 10 < 65536).
    { apply Z.div_lt_upper_bound; lia. }
    change 0x0A with 10.
    assert (Hu : u16 (v / 10) = v / 10).
    { unfold u16. apply Z.mod_small. lia. }
    rewrite Hu.
    specialize (IH (v / 10) Hq Hq16).
    destruct (reduce_loop fuel (v / 10)); simpl in *. exact IH.
Qed.

(** The loop always ends within its fuel: it is left with a value that no
    longer exceeds ten. *)
Lemma reduce_total v : 0 <= v < 65536 -> fst (reduce v) <= 10.
Proof.
  intros Hv. apply reduce_loop_at_most_ten; [|lia].
  unfold reduce_fuel. change (10 ^ Z.of_nat 16) with 10000000000000000. lia.
Qed.
End BaudFacts.

(** ** Arrays *)

Lemma array_get_lookup (a : list Z) (i : nat) (x : Z) :
  a !! i = Some x -> array_get a (Z.of_nat i) = x.
Proof.
  intros H. unfold array_get.
  rewrite bool_decide_eq_true_2 by lia. rewrite Nat2Z.id, H. reflexivity.
Qed.

Lemma array_get_set_eq (a : list Z) (i x : Z) :
  0 <= i < Z.of_nat (length a) -> array_get (array_set a i x) i = x.
Proof.
  intros H. unfold array_get, array_set.
  rewrite !bool_decide_eq_true_2 by lia.
  rewrite list_lookup_insert_eq by lia. reflexivity.
Qed.

Lemma array_get_set_ne (a : list Z) (i j x : Z) :
  0 <= i -> 0 <= j -> i <> j -> array_get (array_set a i x) j = array_get a j.
Proof.
  intros Hi Hj Hne. unfold array_get, array_set.
  rewrite !bool_decide_eq_true_2 by lia.
  rewrite list_lookup_insert_ne by lia. reflexivity.
Qed.

Lemma array_set_length (a : list Z) (i x : Z) : length (array_set a i x) = length a.
Proof. unfold array_set. case_bool_decide; [apply length_insert | reflexivity]. Qed.

Lemma slice_succ a i n : slice a i (S n) = array_get a i :: slice a (i + 1) n.
Proof.
  unfold slice. cbn [seq fmap list_fmap]. rewrite Z.add_0_r. f_equal.
  rewrite <- seq_shift, <- list_fmap_compose. apply list_fmap_ext.
  intros _ k _. cbn. f_equal. lia.
Qed.

Lemma slice_all (a : list Z) : slice a 0 (length a) = a.
Proof.
  unfold slice. apply list_eq. intros k.
  rewrite list_lookup_fmap.
  destruct (a !! k) as [x|] eqn:Hk.
  - rewrite lookup_seq_lt by (eapply lookup_lt_Some; eauto).
    cbn [fmap option_fmap option_map Nat.add]. rewrite Z.add_0_l.
    f_equal. apply array_get_lookup, Hk.
  - rewrite lookup_seq_ge by (apply lookup_ge_None; exact Hk). reflexivity.
Qed.

Lemma length_slice a i n : length (slice a i n) = n.
Proof. unfold slice. rewrite length_fmap, length_seq. reflexivity. Qed.

(** ** Modular steps of the ring indices *)

Lemma mod_wrap (a S : Z) :
  0 <= a < 2 * S -> a mod S = if bool_decide (a < S) then a else a - S.
Proof.
  intros H. case_bool_decide.
  - apply Z.mod_small. lia.
  - symmetry. apply (Z.mod_unique a S 1); lia.
Qed.

Lemma to_int_small x : - 2 ^ 31 <= x < 2 ^ 31 -> to_int x = x.
Proof. intros H. unfold to_int. rewrite Z.mod_small; lia. Qed.

Section RingBufferContents.
Import RingBuffer.
Variable SIZE : Z.

Lemma next_spec idx :
  0 < SIZE < 2 ^ 31 -> 0 <= idx < SIZE -> next SIZE idx = (idx + 1) mod SIZE.
Proof.
  intros HS Hi. unfold next.
  rewrite u32_small by lia.
  apply to_int_small.
  pose proof (Z.mod_pos_bound (idx + 1) SIZE ltac:(lia)). lia.
Qed.

Lemma free_spec b : SIZE < 2 ^ 32 -> bounded SIZE b -> free SIZE b = SIZE - count_ b.
Proof. intros HS Hb. unfold free, size_t, bounded in *. apply u32_small. lia. Qed.

Lemma length_contents b : 0 <= count_ b -> Z.of_nat (length (contents SIZE b)) = count_ b.
Proof. intros H. unfold contents. rewrite length_fmap, length_seq. lia. Qed.

Lemma contents_empty b : count_ b = 0 -> contents SIZE b = [].
Proof. intros H. unfold contents. rewrite H. reflexivity. Qed.

Lemma push_spec item b :
  wf SIZE b -> count_ b < SIZE ->
  let b' := snd (push SIZE item b) in
  fst (push SIZE item b) = true /\
  wf SIZE b' /\
  count_ b' = count_ b + 1 /\
  contents SIZE b' = contents SIZE b ++ [item].
Proof.
  intros [HS Hlen Ht Hc Hh] Hlt. unfold push, is_full.
  rewrite bool_decide_eq_false_2 by lia. cbn [fst snd].
  assert (Hcount : size_t (count_ b + 1) = count_ b + 1).
  { unfold size_t. apply u32_small. lia. }
  pose proof (Z.mod_pos_bound (tail_ b + count_ b) SIZE ltac:(lia)) as Hhb.
  split; [reflexivity|]. split; [|split].
  - split; cbn [rb_ tail_ head_ count_]; try lia.
    + rewrite array_set_length. exact Hlen.
    + rewrite next_spec by (rewrite ?Hh; lia).
      rewrite Hcount, Hh, Z.add_mod_idemp_l by lia. f_equal. lia.
  - exact Hcount.
  - unfold contents. cbn [rb_ tail_ head_ count_]. rewrite Hcount.
    replace (Z.to_nat (count_ b + 1)) with (Z.to_nat (count_ b) + 1)%nat by lia.
    rewrite seq_app, fmap_app. cbn [seq fmap list_fmap]. f_equal.
    + apply list_fmap_ext. intros j k Hk.
      apply lookup_seq in Hk as [Hk1 Hk2]. cbn in Hk1. subst j. cbn beta.
      pose proof (Z.mod_pos_bound (tail_ b + Z.of_nat k) SIZE ltac:(lia)).
      apply array_get_set_ne; [lia | lia |].
      rewrite Hh, (mod_wrap (tail_ b + count_ b)), (mod_wrap (tail_ b + Z.of_nat k)) by lia.
      repeat case_bool_decide; lia.
    + f_equal. cbn. rewrite Z2Nat.id, <- Hh by lia.
      apply array_get_set_eq. lia.
Qed.

Lemma pop_spec item b :
  wf SIZE b -> 0 < count_ b ->
  let b' := snd (pop SIZE item b) in
  fst (pop SIZE item b) = (true, array_get (rb_ b) (tail_ b)) /\
  wf SIZE b' /\
  count_ b' = count_ b - 1 /\
  contents SIZE b = array_get (rb_ b) (tail_ b) :: contents SIZE b'.
Proof.
  intros [HS Hlen Ht Hc Hh] Hpos. unfold pop, is_empty.
  rewrite bool_decide_eq_false_2 by lia. cbn [fst snd].
  assert (Hcount : size_t (count_ b - 1) = count_ b - 1).
  { unfold size_t. apply u32_small. lia. }
  pose proof (Z.mod_pos_bound (tail_ b + 1) SIZE ltac:(lia)) as Htb.
  split; [reflexivity|]. split; [|split].
  - split; cbn [rb_ tail_ head_ count_]; rewrite ?next_spec by lia; try lia.
    rewrite Hcount, Hh, Z.add_mod_idemp_l by lia. f_equal. lia.
  - exact Hcount.
  - unfold contents. cbn [rb_ tail_ head_ count_]. rewrite Hcount, next_spec by lia.
    replace (Z.to_nat (count_ b)) with (S (Z.to_nat (count_ b - 1))) by lia.
    cbn [seq fmap list_fmap]. f_equal.
    + f_equal. rewrite Z.add_0_r. apply Z.mod_small. lia.
    + rewrite <- seq_shift, <- list_fmap_compose. apply list_fmap_ext.
      intros _ k _. cbn. f_equal. rewrite Z.add_mod_idemp_l by lia. f_equal. lia.
Qed.
End RingBufferContents.

(** ** The counter of the ring buffer *)

Section RingBufferFacts.
Import RingBuffer.
Variable SIZE : Z.
Hypothesis SIZE_nonneg : 0 <= SIZE.

Lemma step_bounded b o : bounded SIZE b -> bounded SIZE (step SIZE b o).
Proof.
  unfold bounded. intros Hb.
  destruct o as [item| | |]; simpl.
  - unfold push, is_full. case_bool_decide as Hfull; simpl; [lia|].
    unfold size_t, u32.
    assert (0 <= (count_ b + 1) mod 2 ^ 32 <= count_ b + 1).
    { split; [apply Z.mod_pos_bound; lia | apply Z.mod_le; lia]. }
    lia.
  - unfold pop, is_empty. case_bool_decide as Hempty; simpl; [lia|].
    unfold size_t, u32.
    assert (0 <= (count_ b - 1) mod 2 ^ 32 <= count_ b - 1).
    { split; [apply Z.mod_pos_bound; lia | apply Z.mod_le; lia]. }
    lia.
  - unfold peek. destruct (is_empty b); simpl; lia.
  - lia.
Qed.

Lemma run_bounded ops : forall b, bounded SIZE b -> bounded SIZE (run SIZE ops b).
Proof.
  induction ops as [|o ops IH]; intros b Hb; simpl; [done|].
  apply IH, step_bounded, Hb.
Qed.

Lemma init_bounded : bounded SIZE (init SIZE).
Proof. unfold bounded; simpl; lia. Qed.
End RingBufferFacts.


(** ** Console *)

Lemma uart_setups_app l1 l2 : uart_setups (l1 ++ l2) = uart_setups l1 ++ uart_setups l2.
Proof. unfold uart_setups. apply omap_app. Qed.

(** ** The register proxy and the setup path of wk2132_i2c.cpp *)

Module wk2132_i2c_facts.
Import wk2132_i2c.

Lemma frame_refl c : frame c c.
Proof. split; reflexivity. Qed.

Lemma frame_trans c1 c2 c3 : frame c1 c2 -> frame c2 c3 -> frame c1 c3.
Proof.
  intros [] []. split; first [congruence | intros n; etransitivity; eauto].
Qed.

Lemma quiet_ret {A} (a : A) : quiet (ret a).
Proof. intros c. apply frame_refl. Qed.

Lemma quiet_bind {A B} (m : M WK2132Component A) (k : A -> M WK2132Component B) :
  quiet m -> (forall a, quiet (k a)) -> quiet (bind m k).
Proof.
  intros Hm Hk c. rewrite bind_run.
  eapply frame_trans; [apply Hm | apply Hk].
Qed.

Lemma quiet_set_page1 p : quiet (set_page1 p).
Proof. intros c. split; reflexivity. Qed.

Ltac frame_by_computation :=
  split; try reflexivity;
  unfold console_of, inherited, host.log; cbn;
  rewrite ?uart_setups_app; cbn; rewrite ?app_nil_r; reflexivity.

Lemma set_spec r value c :
  let c' := snd (set r value c) in
  traffic_of c' =
    traffic_of c ++ [i2c.WriteRegister (register_address c r) (register_ r) [u8 value]] /\
  warning_ (host c') = negb (i2c.is_ok (i2c.code (reply_of c (length (traffic_of c))))) /\
  page1_ c' = page1_ c /\
  frame c c'.
Proof.
  unfold set, bind, inherited, host.write_register, host.transact, i2c.exchange,
    host.set_address, traffic_of, reply_of, register_address. cbn.
  destruct (i2c.is_ok _) eqn:Hok; cbn; rewrite ?Hok;
    repeat (split; [reflexivity|]); frame_by_computation.
Qed.

Lemma get_spec r c :
  let c' := snd (get r c) in
  traffic_of c' =
    traffic_of c ++ [i2c.ReadRegister (register_address c r) (register_ r) 1] /\
  fst (get r c) =
    array_get (i2c.deposit 1 (i2c.received (reply_of c (length (traffic_of c)))) [0]) 0 /\
  page1_ c' = page1_ c /\
  frame c c'.
Proof.
  unfold get, bind, inherited, host.read_register, host.transact, i2c.exchange,
    host.set_address, traffic_of, reply_of, register_address. cbn.
  destruct (i2c.is_ok _) eqn:Hok; cbn;
    repeat (split; [reflexivity|]); frame_by_computation.
Qed.

Lemma quiet_set r value : quiet (set r value).
Proof. intros c. apply set_spec. Qed.

Lemma quiet_get r : quiet (get r).
Proof. intros c. apply get_spec. Qed.

Lemma quiet_assign r value : quiet (assign r value).
Proof. apply quiet_set. Qed.

Lemma quiet_and_assign r value : quiet (and_assign r value).
Proof. apply quiet_bind; [apply quiet_get | intros; apply quiet_set]. Qed.

Lemma quiet_or_assign r value : quiet (or_assign r value).
Proof. apply quiet_bind; [apply quiet_get | intros; apply quiet_set]. Qed.

Lemma quiet_select_page ch page : quiet (select_page ch page).
Proof. apply quiet_bind; [apply quiet_set_page1 | intros; apply quiet_assign]. Qed.

Create HintDb quiet.
#[export] Hint Resolve quiet_ret quiet_set quiet_get quiet_assign quiet_and_assign
  quiet_or_assign quiet_select_page quiet_set_page1 : quiet.

Ltac quiet_steps :=
  repeat first
    [ apply quiet_bind; [|intros]
    | progress auto with quiet
    | match goal with
      | |- quiet (if ?b then _ else _) => destruct b
      | |- quiet (match ?p with _ => _ end) => destruct p
      end ].

(** For a method that first reads members of the state it is run on. *)
Ltac quiet_at_state :=
  match goal with
  | |- frame ?c (snd (?m ?c)) =>
      let H := fresh in
      assert (H : quiet m) by quiet_steps; apply H
  end.

Lemma quiet_reset_fifo ch : quiet (reset_fifo_ ch).
Proof. apply quiet_assign. Qed.

Lemma quiet_set_line_param ch : quiet (set_line_param_ ch).
Proof. unfold set_line_param_. quiet_steps. Qed.

Lemma quiet_set_baudrate ch : quiet (set_baudrate_ ch).
Proof. intros c. unfold set_baudrate_. cbv zeta. quiet_at_state. Qed.
#[export] Hint Resolve quiet_reset_fifo quiet_set_line_param quiet_set_baudrate : quiet.

Lemma select_page_spec ch page c :
  let c' := snd (select_page ch page c) in
  traffic_of c' =
    traffic_of c ++ [i2c.WriteRegister (i2c_address (base_address_ c) (channel_ ch) 0)
                                       REG_WK2132_SPAGE [if page then 1 else 0]] /\
  page1_ c' = page.
Proof.
  unfold select_page, assign. rewrite bind_run.
  set (c1 := snd (set_page1 page c)).
  destruct (set_spec (channel_reg ch REG_WK2132_SPAGE) (if page then 1 else 0) c1)
    as (Ht & _ & Hp & _).
  cbv zeta. rewrite Ht, Hp. split; [|reflexivity].
  unfold register_address, channel_reg. subst c1. cbn [register_ reg_channel_].
  destruct page; reflexivity.
Qed.

Lemma set_baudrate_spec ch c :
  let c' := snd (set_baudrate_ ch c) in
  let address := i2c_address (base_address_ c) (channel_ ch) 0 in
  traffic_of c' =
    traffic_of c ++
      [i2c.WriteRegister address REG_WK2132_SPAGE [1];
       i2c.WriteRegister address REG_WK2132_BRH [u8 (baud.baud_high (crystal_ c) (baud_rate_ ch))];
       i2c.WriteRegister address REG_WK2132_BRL [u8 (baud.baud_low (crystal_ c) (baud_rate_ ch))];
       i2c.WriteRegister address REG_WK2132_BRD [u8 (baud.baud_dec (crystal_ c) (baud_rate_ ch))];
       i2c.WriteRegister address REG_WK2132_SPAGE [0]] /\
  page1_ c' = false.
Proof.
  unfold set_baudrate_, assign. rewrite !bind_run.
  set (hi := baud.baud_high _ _). set (lo := baud.baud_low _ _).
  set (dec := baud.baud_dec _ _).
  set (c1 := snd (select_page ch true c)).
  set (c2 := snd (set (channel_reg ch REG_WK2132_BRH) hi c1)).
  set (c3 := snd (set (channel_reg ch REG_WK2132_BRL) lo c2)).
  set (c4 := snd (set (channel_reg ch REG_WK2132_BRD) dec c3)).
  destruct (select_page_spec ch true c) as (T1 & _).
  pose proof (quiet_select_page ch true c) as S1. fold c1 in T1, S1.
  destruct (set_spec (channel_reg ch REG_WK2132_BRH) hi c1) as (T2 & _ & _ & S2).
  fold c2 in T2, S2.
  destruct (set_spec (channel_reg ch REG_WK2132_BRL) lo c2) as (T3 & _ & _ & S3).
  fold c3 in T3, S3.
  destruct (set_spec (channel_reg ch REG_WK2132_BRD) dec c3) as (T4 & _ & _ & S4).
  fold c4 in T4, S4.
  destruct (select_page_spec ch false c4) as (T5 & P5).
  cbv zeta. rewrite T5, T4, T3, T2, T1, P5.
  unfold register_address, channel_reg. cbn [register_ reg_channel_].
  pose proof (frame_trans _ _ _ S1 S2) as S12.
  pose proof (frame_trans _ _ _ S12 S3) as S13.
  pose proof (frame_trans _ _ _ S13 S4) as S14.
  rewrite (same_base_address _ _ S14), (same_base_address _ _ S13),
    (same_base_address _ _ S12), (same_base_address _ _ S1).
  rewrite <- !app_assoc. cbn [app].
  split; reflexivity.
Qed.

(** The compound assignments: the read, then the write, whatever the read
    gave. *)
Lemma compound_spec (op : Z -> Z -> Z) r value c :
  let m := let value := u8 value in
           let* got := get r in let value := op value got in set r value in
  let c' := snd (m c) in
  let got := fst (get r c) in
  traffic_of c' =
    traffic_of c ++ [i2c.ReadRegister (register_address c r) (register_ r) 1;
                     i2c.WriteRegister (register_address c r) (register_ r)
                                       [u8 (op (u8 value) got)]] /\
  warning_ (host c') =
    negb (i2c.is_ok (i2c.code (reply_of c (S (length (traffic_of c)))))).
Proof.
  cbv zeta. rewrite bind_run.
  set (c1 := snd (get r c)).
  destruct (get_spec r c) as (T1 & _ & _ & S1). fold c1 in T1, S1.
  destruct (set_spec r (op (u8 value) (fst (get r c))) c1) as (T2 & W2 & _ & _).
  rewrite T2, W2, T1. unfold register_address.
  rewrite (same_base_address _ _ S1), (same_replies _ _ S1).
  rewrite <- app_assoc, length_app. cbn [app length].
  rewrite Nat.add_1_r. split; reflexivity.
Qed.

Lemma announces_quiet {A} (m : M WK2132Component A) : quiet m -> announces m [].
Proof. intros Hm c. rewrite (same_setups _ _ (Hm c)), app_nil_r. reflexivity. Qed.

Lemma announces_bind {A B} (m : M WK2132Component A) (k : A -> M WK2132Component B)
      l1 l2 :
  announces m l1 -> (forall a, announces (k a) l2) -> announces (bind m k) (l1 ++ l2).
Proof.
  intros Hm Hk c. rewrite bind_run, Hk, Hm, app_assoc. reflexivity.
Qed.

Lemma announces_log l :
  announces (inherited (host.log l)) (uart_setups [l]).
Proof. intros c. cbn -[uart_setups]. apply uart_setups_app. Qed.

Lemma announces_set_base_address a : announces (set_base_address a) [].
Proof. intros c. cbn. rewrite app_nil_r. reflexivity. Qed.

Lemma setup_channel_announces ch :
  announces (setup_channel_ ch) [inl (channel_name_ ch)].
Proof.
  unfold setup_channel_.
  apply (announces_bind _ _ [inl (channel_name_ ch)] []).
  - apply announces_log.
  - intros _. apply announces_quiet. quiet_steps.
Qed.

Lemma setup_children_announces children :
  announces (setup_children children) (inl ∘ channel_name_ <$> children).
Proof.
  induction children as [|child rest IH]; cbn [setup_children fmap list_fmap].
  - apply announces_quiet, quiet_ret.
  - apply (announces_bind _ _ [_] _); [apply setup_channel_announces|].
    intros child'. rewrite <- (app_nil_r (_ <$> rest)).
    apply announces_bind; [exact IH|].
    intros rest'. apply announces_quiet, quiet_ret.
Qed.

Lemma setup_announces children :
  announces (setup children) (inl ∘ channel_name_ <$> children).
Proof.
  intros c. unfold setup.
  match goal with
  | |- context [snd (?m c)] =>
      assert (H : announces m (inl ∘ channel_name_ <$> children)); [|apply H]
  end.
  apply (announces_bind _ _ [] _); [apply announces_set_base_address|]. intros _.
  apply (announces_bind _ _ [] _); [apply announces_log|]. intros _.
  apply (announces_bind _ _ [] _); [apply announces_quiet; quiet_steps|]. intros _.
  apply (announces_bind _ _ [] _); [apply announces_quiet; quiet_steps|]. intros _.
  apply (announces_bind _ _ [] _); [apply announces_quiet; quiet_steps|]. intros _.
  apply (announces_bind _ _ [] _); [apply announces_quiet; quiet_steps|]. intros _.
  apply setup_children_announces.
Qed.
End wk2132_i2c_facts.

(** ** The setup path of wk2132.cpp *)

Module wk2132_facts.
Import wk2132.

Lemma legacy_frame_refl c : frame c c.
Proof. split; reflexivity. Qed.

Lemma legacy_frame_trans c1 c2 c3 : frame c1 c2 -> frame c2 c3 -> frame c1 c3.
Proof. intros [] []. split; congruence. Qed.

Lemma legacy_quiet_ret {A} (a : A) : quiet (ret a).
Proof. intros c. apply legacy_frame_refl. Qed.

Lemma legacy_quiet_bind {A B} (m : M WK2132Component A) (k : A -> M WK2132Component B) :
  quiet m -> (forall a, quiet (k a)) -> quiet (bind m k).
Proof.
  intros Hm Hk c. rewrite bind_run.
  eapply legacy_frame_trans; [apply Hm | apply Hk].
Qed.

Lemma legacy_quiet_set_page1 p : quiet (set_page1 p).
Proof. intros c. split; reflexivity. Qed.

Lemma legacy_quiet_set_data d : quiet (set_data d).
Proof. intros c. split; reflexivity. Qed.

Lemma legacy_quiet_uninitialised n : quiet (inherited (host.uninitialised n)).
Proof. intros c. split; reflexivity. Qed.

Lemma legacy_quiet_log l : uart_setups [l] = [] -> quiet (inherited (host.log l)).
Proof.
  intros Hl c. split; try reflexivity.
  cbn -[uart_setups]. rewrite uart_setups_app, Hl, app_nil_r. reflexivity.
Qed.

Ltac legacy_frame_by_computation :=
  split; try reflexivity;
  unfold console_of, inherited, host.log; cbn;
  rewrite ?uart_setups_app; cbn; rewrite ?app_nil_r; reflexivity.

Lemma legacy_write_spec reg_number channel buffer len c :
  let c' := snd (write_wk2132_register_ reg_number channel buffer len c) in
  traffic_of c' =
    traffic_of c ++ [i2c.WriteRegister (i2c_address (base_address_ c) channel 0)
                                       reg_number (take (Z.to_nat len) buffer)] /\
  page1_ c' = page1_ c /\
  frame c c'.
Proof.
  unfold write_wk2132_register_, bind, inherited, host.write_register, host.transact,
    i2c.exchange, host.set_address, traffic_of, reply_of. cbn.
  destruct (i2c.is_ok _) eqn:Hok; cbn;
    repeat (split; [reflexivity|]); legacy_frame_by_computation.
Qed.

Lemma legacy_read_spec reg_number channel buffer len c :
  let c' := snd (read_wk2132_register_ reg_number channel buffer len c) in
  traffic_of c' =
    traffic_of c ++ [i2c.ReadRegister (i2c_address (base_address_ c) channel 0)
                                      reg_number len] /\
  page1_ c' = page1_ c /\
  frame c c'.
Proof.
  unfold read_wk2132_register_, bind, inherited, host.read_register, host.transact,
    i2c.exchange, host.set_address, traffic_of, reply_of. cbn.
  destruct (i2c.is_ok _) eqn:Hok; cbn;
    repeat (split; [reflexivity|]); legacy_frame_by_computation.
Qed.

Lemma legacy_quiet_write reg_number channel buffer len :
  quiet (write_wk2132_register_ reg_number channel buffer len).
Proof. intros c. apply legacy_write_spec. Qed.

Lemma legacy_quiet_read reg_number channel buffer len :
  quiet (read_wk2132_register_ reg_number channel buffer len).
Proof. intros c. apply legacy_read_spec. Qed.

Create HintDb legacy_quiet.
#[export] Hint Resolve legacy_quiet_ret legacy_quiet_set_page1 legacy_quiet_set_data
  legacy_quiet_uninitialised
  legacy_quiet_write legacy_quiet_read : legacy_quiet.

Ltac legacy_quiet_steps :=
  repeat first
    [ apply legacy_quiet_bind; [|intros]
    | progress auto with legacy_quiet
    | apply legacy_quiet_log; reflexivity
    | match goal with
      | |- quiet (if ?b then _ else _) => destruct b
      | |- quiet (match ?p with _ => _ end) => destruct p
      end ].

Ltac legacy_quiet_at_state :=
  match goal with
  | |- frame ?c (snd (?m ?c)) =>
      let H := fresh in
      assert (H : quiet m) by legacy_quiet_steps; apply H
  end.

Lemma legacy_quiet_set_baudrate ch : quiet (set_baudrate_ ch).
Proof. intros c. unfold set_baudrate_. cbv zeta. legacy_quiet_at_state. Qed.

Lemma legacy_quiet_set_line_param ch : quiet (set_line_param_ ch).
Proof. unfold set_line_param_. legacy_quiet_steps. Qed.

#[export] Hint Resolve legacy_quiet_set_baudrate legacy_quiet_set_line_param : legacy_quiet.

Lemma legacy_set_baudrate_spec ch c :
  let c' := snd (set_baudrate_ ch c) in
  let address := i2c_address (base_address_ c) (channel_ ch) 0 in
  traffic_of c' =
    traffic_of c ++
      [i2c.WriteRegister address REG_WK2132_SPAGE [1];
       i2c.WriteRegister address REG_WK2132_BRH [baud.baud_high (crystal_ c) (baud_rate_ ch)];
       i2c.WriteRegister address REG_WK2132_BRL [baud.baud_low (crystal_ c) (baud_rate_ ch)];
       i2c.WriteRegister address REG_WK2132_BRD [baud.baud_dec (crystal_ c) (baud_rate_ ch)];
       i2c.WriteRegister address REG_WK2132_SPAGE [0]] /\
  page1_ c' = false.
Proof.
  unfold set_baudrate_. rewrite !bind_run.
  set (hi := baud.baud_high _ _). set (lo := baud.baud_low _ _).
  set (dec := baud.baud_dec _ _).
  set (c1 := snd (write_wk2132_register_ REG_WK2132_SPAGE (channel_ ch) [1] 1 c)).
  set (c1' := snd (set_page1 true c1)).
  set (c2 := snd (write_wk2132_register_ REG_WK2132_BRH (channel_ ch) [hi] 1 c1')).
  set (c3 := snd (write_wk2132_register_ REG_WK2132_BRL (channel_ ch) [lo] 1 c2)).
  set (c4 := snd (write_wk2132_register_ REG_WK2132_BRD (channel_ ch) [dec] 1 c3)).
  set (c5 := snd (write_wk2132_register_ REG_WK2132_SPAGE (channel_ ch) [0] 1 c4)).
  destruct (legacy_write_spec REG_WK2132_SPAGE (channel_ ch) [1] 1 c) as (T1 & _ & S1).
  fold c1 in T1, S1.
  destruct (legacy_write_spec REG_WK2132_BRH (channel_ ch) [hi] 1 c1') as (T2 & _ & S2).
  fold c2 in T2, S2.
  destruct (legacy_write_spec REG_WK2132_BRL (channel_ ch) [lo] 1 c2) as (T3 & _ & S3).
  fold c3 in T3, S3.
  destruct (legacy_write_spec REG_WK2132_BRD (channel_ ch) [dec] 1 c3) as (T4 & _ & S4).
  fold c4 in T4, S4.
  destruct (legacy_write_spec REG_WK2132_SPAGE (channel_ ch) [0] 1 c4) as (T5 & _ & S5).
  fold c5 in T5, S5.
  cbv zeta. split; [|reflexivity].
  change (traffic_of
            (snd (inherited (host.log (BaudRegisters (crystal_ c) (baud_rate_ ch) hi lo dec))
                             (snd (set_page1 false c5))))) with (traffic_of c5).
  rewrite T5, T4, T3, T2. change (traffic_of c1') with (traffic_of c1). rewrite T1.
  pose proof (legacy_frame_trans _ _ _ S1 (legacy_quiet_set_page1 true c1)) as S1'. fold c1' in S1'.
  pose proof (legacy_frame_trans _ _ _ S1' S2) as S12.
  pose proof (legacy_frame_trans _ _ _ S12 S3) as S13.
  pose proof (legacy_frame_trans _ _ _ S13 S4) as S14.
  rewrite (same_base_address _ _ S14), (same_base_address _ _ S13),
    (same_base_address _ _ S12), (same_base_address _ _ S1').
  rewrite <- !app_assoc. reflexivity.
Qed.

Lemma legacy_announces_quiet {A} (m : M WK2132Component A) : quiet m -> announces m [].
Proof. intros Hm c. rewrite (same_setups _ _ (Hm c)), app_nil_r. reflexivity. Qed.

Lemma legacy_announces_bind {A B} (m : M WK2132Component A) (k : A -> M WK2132Component B)
      l1 l2 :
  announces m l1 -> (forall a, announces (k a) l2) -> announces (bind m k) (l1 ++ l2).
Proof.
  intros Hm Hk c. rewrite bind_run, Hk, Hm, app_assoc. reflexivity.
Qed.

Lemma legacy_announces_log l :
  announces (inherited (host.log l)) (uart_setups [l]).
Proof. intros c. cbn -[uart_setups]. apply uart_setups_app. Qed.

Lemma legacy_announces_set_base_address a : announces (set_base_address a) [].
Proof. intros c. cbn. rewrite app_nil_r. reflexivity. Qed.

Lemma legacy_setup_channel_announces ch :
  announces (setup_channel_ ch) [inr (channel_ ch)].
Proof.
  unfold setup_channel_.
  apply (legacy_announces_bind _ _ [inr (channel_ ch)] []).
  - apply legacy_announces_log.
  - intros _. apply legacy_announces_quiet. legacy_quiet_steps.
Qed.

Lemma legacy_setup_children_announces children :
  announces (setup_children children) (inr ∘ channel_ <$> children).
Proof.
  induction children as [|child rest IH]; cbn [setup_children fmap list_fmap].
  - apply legacy_announces_quiet, legacy_quiet_ret.
  - apply (legacy_announces_bind _ _ [_] _); [apply legacy_setup_channel_announces|].
    intros child'. rewrite <- (app_nil_r (_ <$> rest)).
    apply legacy_announces_bind; [exact IH|].
    intros rest'. apply legacy_announces_quiet, legacy_quiet_ret.
Qed.

Lemma legacy_setup_announces children :
  announces (setup children) (inr ∘ channel_ <$> children).
Proof.
  intros c. unfold setup.
  match goal with
  | |- context [snd (?m c)] =>
      assert (H : announces m (inr ∘ channel_ <$> children)); [|apply H]
  end.
  apply (legacy_announces_bind _ _ [] _); [apply legacy_announces_set_base_address|]. intros _.
  apply (legacy_announces_bind _ _ [] _); [apply legacy_announces_log|]. intros _.
  apply (legacy_announces_bind _ _ [] _);
    [apply legacy_announces_quiet; legacy_quiet_steps|]. intros [_ data].
  apply (legacy_announces_bind _ _ [] _);
    [apply legacy_announces_quiet; legacy_quiet_steps|]. intros _.
  apply legacy_setup_children_announces.
Qed.
End wk2132_facts.

(** ** The data path of wk2132_i2c.cpp *)

Module wk2132_i2c_data.
Import wk2132_i2c wk2132_i2c_facts.

Lemma length_deposit len delivered buffer :
  length (i2c.deposit len delivered buffer) = length buffer.
Proof.
  unfold i2c.deposit. cbv zeta.
  rewrite length_take, length_app, length_drop. lia.
Qed.

Lemma deposit_nothing len buffer : i2c.deposit len [] buffer = buffer.
Proof.
  unfold i2c.deposit. rewrite take_nil. cbn. apply take_ge. lia.
Qed.

Lemma deposit_byte_range len delivered :
  0 <= array_get (i2c.deposit len delivered [0]) 0 < 256.
Proof.
  unfold i2c.deposit, array_get. cbv zeta.
  rewrite bool_decide_eq_true_2 by lia. change (Z.to_nat 0) with 0%nat.
  destruct (take (Z.to_nat len) delivered) as [|x rest]; cbn; [lia|].
  apply u8_range.
Qed.

Lemma get_range r c : 0 <= fst (get r c) < 256.
Proof.
  destruct (get_spec r c) as (_ & -> & _). apply deposit_byte_range.
Qed.

Lemma rx_in_fifo_range ch c : 0 <= fst (rx_in_fifo_ ch c) <= 256.
Proof.
  unfold rx_in_fifo_. rewrite bind_run.
  pose proof (get_range (channel_reg ch REG_WK2132_RFCNT) c) as Hr.
  case_bool_decide as Hz.
  - rewrite bind_run. case_bool_decide; unfold ret, FIFO_SIZE; cbn [fst]; lia.
  - unfold ret. cbn [fst]. lia.
Qed.

Lemma quiet_rx_in_fifo ch : quiet (rx_in_fifo_ ch).
Proof. unfold rx_in_fifo_. quiet_steps. Qed.

Lemma read_fifo_spec ch n c :
  let reply := reply_of c (length (traffic_of c)) in
  let r := read_fifo ch n c in
  fst (fst r) = i2c.code reply /\
  snd (fst r) = i2c.deposit n (i2c.received reply) (garbage c n) /\
  traffic_of (snd r) =
    traffic_of c ++ [i2c.Read (i2c_address (base_address_ c) (channel_ ch) 1) n] /\
  console_of (snd r) =
    console_of c ++ (if i2c.is_ok (i2c.code reply) then [] else [XferError (i2c.code reply)]).
Proof.
  unfold read_fifo, bind, inherited, host.uninitialised, host.set_address, host.read,
    host.transact, i2c.exchange, traffic_of, console_of, reply_of, garbage. cbn.
  destruct (i2c.is_ok _) eqn:Hok; cbn; rewrite ?app_nil_r; auto.
Qed.

Section WithBuild.
Variable build : Build.
#[local] Abbreviation SIZE := (RING_BUFFER_SIZE build).

Lemma XFER_MAX_SIZE_range : 0 <= XFER_MAX_SIZE build < 2 ^ 32.
Proof.
  unfold XFER_MAX_SIZE. destruct (_ && _); [lia|]. apply u32_range.
Qed.

Lemma clamp_min to_transfer free :
  clamp build to_transfer free = Z.min (Z.min to_transfer (XFER_MAX_SIZE build)) free.
Proof. unfold clamp. repeat case_bool_decide; lia. Qed.

(** With room for [n] more bytes every push of the loop is accepted. *)
Lemma push_loop_accepts n : forall i data b,
  RingBuffer.bounded SIZE b ->
  RingBuffer.count_ b + Z.of_nat n <= SIZE ->
  fst (push_loop build n i data b) = replicate n true /\
  RingBuffer.count_ (snd (push_loop build n i data b)) =
    RingBuffer.count_ b + Z.of_nat n.
Proof.
  pose proof XFER_MAX_SIZE_range as HS. change (XFER_MAX_SIZE build) with SIZE in HS.
  induction n as [|n IH]; intros i data b Hb Hroom; cbn [push_loop replicate].
  - cbn. split; [reflexivity | lia].
  - unfold RingBuffer.bounded in Hb.
    unfold RingBuffer.push at 1 2, RingBuffer.is_full.
    rewrite bool_decide_eq_false_2 by lia.
    set (b' := RingBuffer.Make _ _ _ _).
    assert (Hc : RingBuffer.count_ b' = RingBuffer.count_ b + 1).
    { subst b'. cbn. unfold size_t. apply u32_small. lia. }
    destruct (IH (i + 1) data b') as (Hr & Hn).
    { unfold RingBuffer.bounded. lia. }
    { lia. }
    destruct (push_loop build n (i + 1) data b') as [results b'']. cbn in *.
    split; [f_equal; exact Hr | lia].
Qed.

(** On a buffer in good order the loop appends the bytes it is given. *)
Lemma push_loop_appends n : forall i data b,
  RingBuffer.wf SIZE b ->
  RingBuffer.count_ b + Z.of_nat n <= SIZE ->
  RingBuffer.wf SIZE (snd (push_loop build n i data b)) /\
  RingBuffer.contents SIZE (snd (push_loop build n i data b)) =
    RingBuffer.contents SIZE b ++ slice data i n.
Proof.
  induction n as [|n IH]; intros i data b Hwf Hroom; cbn [push_loop].
  - cbn. rewrite app_nil_r. auto.
  - destruct (push_spec SIZE (array_get data i) b Hwf ltac:(lia))
      as (_ & Hwf' & Hc' & Hcont').
    destruct (RingBuffer.push SIZE (array_get data i) b) as [pushed b']. cbn [snd] in *.
    destruct (IH (i + 1) data b' Hwf' ltac:(lia)) as (Hwf'' & Hcont'').
    destruct (push_loop build n (i + 1) data b') as [results b'']. cbn [snd] in *.
    split; [exact Hwf''|].
    rewrite Hcont'', Hcont', slice_succ, <- app_assoc. reflexivity.
Qed.

(** The loop of [read_array] moves the oldest [n] bytes into the
    caller's array, from index [i] on. *)
Lemma pop_loop_moves n : forall (i : nat) buffer b,
  RingBuffer.wf SIZE b ->
  Z.of_nat n <= RingBuffer.count_ b ->
  (i + n <= length buffer)%nat ->
  let r := pop_loop build n (Z.of_nat i) buffer b in
  fst r = take i buffer ++ take n (RingBuffer.contents SIZE b) ++ drop (i + n) buffer /\
  RingBuffer.wf SIZE (snd r) /\
  RingBuffer.count_ (snd r) = RingBuffer.count_ b - Z.of_nat n /\
  RingBuffer.contents SIZE (snd r) = drop n (RingBuffer.contents SIZE b).
Proof.
  induction n as [|n IH]; intros i buffer b Hwf Hn Hlen; cbn [pop_loop].
  - cbv zeta. cbn [fst snd].
    rewrite take_0, drop_0, Nat.add_0_r, app_nil_l, take_drop. change (Z.of_nat 0) with 0.
    rewrite Z.sub_0_r. auto.
  - destruct (pop_spec SIZE (array_get buffer (Z.of_nat i)) b Hwf ltac:(lia))
      as (Hr & Hwf' & Hc' & Hcont').
    destruct (RingBuffer.pop SIZE (array_get buffer (Z.of_nat i)) b) as [[ok item] b'].
    cbn [fst snd] in *. injection Hr as -> ->.
    replace (Z.of_nat i + 1) with (Z.of_nat (S i)) by lia.
    set (buffer' := array_set buffer (Z.of_nat i) _).
    destruct (IH (S i) buffer' b' Hwf' ltac:(lia)) as (Hb & Hwf'' & Hc'' & Hcont'').
    { subst buffer'. rewrite array_set_length. lia. }
    cbv zeta in *.
    destruct (pop_loop build n (Z.of_nat (S i)) buffer' b') as [out b'']. cbn [fst snd] in *.
    split; [|split; [exact Hwf''|split; [lia|]]].
    + rewrite Hb, Hcont'. cbn [take].
      subst buffer'. unfold array_set. rewrite bool_decide_eq_true_2 by lia.
      rewrite Nat2Z.id.
      rewrite take_insert_lt by lia.
      rewrite (take_S_r buffer i (array_get buffer (Z.of_nat i))).
      2:{ unfold array_get. rewrite bool_decide_eq_true_2 by lia. rewrite Nat2Z.id.
          destruct (lookup_lt_is_Some_2 buffer i ltac:(lia)) as [x Hx].
          rewrite Hx. reflexivity. }
      rewrite insert_app_r_alt by (rewrite length_take; lia).
      rewrite length_take, Nat.min_l, Nat.sub_diag by lia. cbn [insert list_insert].
      rewrite <- app_assoc. cbn [app].
      rewrite drop_insert_lt by lia.
      replace (S i + n)%nat with (i + S n)%nat by lia. reflexivity.
    + rewrite Hcont'', Hcont'. reflexivity.
Qed.

(** [xfer_fifo_to_buffer_] in one piece: the count read from the device,
    the clamp, and either nothing or the raw read and the pushes. *)
Lemma xfer_unfold ch c :
  let n := fst (rx_in_fifo_ ch c) in
  let c1 := snd (rx_in_fifo_ ch c) in
  let m := clamp build n (RingBuffer.free SIZE (receive_buffer_ ch)) in
  xfer_fifo_to_buffer_ build ch c =
    if bool_decide (m <> 0)
    then
      let r := read_fifo ch m c1 in
      (m, set_receive_buffer
            (snd (push_loop build (Z.to_nat m) 0 (snd (fst r)) (receive_buffer_ ch))) ch,
       snd r)
    else (m, ch, c1).
Proof.
  cbv zeta. unfold xfer_fifo_to_buffer_. rewrite bind_run.
  case_bool_decide; [|reflexivity].
  rewrite bind_run.
  destruct (read_fifo ch _ _) as [[error data] c2]. cbn [fst snd].
  destruct (push_loop _ _ _ _ _) as [results b]. reflexivity.
Qed.

(** [read_array] in one piece. *)
Lemma read_array_unfold buffer requested ch c :
  let available := RingBuffer.count_ (receive_buffer_ ch) in
  read_array build buffer requested ch c =
    if bool_decide (requested > available)
    then
      let r := pop_loop build (Z.to_nat available) 0 buffer (receive_buffer_ ch) in
      (false, fst r, set_receive_buffer (snd r) ch,
       snd (inherited (host.log (BufferUnderflow requested available)) c))
    else
      let r := pop_loop build (Z.to_nat requested) 0 buffer (receive_buffer_ ch) in
      (true, fst r, set_receive_buffer (snd r) ch, c).
Proof.
  cbv zeta. unfold read_array, RingBuffer.count, bind, ret.
  case_bool_decide.
  - destruct (inherited _ c) as [[] c']. cbn [fst snd].
    destruct (pop_loop build _ 0 buffer _) as [out b']. reflexivity.
  - destruct (pop_loop build _ 0 buffer _) as [out b']. reflexivity.
Qed.

Lemma xfer_returns_the_clamp ch c :
  fst (fst (xfer_fifo_to_buffer_ build ch c)) =
    clamp build (fst (rx_in_fifo_ ch c)) (RingBuffer.free SIZE (receive_buffer_ ch)).
Proof.
  pose proof (xfer_unfold ch c) as Hx. cbv zeta in Hx. rewrite Hx.
  case_bool_decide; reflexivity.
Qed.

Lemma clamp_fits to_transfer b :
  RingBuffer.bounded SIZE b -> 0 <= to_transfer ->
  let m := clamp build to_transfer (RingBuffer.free SIZE b) in
  0 <= m <= XFER_MAX_SIZE build /\
  RingBuffer.count_ b + m <= SIZE.
Proof.
  intros Hb Hn. cbv zeta. pose proof XFER_MAX_SIZE_range as HS.
  rewrite clamp_min, free_spec by (unfold RING_BUFFER_SIZE; first [lia | exact Hb]).
  unfold RingBuffer.bounded, RING_BUFFER_SIZE in *. lia.
Qed.
End WithBuild.
End wk2132_i2c_data.

(** * The claims *)

(** C1.  A drain moves min(FIFO count reported by rx_in_fifo_(),
    receive_buffer_.free(), XFER_MAX_SIZE) bytes.  When that minimum is 0,
    xfer_fifo_to_buffer_ returns 0 and issues no raw-FIFO read, the channel
    being left as it was; otherwise it issues one raw-FIFO read of that many
    bytes, receive_buffer_.count() grows by exactly the minimum and the
    minimum is returned. *)
Theorem xfer_moves_the_clamped_amount (build : wk2132_i2c.Build)
        (ch : wk2132_i2c.WK2132Channel) (c : wk2132_i2c.WK2132Component) :
  RingBuffer.bounded (wk2132_i2c.RING_BUFFER_SIZE build) (wk2132_i2c.receive_buffer_ ch) ->
  let fifo_count := fst (wk2132_i2c.rx_in_fifo_ ch c) in
  let c1 := snd (wk2132_i2c.rx_in_fifo_ ch c) in
  let free := RingBuffer.free (wk2132_i2c.RING_BUFFER_SIZE build)
                              (wk2132_i2c.receive_buffer_ ch) in
  let m := Z.min fifo_count (Z.min free (wk2132_i2c.XFER_MAX_SIZE build)) in
  let r := wk2132_i2c.xfer_fifo_to_buffer_ build ch c in
  let ch' := snd (fst r) in
  let c' := snd r in
  fst (fst r) = m /\
  RingBuffer.count (wk2132_i2c.receive_buffer_ ch') =
    RingBuffer.count (wk2132_i2c.receive_buffer_ ch) + m /\
  (m = 0 -> ch' = ch /\ c' = c1) /\
  (m <> 0 ->
   wk2132_i2c.traffic_of c' =
     wk2132_i2c.traffic_of c1 ++
       [i2c.Read (i2c_address (wk2132_i2c.base_address_ c1) (wk2132_i2c.channel_ ch) 1) m]).
Proof.
  intros Hb. cbv zeta.
  set (n := fst (wk2132_i2c.rx_in_fifo_ ch c)).
  set (c1 := snd (wk2132_i2c.rx_in_fifo_ ch c)).
  set (free := RingBuffer.free _ _).
  replace (Z.min n (Z.min free (wk2132_i2c.XFER_MAX_SIZE build)))
    with (wk2132_i2c.clamp build n free)
    by (rewrite wk2132_i2c_data.clamp_min; lia).
  pose proof (wk2132_i2c_data.rx_in_fifo_range ch c) as Hn. fold n in Hn.
  destruct (wk2132_i2c_data.clamp_fits build n _ Hb ltac:(lia)) as (Hm & Hroom).
  fold free in Hm, Hroom.
  pose proof (wk2132_i2c_data.xfer_unfold build ch c) as Hx. cbv zeta in Hx.
  fold n c1 free in Hx. rewrite Hx. clear Hx.
  set (m := wk2132_i2c.clamp build n free) in *.
  case_bool_decide as Hz.
  - cbn [fst snd].
    destruct (wk2132_i2c_data.read_fifo_spec ch m c1) as (_ & _ & Ht & _).
    destruct (wk2132_i2c_data.push_loop_accepts build (Z.to_nat m) 0
                (snd (fst (wk2132_i2c.read_fifo ch m c1)))
                (wk2132_i2c.receive_buffer_ ch) Hb ltac:(lia)) as (_ & Hc).
    split; [reflexivity|]. split; [|split; [lia|intros _; exact Ht]].
    unfold RingBuffer.count. cbn [wk2132_i2c.receive_buffer_ wk2132_i2c.set_receive_buffer].
    rewrite Hc. lia.
  - cbn [fst snd]. assert (m = 0) as -> by lia.
    split; [reflexivity|]. split; [unfold RingBuffer.count; lia|].
    split; [auto | lia].
Qed.

(** With 50 bytes in the FIFO, room for 20 in a buffer of 255 and transfers
    of at most 255 bytes, 20 bytes are moved and 20 is returned. *)
Lemma xfer_moves_the_clamped_amount_witness :
  let build := example.build255 in
  let ch := example.channel 0 "uart1" (example.filled 235) in
  let c := example.component_on example.fifo50 in
  let r := wk2132_i2c.xfer_fifo_to_buffer_ build ch c in
  RingBuffer.bounded (wk2132_i2c.RING_BUFFER_SIZE build) (wk2132_i2c.receive_buffer_ ch) /\
  fst (wk2132_i2c.rx_in_fifo_ ch c) = 50 /\
  RingBuffer.free (wk2132_i2c.RING_BUFFER_SIZE build) (wk2132_i2c.receive_buffer_ ch) = 20 /\
  wk2132_i2c.XFER_MAX_SIZE build = 255 /\
  fst (fst r) = 20 /\
  RingBuffer.count (wk2132_i2c.receive_buffer_ (snd (fst r))) = 235 + 20.
Proof.
  cbv zeta.
  assert (Hb : RingBuffer.bounded (wk2132_i2c.RING_BUFFER_SIZE example.build255)
                 (wk2132_i2c.receive_buffer_
                    (example.channel 0 "uart1" (example.filled 235)))).
  { vm_compute. split; discriminate. }
  split; [exact Hb|].
  split; [vm_compute; reflexivity|]. split; [vm_compute; reflexivity|].
  split; [vm_compute; reflexivity|].
  destruct (xfer_moves_the_clamped_amount example.build255
              (example.channel 0 "uart1" (example.filled 235))
              (example.component_on example.fifo50)
              Hb) as (H1 & H2 & _).
  split; [exact H1 | exact H2].
Defined.

(** C2 (as the code has it).  The page switch of set_baudrate_ sets page1_
    and then writes the global page register, without looking at the page
    that is current: for every page value and every device state, each
    switch issues one write of that value, so two switches in a row issue
    two writes, and page1_ holds the value after each. *)
Theorem select_page_always_writes (ch : wk2132_i2c.WK2132Channel) (page : bool)
        (c : wk2132_i2c.WK2132Component) :
  let write := i2c.WriteRegister
                 (i2c_address (wk2132_i2c.base_address_ c) (wk2132_i2c.channel_ ch) 0)
                 REG_WK2132_SPAGE [if page then 1 else 0] in
  let c1 := snd (wk2132_i2c.select_page ch page c) in
  let c2 := snd (wk2132_i2c.select_page ch page c1) in
  wk2132_i2c.traffic_of c1 = wk2132_i2c.traffic_of c ++ [write] /\
  wk2132_i2c.page1_ c1 = page /\
  wk2132_i2c.traffic_of c2 = wk2132_i2c.traffic_of c ++ [write; write] /\
  wk2132_i2c.page1_ c2 = page /\
  spage_writes (wk2132_i2c.traffic_of c2) = (spage_writes (wk2132_i2c.traffic_of c) + 2)%nat.
Proof.
  cbv zeta.
  destruct (wk2132_i2c_facts.select_page_spec ch page c) as (T1 & P1).
  pose proof (wk2132_i2c_facts.quiet_select_page ch page c) as S1.
  destruct (wk2132_i2c_facts.select_page_spec ch page
              (snd (wk2132_i2c.select_page ch page c))) as (T2 & P2).
  rewrite (wk2132_i2c.same_base_address _ _ S1) in T2.
  rewrite T1 in T2. rewrite <- app_assoc in T2. cbn [app] in T2.
  repeat split; try assumption.
  rewrite T2. unfold spage_writes.
  rewrite List.filter_app, length_app. reflexivity.
Qed.

(** The claim C2 fails on the code: on a device that already is on page 1,
    two switches to page 1 put two writes of the page register on the bus,
    and the second switch is not a no-op. *)
Lemma select_page_twice_writes_twice :
  let c := snd (wk2132_i2c.set_page1 true
                  (example.component_on (example.scripted [] (example.ok [])))) in
  let ch := example.channel 0 "uart1" (RingBuffer.init 255) in
  let c1 := snd (wk2132_i2c.select_page ch true c) in
  let c2 := snd (wk2132_i2c.select_page ch true c1) in
  wk2132_i2c.page1_ c = true /\
  spage_writes (wk2132_i2c.traffic_of c2) = 2%nat /\
  spage_writes (wk2132_i2c.traffic_of c2) <> 1%nat /\
  wk2132_i2c.traffic_of c2 <> wk2132_i2c.traffic_of c1.
Proof.
  cbv zeta. split; [reflexivity|]. split; [reflexivity|]. split; vm_compute; discriminate.
Qed.

(** C3 (as the code has it).  The compound operators &= and |= of the
    register proxy read the register, apply the bit operation to the byte
    that get() returned and write the result back.  The write is issued for
    every answer of the bus to the read, a failed one included (get() then
    returns what the buffer holds, 0 if nothing was delivered); the
    operators return the proxy, and the warning flag they leave is that of
    the write alone. *)
Theorem compound_assignment_always_writes (r : wk2132_i2c.WK2132Register) (value : Z)
        (c : wk2132_i2c.WK2132Component) :
  let address := i2c_address (wk2132_i2c.base_address_ c) (wk2132_i2c.reg_channel_ r) 0 in
  let read := i2c.ReadRegister address (wk2132_i2c.register_ r) 1 in
  let got := fst (wk2132_i2c.get r c) in
  let n := length (wk2132_i2c.traffic_of c) in
  let c_and := snd (wk2132_i2c.and_assign r value c) in
  let c_or := snd (wk2132_i2c.or_assign r value c) in
  wk2132_i2c.traffic_of c_and =
    wk2132_i2c.traffic_of c ++
      [read; i2c.WriteRegister address (wk2132_i2c.register_ r) [u8 (Z.land (u8 value) got)]] /\
  wk2132_i2c.traffic_of c_or =
    wk2132_i2c.traffic_of c ++
      [read; i2c.WriteRegister address (wk2132_i2c.register_ r) [u8 (Z.lor (u8 value) got)]] /\
  warning_ (wk2132_i2c.host c_and) =
    negb (i2c.is_ok (i2c.code (wk2132_i2c.reply_of c (S n)))) /\
  warning_ (wk2132_i2c.host c_or) =
    negb (i2c.is_ok (i2c.code (wk2132_i2c.reply_of c (S n)))) /\
  (i2c.received (wk2132_i2c.reply_of c n) = [] -> got = 0).
Proof.
  cbv zeta.
  destruct (wk2132_i2c_facts.compound_spec Z.land r value c) as (Ta & Wa).
  destruct (wk2132_i2c_facts.compound_spec Z.lor r value c) as (To & Wo).
  split; [exact Ta|]. split; [exact To|]. split; [exact Wa|]. split; [exact Wo|].
  intros Hnone.
  destruct (wk2132_i2c_facts.get_spec r c) as (_ & Hg & _).
  rewrite Hg, Hnone. reflexivity.
Qed.

(** The claim C3 fails on the code: when the read of the register fails,
    the write is issued all the same, and after a successful write the
    warning flag that the failed read had set is cleared again. *)
Lemma failed_read_is_followed_by_the_write :
  let c := example.component_on (example.scripted [example.failed] (example.ok [])) in
  let r := wk2132_i2c.component_reg REG_WK2132_LCR in
  let c' := snd (wk2132_i2c.and_assign r 0xF0 c) in
  i2c.is_ok (i2c.code (wk2132_i2c.reply_of c 0)) = false /\
  wk2132_i2c.traffic_of c' =
    [i2c.ReadRegister 0x70 REG_WK2132_LCR 1; i2c.WriteRegister 0x70 REG_WK2132_LCR [0]] /\
  List.filter is_register_write (wk2132_i2c.traffic_of c') <> [] /\
  warning_ (wk2132_i2c.host c') = false.
Proof.
  cbv zeta. split; [reflexivity|]. split; [reflexivity|].
  split; [vm_compute; discriminate | reflexivity].
Qed.

(** C4 (as the code has it).  Neither setup() makes the setup of the
    channels depend on the outcome of its bus exchanges: for every answer of
    the bus, to the test read of the global enable register in wk2132.cpp as
    to the three global writes in wk2132_i2c.cpp, setup_channel_ runs on
    every channel of children_, in the order of children_ (the baud rates
    being such that set_baudrate_ does not divide by zero). *)
Theorem setup_configures_every_channel
        (children : list wk2132_i2c.WK2132Channel) (c : wk2132_i2c.WK2132Component)
        (legacy_children : list wk2132.WK2132Channel) (legacy_c : wk2132.WK2132Component) :
  Forall (fun ch => baud.divisor (wk2132_i2c.baud_rate_ ch) <> 0) children ->
  Forall (fun ch => baud.divisor (wk2132.baud_rate_ ch) <> 0) legacy_children ->
  uart_setups (wk2132_i2c.console_of (snd (wk2132_i2c.setup children c))) =
    uart_setups (wk2132_i2c.console_of c) ++
      (inl ∘ wk2132_i2c.channel_name_ <$> children) /\
  uart_setups (wk2132.console_of (snd (wk2132.setup legacy_children legacy_c))) =
    uart_setups (wk2132.console_of legacy_c) ++
      (inr ∘ wk2132.channel_ <$> legacy_children).
Proof.
  intros _ _. split.
  - apply wk2132_i2c_facts.setup_announces.
  - apply wk2132_facts.legacy_setup_announces.
Qed.

(** Two channels on a bus where every exchange fails. *)
Lemma setup_configures_every_channel_witness :
  let children := [example.channel 0 "uart1" (RingBuffer.init 255);
                   example.channel 1 "uart2" (RingBuffer.init 255)] in
  let c := example.component_on (example.scripted [] example.failed) in
  let legacy_children := [example.legacy_channel 0; example.legacy_channel 1] in
  let legacy_c := example.legacy_component_on (example.scripted [] example.failed) in
  Forall (fun ch => baud.divisor (wk2132_i2c.baud_rate_ ch) <> 0) children /\
  Forall (fun ch => baud.divisor (wk2132.baud_rate_ ch) <> 0) legacy_children /\
  uart_setups (wk2132_i2c.console_of (snd (wk2132_i2c.setup children c))) =
    [inl "uart1"; inl "uart2"] /\
  uart_setups (wk2132.console_of (snd (wk2132.setup legacy_children legacy_c))) =
    [inr 0; inr 1].
Proof.
  cbv zeta.
  assert (H1 : Forall (fun ch => baud.divisor (wk2132_i2c.baud_rate_ ch) <> 0)
                 [example.channel 0 "uart1" (RingBuffer.init 255);
                  example.channel 1 "uart2" (RingBuffer.init 255)]).
  { repeat constructor; vm_compute; discriminate. }
  assert (H2 : Forall (fun ch => baud.divisor (wk2132.baud_rate_ ch) <> 0)
                 [example.legacy_channel 0; example.legacy_channel 1]).
  { repeat constructor; vm_compute; discriminate. }
  split; [exact H1|]. split; [exact H2|].
  exact (setup_configures_every_channel _
           (example.component_on (example.scripted [] example.failed)) _
           (example.legacy_component_on (example.scripted [] example.failed)) H1 H2).
Defined.

(** The claim C4 fails on the code: the test read of the global enable
    register fails, and setup_channel_ still runs on both channels (their
    registers are written on the bus). *)
Lemma failed_probe_still_sets_up_channels :
  let c := example.legacy_component_on
             (example.scripted [example.failed] (example.ok [0])) in
  let c' := snd (wk2132.setup [example.legacy_channel 0; example.legacy_channel 1] c) in
  i2c.is_ok (i2c.code (wk2132.reply_of c 0)) = false /\
  head (wk2132.traffic_of c') = Some (i2c.ReadRegister 0x70 REG_WK2132_GENA 1) /\
  uart_setups (wk2132.console_of c') = [inr 0; inr 1] /\
  uart_setups (wk2132.console_of c') <> [] /\
  length (wk2132.traffic_of c') = 29%nat.
Proof.
  cbv zeta. split; [reflexivity|]. split; [reflexivity|]. split; [reflexivity|].
  split; [vm_compute; discriminate | reflexivity].
Qed.

(** C5.  For every crystal frequency and baud rate whose product
    baud_rate * 16 is not zero, the fraction that set_baudrate_ computes as
    (crystal % (baud_rate * 16)) / (baud_rate * 16) is 0, the divide-by-ten
    loop does not run once, and the byte written to the baud-fraction
    register, between the writes that select page 1 and page 0, is 0; this
    holds in wk2132_i2c.cpp and in wk2132.cpp. *)
Theorem baud_fraction_is_always_zero (crystal baud_rate : Z) :
  baud.divisor baud_rate <> 0 ->
  baud.val_dec crystal baud_rate = 0 /\
  snd (baud.reduce (baud.val_dec crystal baud_rate)) = O /\
  (forall ch c,
      wk2132_i2c.baud_rate_ ch = baud_rate -> wk2132_i2c.crystal_ c = crystal ->
      exists address baud_high baud_low,
        wk2132_i2c.traffic_of (snd (wk2132_i2c.set_baudrate_ ch c)) =
          wk2132_i2c.traffic_of c ++
            [i2c.WriteRegister address REG_WK2132_SPAGE [1];
             i2c.WriteRegister address REG_WK2132_BRH [baud_high];
             i2c.WriteRegister address REG_WK2132_BRL [baud_low];
             i2c.WriteRegister address REG_WK2132_BRD [0];
             i2c.WriteRegister address REG_WK2132_SPAGE [0]]) /\
  (forall ch c,
      wk2132.baud_rate_ ch = baud_rate -> wk2132.crystal_ c = crystal ->
      exists address baud_high baud_low,
        wk2132.traffic_of (snd (wk2132.set_baudrate_ ch c)) =
          wk2132.traffic_of c ++
            [i2c.WriteRegister address REG_WK2132_SPAGE [1];
             i2c.WriteRegister address REG_WK2132_BRH [baud_high];
             i2c.WriteRegister address REG_WK2132_BRL [baud_low];
             i2c.WriteRegister address REG_WK2132_BRD [0];
             i2c.WriteRegister address REG_WK2132_SPAGE [0]]).
Proof.
  intros Hd.
  pose proof (val_dec_zero crystal baud_rate Hd) as Hz.
  assert (Hdec : baud.baud_dec crystal baud_rate = 0).
  { unfold baud.baud_dec. rewrite Hz. reflexivity. }
  split; [exact Hz|]. split; [rewrite Hz; reflexivity|]. split.
  - intros ch c Hb Hc.
    destruct (wk2132_i2c_facts.set_baudrate_spec ch c) as (Ht & _).
    rewrite Hb, Hc, Hdec in Ht. eauto.
  - intros ch c Hb Hc.
    destruct (wk2132_facts.legacy_set_baudrate_spec ch c) as (Ht & _).
    rewrite Hb, Hc, Hdec in Ht. eauto.
Qed.

Lemma baud_fraction_is_always_zero_witness :
  baud.divisor 9600 <> 0 /\
  baud.val_dec 14745600 9600 = 0 /\
  snd (baud.reduce (baud.val_dec 14745600 9600)) = O.
Proof.
  assert (H : baud.divisor 9600 <> 0) by (vm_compute; discriminate).
  split; [exact H|].
  destruct (baud_fraction_is_always_zero 14745600 9600 H) as (H1 & H2 & _).
  split; [exact H1 | exact H2].
Defined.

(** C6.  When the requested length exceeds receive_buffer_.count(),
    read_array prints the underflow warning, copies exactly the count()
    bytes held, oldest first, to the beginning of the caller's buffer and
    leaves the rest of it alone, returns false and leaves the ring buffer
    empty; it makes no exchange on the bus, so no FIFO drain. *)
Theorem read_array_short_read (build : wk2132_i2c.Build) (buffer : list Z) (requested : Z)
        (ch : wk2132_i2c.WK2132Channel) (c : wk2132_i2c.WK2132Component) :
  RingBuffer.wf (wk2132_i2c.RING_BUFFER_SIZE build) (wk2132_i2c.receive_buffer_ ch) ->
  requested > RingBuffer.count (wk2132_i2c.receive_buffer_ ch) ->
  RingBuffer.count (wk2132_i2c.receive_buffer_ ch) <= Z.of_nat (length buffer) ->
  let SIZE := wk2132_i2c.RING_BUFFER_SIZE build in
  let held := RingBuffer.contents SIZE (wk2132_i2c.receive_buffer_ ch) in
  let r := wk2132_i2c.read_array build buffer requested ch c in
  let status := fst (fst (fst r)) in
  let buffer' := snd (fst (fst r)) in
  let ch' := snd (fst r) in
  Z.of_nat (length held) = RingBuffer.count (wk2132_i2c.receive_buffer_ ch) /\
  status = false /\
  buffer' = held ++ drop (length held) buffer /\
  RingBuffer.count (wk2132_i2c.receive_buffer_ ch') = 0 /\
  RingBuffer.contents SIZE (wk2132_i2c.receive_buffer_ ch') = [] /\
  wk2132_i2c.traffic_of (snd r) = wk2132_i2c.traffic_of c /\
  wk2132_i2c.console_of (snd r) =
    wk2132_i2c.console_of c ++
      [BufferUnderflow requested (RingBuffer.count (wk2132_i2c.receive_buffer_ ch))].
Proof.
  intros Hwf Hshort Hfits. cbv zeta.
  unfold RingBuffer.count in *.
  set (b := wk2132_i2c.receive_buffer_ ch) in *.
  pose proof (RingBuffer.wf_count _ _ Hwf) as Hc.
  pose proof (length_contents (wk2132_i2c.RING_BUFFER_SIZE build) b (proj1 Hc)) as Hlen.
  pose proof (wk2132_i2c_data.read_array_unfold build buffer requested ch c) as Hr.
  cbv zeta in Hr. fold b in Hr. rewrite Hr. clear Hr.
  rewrite bool_decide_eq_true_2 by exact Hshort.
  destruct (wk2132_i2c_data.pop_loop_moves build (Z.to_nat (RingBuffer.count_ b)) 0
              buffer b Hwf ltac:(lia) ltac:(lia)) as (Hout & _ & Hcount & Hcont).
  cbv zeta in Hout, Hcount, Hcont. change (Z.of_nat 0) with 0 in *.
  cbn [fst snd wk2132_i2c.receive_buffer_ wk2132_i2c.set_receive_buffer].
  assert (Hn : Z.to_nat (RingBuffer.count_ b) =
               length (RingBuffer.contents (wk2132_i2c.RING_BUFFER_SIZE build) b)) by lia.
  split; [exact Hlen|]. split; [reflexivity|]. split.
  { rewrite Hout, Hn. rewrite take_0, take_ge by lia. reflexivity. }
  split; [lia|]. split.
  { rewrite Hcont, Hn. apply drop_all. }
  split; reflexivity.
Qed.

(** The buffer holds 5 bytes and 10 are requested: 5 are copied, the
    result is false and the buffer is empty afterwards. *)
Lemma read_array_short_read_witness :
  let build := example.build255 in
  let ch := example.channel 0 "uart1" (example.filled 5) in
  let c := example.component_on (example.scripted [] (example.ok [])) in
  let r := wk2132_i2c.read_array build (replicate 10 0) 10 ch c in
  RingBuffer.wf (wk2132_i2c.RING_BUFFER_SIZE build) (wk2132_i2c.receive_buffer_ ch) /\
  10 > RingBuffer.count (wk2132_i2c.receive_buffer_ ch) /\
  RingBuffer.count (wk2132_i2c.receive_buffer_ ch) <= Z.of_nat (length (replicate 10 0)) /\
  RingBuffer.count (wk2132_i2c.receive_buffer_ ch) = 5 /\
  fst (fst r) = (false, [1; 2; 3; 4; 5; 0; 0; 0; 0; 0]) /\
  RingBuffer.count (wk2132_i2c.receive_buffer_ (snd (fst r))) = 0.
Proof.
  cbv zeta.
  assert (Hwf : RingBuffer.wf (wk2132_i2c.RING_BUFFER_SIZE example.build255)
                  (wk2132_i2c.receive_buffer_
                     (example.channel 0 "uart1" (example.filled 5)))).
  { split; vm_compute; try reflexivity; split; congruence. }
  assert (Hshort : 10 > RingBuffer.count
                          (wk2132_i2c.receive_buffer_
                             (example.channel 0 "uart1" (example.filled 5)))).
  { vm_compute. reflexivity. }
  assert (Hfits : RingBuffer.count
                    (wk2132_i2c.receive_buffer_
                       (example.channel 0 "uart1" (example.filled 5)))
                  <= Z.of_nat (length (replicate 10 0))).
  { vm_compute. discriminate. }
  split; [exact Hwf|]. split; [exact Hshort|]. split; [exact Hfits|].
  split; [reflexivity|].
  destruct (read_array_short_read example.build255 (replicate 10 0) 10
              (example.channel 0 "uart1" (example.filled 5))
              (example.component_on (example.scripted [] (example.ok [])))
              Hwf Hshort Hfits) as (_ & _ & _ & Hcount & _).
  split; [reflexivity | exact Hcount].
Defined.

(** C7.  A push on a full buffer (count = SIZE) returns false and leaves
    storage, head, tail and count unchanged; pop and peek on an empty buffer
    (count = 0) return false and leave the buffer and the referenced item
    unchanged; and whatever sequence of push, pop, peek and clear calls is
    made, on a fresh buffer or on any buffer whose count is between 0 and
    SIZE, the count stays between 0 and SIZE. *)
Theorem ring_buffer_rejects_and_stays_bounded (SIZE : Z) (HS : 0 <= SIZE) :
  (forall b item, RingBuffer.count b = SIZE ->
      RingBuffer.push SIZE item b = (false, b)) /\
  (forall b item, RingBuffer.count b = 0 ->
      RingBuffer.pop SIZE item b = (false, item, b)) /\
  (forall b item, RingBuffer.count b = 0 ->
      RingBuffer.peek item b = (false, item, b)) /\
  (forall ops,
      0 <= RingBuffer.count (RingBuffer.run SIZE ops (RingBuffer.init SIZE)) <= SIZE) /\
  (forall ops b,
      0 <= RingBuffer.count b <= SIZE ->
      0 <= RingBuffer.count (RingBuffer.run SIZE ops b) <= SIZE).
Proof.
  split; [|split; [|split; [|split]]].
  - intros b item Hc. unfold RingBuffer.push, RingBuffer.is_full.
    rewrite bool_decide_eq_true_2; done.
  - intros b item Hc. unfold RingBuffer.pop, RingBuffer.is_empty.
    rewrite bool_decide_eq_true_2; done.
  - intros b item Hc. unfold RingBuffer.peek, RingBuffer.is_empty.
    rewrite bool_decide_eq_true_2; done.
  - intros ops. apply (run_bounded SIZE HS ops), init_bounded, HS.
  - intros ops b Hb. apply (run_bounded SIZE HS ops), Hb.
Qed.

(** A buffer of four bytes that is sent five pushes and a pop. *)
Lemma ring_buffer_rejects_and_stays_bounded_witness :
  0 <= 4 /\
  0 <= RingBuffer.count
         (RingBuffer.run 4 [RingBuffer.Push 1; RingBuffer.Push 2; RingBuffer.Push 3;
                            RingBuffer.Push 4; RingBuffer.Push 5; RingBuffer.Pop]
            (RingBuffer.init 4)) <= 4.
Proof.
  assert (H : 0 <= 4) by lia.
  split; [exact H|].
  destruct (ring_buffer_rejects_and_stays_bounded 4 H) as (_ & _ & _ & Hrun & _).
  apply Hrun.
Defined.

(** C8.  In xfer_fifo_to_buffer_ the amount to transfer has been clamped to
    receive_buffer_.free() before the raw read, so every push of the
    transfer loop returns true, whatever bytes the read delivered: the
    rejection of push on a full buffer is not reached during a drain. *)
Theorem xfer_pushes_never_fail (build : wk2132_i2c.Build)
        (ch : wk2132_i2c.WK2132Channel) (c : wk2132_i2c.WK2132Component) :
  RingBuffer.bounded (wk2132_i2c.RING_BUFFER_SIZE build) (wk2132_i2c.receive_buffer_ ch) ->
  let fifo_count := fst (wk2132_i2c.rx_in_fifo_ ch c) in
  let free := RingBuffer.free (wk2132_i2c.RING_BUFFER_SIZE build)
                              (wk2132_i2c.receive_buffer_ ch) in
  let to_transfer := wk2132_i2c.clamp build fifo_count free in
  to_transfer <= free /\
  forall data,
    fst (wk2132_i2c.push_loop build (Z.to_nat to_transfer) 0 data
           (wk2132_i2c.receive_buffer_ ch)) =
      replicate (Z.to_nat to_transfer) true.
Proof.
  intros Hb. cbv zeta.
  pose proof (wk2132_i2c_data.rx_in_fifo_range ch c) as Hn.
  destruct (wk2132_i2c_data.clamp_fits build _ _ Hb (proj1 Hn)) as (Hm & Hroom).
  split; [rewrite wk2132_i2c_data.clamp_min; lia|].
  intros data.
  apply (wk2132_i2c_data.push_loop_accepts build); [exact Hb | lia].
Qed.

Lemma xfer_pushes_never_fail_witness :
  let build := example.build255 in
  let ch := example.channel 0 "uart1" (example.filled 235) in
  let c := example.component_on example.fifo50 in
  RingBuffer.bounded (wk2132_i2c.RING_BUFFER_SIZE build) (wk2132_i2c.receive_buffer_ ch) /\
  fst (wk2132_i2c.push_loop build 20 0 (replicate 20 7) (wk2132_i2c.receive_buffer_ ch)) =
    replicate 20 true.
Proof.
  cbv zeta.
  assert (Hb : RingBuffer.bounded (wk2132_i2c.RING_BUFFER_SIZE example.build255)
                 (wk2132_i2c.receive_buffer_
                    (example.channel 0 "uart1" (example.filled 235)))).
  { vm_compute. split; discriminate. }
  split; [exact Hb|].
  destruct (xfer_pushes_never_fail example.build255
              (example.channel 0 "uart1" (example.filled 235))
              (example.component_on example.fifo50)
              Hb) as (_ & H).
  exact (H (replicate 20 7)).
Defined.

(** C9.  When the raw-FIFO read of xfer_fifo_to_buffer_ fails, the function
    goes on as after a successful read: it prints the error line, pushes the
    to_transfer bytes of its local array into receive_buffer_ and returns
    to_transfer.  The value returned and the growth of the buffer are the
    same function of the state for every result code of the read, and when
    the failed read delivered nothing the bytes pushed are what the
    uninitialised array happened to hold. *)
Theorem xfer_pushes_after_a_failed_read (build : wk2132_i2c.Build)
        (ch : wk2132_i2c.WK2132Channel) (c : wk2132_i2c.WK2132Component) :
  RingBuffer.wf (wk2132_i2c.RING_BUFFER_SIZE build) (wk2132_i2c.receive_buffer_ ch) ->
  let SIZE := wk2132_i2c.RING_BUFFER_SIZE build in
  let c1 := snd (wk2132_i2c.rx_in_fifo_ ch c) in
  let to_transfer :=
    wk2132_i2c.clamp build (fst (wk2132_i2c.rx_in_fifo_ ch c))
                     (RingBuffer.free SIZE (wk2132_i2c.receive_buffer_ ch)) in
  let reply := wk2132_i2c.reply_of c1 (length (wk2132_i2c.traffic_of c1)) in
  let data := i2c.deposit to_transfer (i2c.received reply)
                          (wk2132_i2c.garbage c1 to_transfer) in
  let r := wk2132_i2c.xfer_fifo_to_buffer_ build ch c in
  let buffer' := wk2132_i2c.receive_buffer_ (snd (fst r)) in
  to_transfer <> 0 ->
  fst (fst r) = to_transfer /\
  RingBuffer.count buffer' =
    RingBuffer.count (wk2132_i2c.receive_buffer_ ch) + to_transfer /\
  RingBuffer.contents SIZE buffer' =
    RingBuffer.contents SIZE (wk2132_i2c.receive_buffer_ ch) ++ data /\
  (i2c.is_ok (i2c.code reply) = false ->
   wk2132_i2c.console_of (snd r) =
     wk2132_i2c.console_of c1 ++ [XferError (i2c.code reply)]) /\
  (i2c.received reply = [] -> data = wk2132_i2c.garbage c1 to_transfer).
Proof.
  intros Hwf. cbv zeta.
  set (SIZE := wk2132_i2c.RING_BUFFER_SIZE build) in *.
  set (c1 := snd (wk2132_i2c.rx_in_fifo_ ch c)).
  set (m := wk2132_i2c.clamp build _ _).
  intros Hm.
  assert (Hb : RingBuffer.bounded SIZE (wk2132_i2c.receive_buffer_ ch)).
  { apply (RingBuffer.wf_count _ _ Hwf). }
  pose proof (wk2132_i2c_data.rx_in_fifo_range ch c) as Hn.
  destruct (wk2132_i2c_data.clamp_fits build _ _ Hb (proj1 Hn)) as (Hr & Hroom).
  fold SIZE m in Hr, Hroom.
  pose proof (wk2132_i2c_data.xfer_unfold build ch c) as Hx. cbv zeta in Hx.
  fold SIZE c1 m in Hx. rewrite Hx. clear Hx.
  rewrite bool_decide_eq_true_2 by exact Hm. cbn [fst snd].
  destruct (wk2132_i2c_data.read_fifo_spec ch m c1) as (_ & Hd & _ & Hl).
  rewrite Hd, Hl.
  set (data := i2c.deposit m _ _).
  assert (Hlen : length data = Z.to_nat m).
  { subst data. rewrite wk2132_i2c_data.length_deposit.
    unfold wk2132_i2c.garbage. rewrite length_fmap, length_seq. reflexivity. }
  destruct (wk2132_i2c_data.push_loop_accepts build (Z.to_nat m) 0 data
              (wk2132_i2c.receive_buffer_ ch) Hb ltac:(lia)) as (_ & Hc).
  destruct (wk2132_i2c_data.push_loop_appends build (Z.to_nat m) 0 data
              (wk2132_i2c.receive_buffer_ ch) Hwf ltac:(lia)) as (_ & Hcont).
  cbn [wk2132_i2c.receive_buffer_ wk2132_i2c.set_receive_buffer].
  split; [reflexivity|]. split; [unfold RingBuffer.count; rewrite Hc; lia|].
  split; [|split].
  - fold SIZE in Hcont. rewrite Hcont, <- Hlen, slice_all. reflexivity.
  - intros ->. reflexivity.
  - intros Hnone. subst data. rewrite Hnone. apply wk2132_i2c_data.deposit_nothing.
Qed.

(** The FIFO holds 50 bytes, the buffer has room for 20, and the raw read
    fails without delivering a byte. *)
Lemma xfer_pushes_after_a_failed_read_witness :
  let build := example.build255 in
  let ch := example.channel 0 "uart1" (example.filled 235) in
  let c := example.component_on (example.scripted [example.ok [50]] example.failed) in
  let r := wk2132_i2c.xfer_fifo_to_buffer_ build ch c in
  RingBuffer.wf (wk2132_i2c.RING_BUFFER_SIZE build) (wk2132_i2c.receive_buffer_ ch) /\
  wk2132_i2c.clamp build (fst (wk2132_i2c.rx_in_fifo_ ch c))
    (RingBuffer.free (wk2132_i2c.RING_BUFFER_SIZE build) (wk2132_i2c.receive_buffer_ ch)) <> 0 /\
  fst (fst r) = 20 /\
  RingBuffer.count (wk2132_i2c.receive_buffer_ (snd (fst r))) = 235 + 20.
Proof.
  cbv zeta.
  assert (Hwf : RingBuffer.wf (wk2132_i2c.RING_BUFFER_SIZE example.build255)
                  (wk2132_i2c.receive_buffer_
                     (example.channel 0 "uart1" (example.filled 235)))).
  { split; vm_compute; try reflexivity; split; congruence. }
  assert (Hm : wk2132_i2c.clamp example.build255
                 (fst (wk2132_i2c.rx_in_fifo_
                         (example.channel 0 "uart1" (example.filled 235))
                         (example.component_on
                            (example.scripted [example.ok [50]] example.failed))))
                 (RingBuffer.free (wk2132_i2c.RING_BUFFER_SIZE example.build255)
                    (wk2132_i2c.receive_buffer_
                       (example.channel 0 "uart1" (example.filled 235)))) <> 0).
  { vm_compute. discriminate. }
  split; [exact Hwf|]. split; [exact Hm|].
  destruct (xfer_pushes_after_a_failed_read example.build255
              (example.channel 0 "uart1" (example.filled 235))
              (example.component_on (example.scripted [example.ok [50]] example.failed))
              Hwf Hm) as (H1 & H2 & _).
  split; [exact H1 | exact H2].
Defined.

(** C10.  available() returns a value between 0 and XFER_MAX_SIZE, which
    is the capacity of the ring buffer: also when the FIFO count is taken
    as the full 256 bytes because the count register reads 0, one call
    reports no more than one bus transfer. *)
Theorem available_is_at_most_one_transfer (build : wk2132_i2c.Build)
        (ch : wk2132_i2c.WK2132Channel) (c : wk2132_i2c.WK2132Component) :
  RingBuffer.bounded (wk2132_i2c.RING_BUFFER_SIZE build) (wk2132_i2c.receive_buffer_ ch) ->
  wk2132_i2c.XFER_MAX_SIZE build < 2 ^ 31 ->
  0 <= fst (fst (wk2132_i2c.available build ch c)) <= wk2132_i2c.XFER_MAX_SIZE build /\
  wk2132_i2c.XFER_MAX_SIZE build = wk2132_i2c.RING_BUFFER_SIZE build.
Proof.
  intros Hb Hint. split; [|reflexivity].
  unfold wk2132_i2c.available.
  case_bool_decide as Hz.
  - rewrite bind_run.
    pose proof (wk2132_i2c_data.xfer_returns_the_clamp build ch c) as Hx.
    pose proof (wk2132_i2c_data.rx_in_fifo_range ch c) as Hn.
    destruct (wk2132_i2c_data.clamp_fits build _ _ Hb (proj1 Hn)) as (Hm & _).
    rewrite <- Hx in Hm.
    destruct (wk2132_i2c.xfer_fifo_to_buffer_ build ch c) as [[moved ch'] c'].
    cbn [fst snd ret] in *. rewrite to_int_small; lia.
  - cbn [ret fst]. unfold RingBuffer.bounded, RingBuffer.count, wk2132_i2c.RING_BUFFER_SIZE in *.
    rewrite to_int_small; lia.
Qed.

Lemma available_is_at_most_one_transfer_witness :
  let build := example.build255 in
  let ch := example.channel 0 "uart1" (RingBuffer.init 255) in
  let c := example.component_on
             (example.scripted [example.ok [0]; example.ok [FSR_RFEMPTY]] (example.ok [])) in
  RingBuffer.bounded (wk2132_i2c.RING_BUFFER_SIZE build) (wk2132_i2c.receive_buffer_ ch) /\
  wk2132_i2c.XFER_MAX_SIZE build < 2 ^ 31 /\
  fst (wk2132_i2c.rx_in_fifo_ ch c) = FIFO_SIZE /\
  0 <= fst (fst (wk2132_i2c.available build ch c)) <= wk2132_i2c.XFER_MAX_SIZE build.
Proof.
  cbv zeta.
  assert (Hb : RingBuffer.bounded (wk2132_i2c.RING_BUFFER_SIZE example.build255)
                 (wk2132_i2c.receive_buffer_
                    (example.channel 0 "uart1" (RingBuffer.init 255)))).
  { vm_compute. split; discriminate. }
  assert (Hs : wk2132_i2c.XFER_MAX_SIZE example.build255 < 2 ^ 31).
  { vm_compute. reflexivity. }
  split; [exact Hb|]. split; [exact Hs|]. split; [vm_compute; reflexivity|].
  apply (available_is_at_most_one_transfer example.build255
           (example.channel 0 "uart1" (RingBuffer.init 255))
           (example.component_on
              (example.scripted [example.ok [0]; example.ok [FSR_RFEMPTY]] (example.ok [])))
           Hb Hs).
Defined.

(** * Further properties of the code *)

(** ** RingBuffer *)

Section RingBufferOrder.
Import RingBuffer.
Variable SIZE : Z.
Hypothesis SIZE_range : 0 < SIZE < 2 ^ 31.

Lemma init_wf : wf SIZE (init SIZE).
Proof.
  split; unfold init; cbn [rb_ tail_ head_ count_]; try lia.
  - rewrite length_replicate. lia.
  - rewrite Z.mod_0_l by lia. reflexivity.
Qed.

Lemma clear_wf b : wf SIZE b -> wf SIZE (clear b).
Proof.
  intros [HS Hlen Ht Hc Hh]. split; cbn [clear rb_ tail_ head_ count_]; try lia.
  rewrite Z.mod_0_l by lia. reflexivity.
Qed.

Lemma step_refines b o :
  wf SIZE b ->
  wf SIZE (step SIZE b o) /\
  contents SIZE (step SIZE b o) = queue.step SIZE (contents SIZE b) o.
Proof.
  intros Hwf. pose proof (wf_count _ _ Hwf) as Hc.
  pose proof (length_contents SIZE b (proj1 Hc)) as Hlen.
  destruct o as [item| | |]; cbn [step queue.step].
  - rewrite Hlen. case_bool_decide as Hfull.
    + unfold push, is_full. rewrite bool_decide_eq_true_2 by exact Hfull. auto.
    + destruct (push_spec SIZE item b Hwf ltac:(lia)) as (_ & Hwf' & _ & Hcont). auto.
  - destruct (decide (count_ b = 0)) as [Hz|Hz].
    + unfold pop, is_empty. rewrite bool_decide_eq_true_2 by exact Hz. cbn [snd].
      rewrite contents_empty by exact Hz. auto.
    + destruct (pop_spec SIZE 0 b Hwf ltac:(lia)) as (_ & Hwf' & _ & Hcont).
      rewrite Hcont. auto.
  - unfold peek. destruct (is_empty b); auto.
  - split; [apply clear_wf, Hwf | reflexivity].
Qed.

Lemma run_refines ops : forall b,
  wf SIZE b ->
  wf SIZE (run SIZE ops b) /\
  contents SIZE (run SIZE ops b) = queue.run SIZE ops (contents SIZE b).
Proof.
  induction ops as [|o ops IH]; intros b Hwf; cbn [run queue.run foldl]; [auto|].
  destruct (step_refines b o Hwf) as (Hwf' & Hcont).
  destruct (IH _ Hwf') as (Hwf'' & Hcont'').
  split; [exact Hwf''|]. unfold run, queue.run in Hcont''. rewrite Hcont'', Hcont. reflexivity.
Qed.

Lemma pop_oldest item b :
  wf SIZE b ->
  fst (pop SIZE item b) =
    match contents SIZE b with
    | [] => (false, item)
    | oldest :: _ => (true, oldest)
    end.
Proof.
  intros Hwf. pose proof (wf_count _ _ Hwf) as Hc.
  destruct (decide (count_ b = 0)) as [Hz|Hz].
  - rewrite contents_empty by exact Hz.
    unfold pop, is_empty. rewrite bool_decide_eq_true_2 by exact Hz. reflexivity.
  - destruct (pop_spec SIZE item b Hwf ltac:(lia)) as (Hr & _ & _ & Hcont).
    rewrite Hcont. exact Hr.
Qed.

Lemma peek_as_pop item b :
  peek item b = (fst (pop SIZE item b), b).
Proof. unfold peek, pop. destruct (is_empty b); reflexivity. Qed.
End RingBufferOrder.

(** X1.  For a capacity between 1 and 2^31 - 1 the representation of the
    ring buffer stays in order under any sequence of push, pop, peek and
    clear calls, from a fresh buffer or from any buffer in order: the
    storage keeps SIZE slots, tail is an index of it, count is at most SIZE
    and head is (tail + count) mod SIZE. *)
Theorem ring_buffer_stays_in_order (SIZE : Z) (ops : list RingBuffer.op) :
  0 < SIZE < 2 ^ 31 ->
  RingBuffer.wf SIZE (RingBuffer.run SIZE ops (RingBuffer.init SIZE)) /\
  (forall b, RingBuffer.wf SIZE b -> RingBuffer.wf SIZE (RingBuffer.run SIZE ops b)).
Proof.
  intros HS. split.
  - apply (run_refines SIZE HS ops), init_wf, HS.
  - intros b Hwf. apply (run_refines SIZE HS ops), Hwf.
Qed.

Lemma ring_buffer_stays_in_order_witness :
  0 < 4 < 2 ^ 31 /\
  RingBuffer.wf 4
    (RingBuffer.run 4 [RingBuffer.Push 1; RingBuffer.Push 2; RingBuffer.Pop;
                       RingBuffer.Push 3; RingBuffer.Push 4; RingBuffer.Push 5;
                       RingBuffer.Push 6; RingBuffer.Pop]
       (RingBuffer.init 4)).
Proof.
  assert (H : 0 < 4 < 2 ^ 31) by lia.
  split; [exact H|].
  destruct (ring_buffer_stays_in_order 4
              [RingBuffer.Push 1; RingBuffer.Push 2; RingBuffer.Pop;
               RingBuffer.Push 3; RingBuffer.Push 4; RingBuffer.Push 5;
               RingBuffer.Push 6; RingBuffer.Pop] H) as (H1 & _).
  exact H1.
Defined.

(** X2.  The ring buffer is a first-in first-out queue of at most SIZE
    bytes: after any sequence of calls the bytes it holds, oldest first, are
    those of a list to which push appends unless SIZE bytes are held, from
    which pop drops the first, which clear empties and peek leaves alone. *)
Theorem ring_buffer_is_a_bounded_queue (SIZE : Z) (ops : list RingBuffer.op) :
  0 < SIZE < 2 ^ 31 ->
  RingBuffer.contents SIZE (RingBuffer.run SIZE ops (RingBuffer.init SIZE)) =
    queue.run SIZE ops [] /\
  (forall b, RingBuffer.wf SIZE b ->
     RingBuffer.contents SIZE (RingBuffer.run SIZE ops b) =
       queue.run SIZE ops (RingBuffer.contents SIZE b)).
Proof.
  intros HS. split.
  - destruct (run_refines SIZE HS ops _ (init_wf SIZE HS)) as (_ & H).
    rewrite H. reflexivity.
  - intros b Hwf. apply (run_refines SIZE HS ops), Hwf.
Qed.

(** Five pushes into four slots, with a pop in between: the fifth byte that
    finds the buffer full is dropped and the order is kept. *)
Lemma ring_buffer_is_a_bounded_queue_witness :
  0 < 4 < 2 ^ 31 /\
  RingBuffer.contents 4
    (RingBuffer.run 4 [RingBuffer.Push 1; RingBuffer.Push 2; RingBuffer.Pop;
                       RingBuffer.Push 3; RingBuffer.Push 4; RingBuffer.Push 5;
                       RingBuffer.Push 6]
       (RingBuffer.init 4)) = [2; 3; 4; 5].
Proof.
  assert (H : 0 < 4 < 2 ^ 31) by lia.
  split; [exact H|].
  destruct (ring_buffer_is_a_bounded_queue 4
              [RingBuffer.Push 1; RingBuffer.Push 2; RingBuffer.Pop;
               RingBuffer.Push 3; RingBuffer.Push 4; RingBuffer.Push 5;
               RingBuffer.Push 6] H) as (H1 & _).
  rewrite H1. reflexivity.
Defined.

(** X3.  On a buffer in order, pop returns the oldest byte held and true,
    or false with the referenced item untouched when none is held; peek
    returns what pop would return and leaves the buffer as it is; so the
    byte a pop returns after a push is the pushed one only when the buffer
    was empty before. *)
Theorem ring_buffer_pop_returns_the_oldest (SIZE : Z) (b : RingBuffer.t) (item x : Z) :
  RingBuffer.wf SIZE b ->
  fst (RingBuffer.pop SIZE item b) =
    match RingBuffer.contents SIZE b with
    | [] => (false, item)
    | oldest :: _ => (true, oldest)
    end /\
  RingBuffer.peek item b = (fst (RingBuffer.pop SIZE item b), b) /\
  (RingBuffer.count b < SIZE ->
   fst (RingBuffer.pop SIZE item (snd (RingBuffer.push SIZE x b))) =
     (true, hd x (RingBuffer.contents SIZE b))).
Proof.
  intros Hwf. pose proof (RingBuffer.wf_size _ _ Hwf) as HS.
  split; [apply pop_oldest; assumption|]. split; [apply peek_as_pop|].
  intros Hroom. unfold RingBuffer.count in Hroom.
  destruct (push_spec SIZE x b Hwf Hroom) as (_ & Hwf' & _ & Hcont).
  rewrite (pop_oldest SIZE item _ Hwf'), Hcont.
  destruct (RingBuffer.contents SIZE b); reflexivity.
Qed.

Lemma ring_buffer_pop_returns_the_oldest_witness :
  let b := RingBuffer.run 4 [RingBuffer.Push 7; RingBuffer.Push 8] (RingBuffer.init 4) in
  RingBuffer.wf 4 b /\
  fst (RingBuffer.pop 4 0 b) = (true, 7) /\
  fst (RingBuffer.pop 4 0 (snd (RingBuffer.push 4 9 b))) = (true, 7).
Proof.
  cbv zeta.
  assert (Hwf : RingBuffer.wf 4
                  (RingBuffer.run 4 [RingBuffer.Push 7; RingBuffer.Push 8]
                     (RingBuffer.init 4))).
  { split; vm_compute; try reflexivity; split; congruence. }
  split; [exact Hwf|].
  destruct (ring_buffer_pop_returns_the_oldest 4 _ 0 9 Hwf) as (H1 & _ & H3).
  split; [exact H1|]. apply H3. vm_compute. reflexivity.
Defined.

(** ** Bus addresses *)

Lemma address_check_all :
  forallb (fun k => forallb (fun channel => forallb (address_check (8 * k) channel)
                                                     (seqZ 0 2))
                            (seqZ 0 4))
          (seqZ 0 32) = true.
Proof. vm_compute. reflexivity. Qed.

Lemma in_seqZ (x n : Z) : 0 <= x < n -> In x (seqZ 0 n).
Proof. intros H. apply list_elem_of_In, elem_of_seqZ. lia. Qed.

Lemma aligned_base base :
  0 <= base < 256 -> Z.land base 7 = 0 -> exists k, 0 <= k < 32 /\ base = 8 * k.
Proof.
  intros Hr Ha. change 7 with (Z.ones 3) in Ha. rewrite Z.land_ones in Ha by lia.
  exists (base / 8). change (2 ^ 3) with 8 in Ha.
  pose proof (Z.div_mod base 8 ltac:(lia)) as Hd.
  split; [|lia].
  split; [apply Z.div_pos; lia | apply Z.div_lt_upper_bound; lia].
Qed.

Lemma address_check_holds base channel fifo :
  0 <= base < 256 -> Z.land base 7 = 0 -> 0 <= channel <= 3 -> 0 <= fifo <= 1 ->
  address_check base channel fifo = true.
Proof.
  intros Hb Ha Hc Hf.
  destruct (aligned_base base Hb Ha) as (k & Hk & ->).
  pose proof address_check_all as Hall.
  rewrite forallb_forall in Hall. specialize (Hall k (in_seqZ k 32 Hk)).
  rewrite forallb_forall in Hall. specialize (Hall channel (in_seqZ channel 4 ltac:(lia))).
  rewrite forallb_forall in Hall. apply Hall, in_seqZ. lia.
Qed.

(** X4.  For a base address whose three low bits are clear, a channel from
    0 to 3 and a fifo flag of 0 or 1, i2c_address is base + 2 * channel +
    fifo; the flag, the channel and the base can be read back from it, so
    the registers and the FIFO of the channels are all at different
    addresses. *)
Theorem i2c_address_separates_channels_and_fifo (base channel fifo : Z) :
  0 <= base < 256 -> Z.land base 7 = 0 -> 0 <= channel <= 3 -> 0 <= fifo <= 1 ->
  let a := i2c_address base channel fifo in
  a = base + 2 * channel + fifo /\
  Z.land a 1 = fifo /\
  Z.land (Z.shiftr a 1) 3 = channel /\
  Z.land a 0xF8 = base /\
  (forall channel' fifo',
      0 <= channel' <= 3 -> 0 <= fifo' <= 1 ->
      i2c_address base channel' fifo' = a -> channel' = channel /\ fifo' = fifo).
Proof.
  intros Hb Ha Hc Hf. cbv zeta.
  pose proof (address_check_holds base channel fifo Hb Ha Hc Hf) as H.
  unfold address_check in H. cbv zeta in H.
  rewrite !andb_true_iff, !bool_decide_eq_true in H.
  destruct H as (((H1 & H2) & H3) & H4).
  repeat (split; [assumption|]).
  intros channel' fifo' Hc' Hf' Heq.
  pose proof (address_check_holds base channel' fifo' Hb Ha Hc' Hf') as H'.
  unfold address_check in H'. cbv zeta in H'.
  rewrite !andb_true_iff, !bool_decide_eq_true in H'.
  destruct H' as (((_ & H2') & H3') & _).
  rewrite Heq in H2', H3'. split; congruence.
Qed.

(** Base 0x70: channel 2 is at 0x72 and its FIFO at 0x73. *)
Lemma i2c_address_separates_channels_and_fifo_witness :
  0 <= 0x70 < 256 /\ Z.land 0x70 7 = 0 /\ 0 <= 1 <= 3 /\ 0 <= 1 <= 1 /\
  i2c_address 0x70 1 1 = 0x70 + 2 * 1 + 1.
Proof.
  assert (Hb : 0 <= 0x70 < 256) by lia.
  assert (Ha : Z.land 0x70 7 = 0) by reflexivity.
  assert (Hc : 0 <= 1 <= 3) by lia.
  assert (Hf : 0 <= 1 <= 1) by lia.
  repeat (split; [assumption|]).
  destruct (i2c_address_separates_channels_and_fifo 0x70 1 1 Hb Ha Hc Hf) as (H & _).
  exact H.
Defined.

(** ** Baud-rate divisor *)



(** ** The FIFO counters *)

Module wk2132_i2c_counters.
Import wk2132_i2c wk2132_i2c_tx wk2132_i2c_facts.

Lemma get_byte r c : fst (get r c) = byte_at c (length (traffic_of c)).
Proof. destruct (get_spec r c) as (_ & H & _). exact H. Qed.

Lemma get_then_byte r c :
  byte_at (snd (get r c)) (S (length (traffic_of c))) = byte_at c (S (length (traffic_of c))).
Proof.
  destruct (get_spec r c) as (_ & _ & _ & Hf).
  unfold byte_at. rewrite (same_replies _ _ Hf). reflexivity.
Qed.

(** A register that reads 0 makes the driver look at a flag of the status
    register: the common shape of [rx_in_fifo_] and [tx_in_fifo_]. *)
Lemma counter_spec (counter flag : Z) ch c :
  let m := let* count := get (channel_reg ch counter) in
           if bool_decide (count = 0)
           then
             let* fsr := get (channel_reg ch REG_WK2132_FSR) in
             if bool_decide (Z.land fsr flag <> 0) then ret FIFO_SIZE else ret count
           else ret count in
  let n := length (traffic_of c) in
  let address := i2c_address (base_address_ c) (channel_ ch) 0 in
  (byte_at c n <> 0 ->
   fst (m c) = byte_at c n /\
   traffic_of (snd (m c)) = traffic_of c ++ [i2c.ReadRegister address counter 1]) /\
  (byte_at c n = 0 ->
   fst (m c) = (if bool_decide (Z.land (byte_at c (S n)) flag <> 0) then FIFO_SIZE else 0) /\
   traffic_of (snd (m c)) =
     traffic_of c ++ [i2c.ReadRegister address counter 1;
                      i2c.ReadRegister address REG_WK2132_FSR 1]).
Proof.
  cbv zeta. rewrite bind_run.
  destruct (get_spec (channel_reg ch counter) c) as (T1 & _ & _ & F1).
  rewrite (get_byte (channel_reg ch counter) c).
  set (c1 := snd (get (channel_reg ch counter) c)) in *.
  split; intros Hb.
  - rewrite bool_decide_eq_false_2 by exact Hb. unfold ret. cbn [fst snd].
    split; [reflexivity | exact T1].
  - rewrite bool_decide_eq_true_2 by exact Hb. rewrite bind_run.
    destruct (get_spec (channel_reg ch REG_WK2132_FSR) c1) as (T2 & _ & _ & _).
    rewrite (get_byte (channel_reg ch REG_WK2132_FSR) c1).
    assert (Hlen : length (traffic_of c1) = S (length (traffic_of c))).
    { rewrite T1, length_app. cbn. lia. }
    rewrite Hlen. subst c1. rewrite get_then_byte.
    split.
    + case_bool_decide; unfold ret; cbn [fst]; [reflexivity | exact Hb].
    + assert (Ht : forall x y : Z,
                 traffic_of (snd ((if bool_decide (Z.land (byte_at c (S (length (traffic_of c)))) flag <> 0)
                                   then ret x else ret y)
                                    (snd (get (channel_reg ch REG_WK2132_FSR)
                                              (snd (get (channel_reg ch counter) c)))))) =
                 traffic_of (snd (get (channel_reg ch REG_WK2132_FSR)
                                      (snd (get (channel_reg ch counter) c))))).
      { intros x y. case_bool_decide; reflexivity. }
      rewrite Ht, T2, T1. unfold register_address.
      rewrite (same_base_address _ _ F1), <- app_assoc. reflexivity.
Qed.
End wk2132_i2c_counters.

(** X6.  rx_in_fifo_ returns the byte read from the receive count register
    after one register read when that byte is not 0; when it is 0 (also
    because the read failed and delivered nothing) it reads the status
    register as well and returns 256 if the receive flag (bit 3) is set and
    0 otherwise.  tx_in_fifo_ does the same with the transmit count register
    and the transmit-full flag (bit 1).  Both only read, and return a value
    between 0 and 256. *)
Theorem fifo_counters_take_zero_as_full (ch : wk2132_i2c.WK2132Channel)
        (c : wk2132_i2c.WK2132Component) :
  let n := length (wk2132_i2c.traffic_of c) in
  let address := i2c_address (wk2132_i2c.base_address_ c) (wk2132_i2c.channel_ ch) 0 in
  let count := byte_at c n in
  let fsr := byte_at c (S n) in
  let rx := wk2132_i2c.rx_in_fifo_ ch c in
  let tx := wk2132_i2c_tx.tx_in_fifo_ ch c in
  0 <= count < 256 /\
  (count <> 0 ->
   fst rx = count /\ fst tx = count /\
   wk2132_i2c.traffic_of (snd rx) =
     wk2132_i2c.traffic_of c ++ [i2c.ReadRegister address REG_WK2132_RFCNT 1] /\
   wk2132_i2c.traffic_of (snd tx) =
     wk2132_i2c.traffic_of c ++ [i2c.ReadRegister address REG_WK2132_TFCNT 1]) /\
  (count = 0 ->
   fst rx = (if bool_decide (Z.land fsr FSR_RFEMPTY <> 0) then 256 else 0) /\
   fst tx = (if bool_decide (Z.land fsr FSR_TFFULL <> 0) then 256 else 0) /\
   wk2132_i2c.traffic_of (snd rx) =
     wk2132_i2c.traffic_of c ++ [i2c.ReadRegister address REG_WK2132_RFCNT 1;
                                 i2c.ReadRegister address REG_WK2132_FSR 1] /\
   wk2132_i2c.traffic_of (snd tx) =
     wk2132_i2c.traffic_of c ++ [i2c.ReadRegister address REG_WK2132_TFCNT 1;
                                 i2c.ReadRegister address REG_WK2132_FSR 1]).
Proof.
  cbv zeta.
  destruct (wk2132_i2c_counters.counter_spec REG_WK2132_RFCNT FSR_RFEMPTY ch c) as (R1 & R0).
  destruct (wk2132_i2c_counters.counter_spec REG_WK2132_TFCNT FSR_TFFULL ch c) as (T1 & T0).
  split; [apply wk2132_i2c_data.deposit_byte_range|]. split; intros Hc.
  - destruct (R1 Hc) as (Ra & Rb). destruct (T1 Hc) as (Ta & Tb). auto.
  - destruct (R0 Hc) as (Ra & Rb). destruct (T0 Hc) as (Ta & Tb). auto.
Qed.

(** ** Line parameters *)

Lemma low_bits_of_line_config (lcr bits : Z) :
  Z.land bits 0xF0 = 0 -> Z.land bits 0x0F = bits ->
  Z.land (Z.lor (Z.land lcr 0xF0) bits) 0xF0 = Z.land lcr 0xF0 /\
  Z.land (Z.lor (Z.land lcr 0xF0) bits) 0x0F = bits.
Proof.
  intros Hhigh Hlow. rewrite !Z.land_lor_distr_l, <- !Z.land_assoc, Hhigh, Hlow.
  change (Z.land 0xF0 0xF0) with 0xF0. change (Z.land 0xF0 0x0F) with 0.
  rewrite Z.land_0_r, Z.lor_0_r, Z.lor_0_l. split; reflexivity.
Qed.

Lemma line_bits_low stop_bits parity :
  Z.land (line_bits stop_bits parity) 0xF0 = 0 /\
  Z.land (line_bits stop_bits parity) 0x0F = line_bits stop_bits parity.
Proof.
  unfold line_bits. case_bool_decide; destruct parity; split; reflexivity.
Qed.

(** X7.  set_line_param_ of wk2132.cpp reads the line configuration
    register once and writes it once: the byte written keeps the four high
    bits of the byte read (of what its uninitialised local holds, when the
    read delivered nothing) and has in the four low bits the stop-length bit
    for two stop bits and the parity bits, which are those of the constants
    of wk2132_i2c.h; data_bits_ becomes 8 and the line is printed. *)
Theorem legacy_line_param_keeps_the_high_bits (ch : wk2132.WK2132Channel)
        (c : wk2132.WK2132Component) :
  let n := length (wk2132.traffic_of c) in
  let address := i2c_address (wk2132.base_address_ c) (wk2132.channel_ ch) 0 in
  let lcr := array_get (i2c.deposit 1 (i2c.received (wk2132.reply_of c n))
                                    [u8 (indeterminate (wk2132.host c) 0)]) 0 in
  let written := Z.lor (Z.land lcr 0xF0)
                       (line_bits (wk2132.stop_bits_ ch) (wk2132.parity_ ch)) in
  let r := wk2132.set_line_param_ ch c in
  wk2132.traffic_of (snd r) =
    wk2132.traffic_of c ++ [i2c.ReadRegister address REG_WK2132_LCR 1;
                            i2c.WriteRegister address REG_WK2132_LCR [written]] /\
  Z.land written 0xF0 = Z.land lcr 0xF0 /\
  Z.land written 0x0F = line_bits (wk2132.stop_bits_ ch) (wk2132.parity_ ch) /\
  fst r = wk2132.set_data_bits 8 ch /\
  last (wk2132.console_of (snd r)) =
    Some (LineConfig 8 (wk2132.stop_bits_ ch) (wk2132.parity_ ch) written).
Proof.
  cbv zeta.
  destruct (line_bits_low (wk2132.stop_bits_ ch) (wk2132.parity_ ch)) as (Hhigh & Hlow).
  destruct (low_bits_of_line_config
              (array_get (i2c.deposit 1
                            (i2c.received (wk2132.reply_of c (length (wk2132.traffic_of c))))
                            [u8 (indeterminate (wk2132.host c) 0)]) 0)
              _ Hhigh Hlow) as (H1 & H2).
  split; [|split; [exact H1|split; [exact H2|]]].
  - unfold wk2132.set_line_param_, wk2132.read_wk2132_register_,
      wk2132.write_wk2132_register_, bind, ret, wk2132.inherited, host.uninitialised,
      host.read_register, host.write_register, host.transact, i2c.exchange,
      host.set_address, host.log, wk2132.traffic_of, wk2132.reply_of, line_bits.
    cbn -[i2c.deposit array_get Z.land Z.lor i2c_address].
    destruct (i2c.is_ok (i2c.code (i2c.replies (bus_ (wk2132.host c))
                                     (length (i2c.traffic (bus_ (wk2132.host c)))))));
      cbn -[i2c.deposit array_get Z.land Z.lor i2c_address];
      destruct (i2c.is_ok _);
      cbn -[i2c.deposit array_get Z.land Z.lor i2c_address];
      rewrite <- app_assoc; cbn [app];
      case_bool_decide; destruct (wk2132.parity_ ch);
      rewrite <- ?Z.lor_assoc, ?Z.lor_0_r; reflexivity.
  - unfold wk2132.set_line_param_, wk2132.read_wk2132_register_,
      wk2132.write_wk2132_register_, bind, ret, wk2132.inherited, host.uninitialised,
      host.read_register, host.write_register, host.transact, i2c.exchange,
      host.set_address, host.log, wk2132.console_of, wk2132.reply_of,
      wk2132.traffic_of, line_bits.
    cbn -[i2c.deposit array_get Z.land Z.lor i2c_address last].
    destruct (i2c.is_ok (i2c.code (i2c.replies (bus_ (wk2132.host c))
                                     (length (i2c.traffic (bus_ (wk2132.host c)))))));
      cbn -[i2c.deposit array_get Z.land Z.lor i2c_address last];
      destruct (i2c.is_ok _);
      cbn -[i2c.deposit array_get Z.land Z.lor i2c_address last];
      (split; [reflexivity|]); rewrite last_snoc;
      case_bool_decide; destruct (wk2132.parity_ ch);
      rewrite <- ?Z.lor_assoc, ?Z.lor_0_r; reflexivity.
Qed.

Lemma for_all_bytes (P : Z -> bool) :
  forallb P (seqZ 0 256) = true -> forall x, 0 <= x < 256 -> P x = true.
Proof.
  intros H x Hx. rewrite forallb_forall in H. apply H, in_seqZ, Hx.
Qed.

Lemma last_written_app address a_register l1 l2 :
  last_written address a_register (l1 ++ l2) =
    match last_written address a_register l2 with
    | Some w => Some w
    | None => last_written address a_register l1
    end.
Proof.
  induction l1 as [|t l1 IH]; cbn [app last_written].
  - destruct (last_written address a_register l2); reflexivity.
  - rewrite IH. destruct (last_written address a_register l2); reflexivity.
Qed.

Lemma last_written_snoc address a_register l w :
  last_written address a_register (l ++ [i2c.WriteRegister address a_register [w]]) = Some w.
Proof.
  rewrite last_written_app. cbn [last_written].
  rewrite !bool_decide_eq_true_2 by reflexivity. reflexivity.
Qed.

Module wk2132_i2c_line.
Import wk2132_i2c wk2132_i2c_terms wk2132_i2c_facts wk2132_i2c_counters.

(** One compound assignment, run after the exchanges [pre] were added to
    the traffic of [c0]. *)
Lemma compound_step (op : Z -> Z -> Z) r value c0 c pre :
  frame c0 c -> traffic_of c = traffic_of c0 ++ pre ->
  let m := let value := u8 value in
           let* got := get r in let value := op value got in set r value in
  let got := byte_at c0 (length (traffic_of c0) + length pre) in
  traffic_of (snd (m c)) =
    traffic_of c0 ++ pre ++
      [i2c.ReadRegister (register_address c0 r) (register_ r) 1;
       i2c.WriteRegister (register_address c0 r) (register_ r) [u8 (op (u8 value) got)]] /\
  frame c0 (snd (m c)).
Proof.
  intros Hf Ht. cbv zeta.
  destruct (compound_spec op r value c) as (T & _). cbv zeta in T.
  assert (Hq : quiet (let* got := get r in set r (op (u8 value) got))).
  { apply quiet_bind; [apply quiet_get | intros; apply quiet_set]. }
  split; [|eapply frame_trans; [exact Hf | apply Hq]].
  rewrite T, (get_byte r c), Ht, length_app, <- app_assoc.
  unfold register_address, byte_at. rewrite (same_base_address _ _ Hf), (same_replies _ _ Hf).
  reflexivity.
Qed.

Lemma set_line_param_traffic ch c :
  traffic_of (snd (set_line_param_ ch c)) = traffic_of c ++ line_param_traffic c ch /\
  fst (set_line_param_ ch c) = set_data_bits 8 ch.
Proof.
  unfold set_line_param_, line_param_traffic. cbv zeta.
  set (lcr := {| register_ := REG_WK2132_LCR; reg_channel_ := channel_ ch |}).
  change (channel_reg (set_data_bits 8 ch) REG_WK2132_LCR) with lcr.
  change (stop_bits_ (set_data_bits 8 ch)) with (stop_bits_ ch).
  change (parity_ (set_data_bits 8 ch)) with (parity_ ch).
  set (address := i2c_address (base_address_ c) (channel_ ch) 0).
  set (n := length (traffic_of c)).
  set (first := [i2c.ReadRegister address REG_WK2132_LCR 1;
                 i2c.WriteRegister address REG_WK2132_LCR
                   [u8 (Z.land (u8 0xF0) (byte_at c n))]]).
  set (stop := if bool_decide (stop_bits_ ch = 2) then _ else []).
  rewrite bind_run.
  set (c1 := snd (and_assign lcr 0xF0 c)).
  assert (H1 : traffic_of c1 = traffic_of c ++ [] ++ first /\ frame c c1).
  { pose proof (compound_step Z.land lcr 0xF0 c c [] (frame_refl c)
                  (eq_sym (app_nil_r _))) as H.
    cbv zeta in H. cbn [length] in H. rewrite Nat.add_0_r in H. exact H. }
  destruct H1 as (T1 & F1). cbn [app] in T1.
  rewrite bind_run.
  set (c2 := snd ((if bool_decide (stop_bits_ ch = 2)
                   then or_assign lcr LCR_STPL else ret tt) c1)).
  assert (H2 : traffic_of c2 = traffic_of c ++ first ++ stop /\ frame c c2).
  { subst c2 stop. case_bool_decide as Hstop.
    - pose proof (compound_step Z.lor lcr LCR_STPL c c1 first F1 T1) as Hs.
      cbv zeta in Hs. exact Hs.
    - unfold ret. cbn [snd]. rewrite app_nil_r. auto. }
  destruct H2 as (T2 & F2).
  assert (Hlen : length (first ++ stop) = (2 + length stop)%nat).
  { rewrite length_app. reflexivity. }
  split.
  - destruct (parity_ ch).
    + rewrite bind_run. unfold ret. cbn [snd]. rewrite T2, app_nil_r. reflexivity.
    + rewrite bind_run. unfold ret at 1. cbn [snd].
      pose proof (compound_step Z.lor lcr (Z.lor LCR_PAEN LCR_PAR_EVEN) c c2 _ F2 T2)
        as (T3 & _).
      cbv zeta in T3. rewrite Hlen in T3.
      change (snd (or_assign lcr (Z.lor LCR_PAEN LCR_PAR_EVEN) c2))
        with (snd ((let* got := get lcr in
                    set lcr (Z.lor (u8 (Z.lor LCR_PAEN LCR_PAR_EVEN)) got)) c2)).
      rewrite T3, <- !app_assoc. reflexivity.
    + rewrite bind_run. unfold ret at 1. cbn [snd].
      pose proof (compound_step Z.lor lcr (Z.lor LCR_PAEN LCR_PAR_ODD) c c2 _ F2 T2)
        as (T3 & _).
      cbv zeta in T3. rewrite Hlen in T3.
      change (snd (or_assign lcr (Z.lor LCR_PAEN LCR_PAR_ODD) c2))
        with (snd ((let* got := get lcr in
                    set lcr (Z.lor (u8 (Z.lor LCR_PAEN LCR_PAR_ODD)) got)) c2)).
      rewrite T3, <- !app_assoc. reflexivity.
  - destruct (parity_ ch); rewrite bind_run; reflexivity.
Qed.
End wk2132_i2c_line.

Lemma byte_at_of_reply c k w :
  i2c.received (wk2132_i2c.reply_of c k) = [w] -> byte_at c k = u8 w.
Proof.
  intros H. unfold byte_at, i2c.deposit, array_get. rewrite H.
  rewrite bool_decide_eq_true_2 by lia. reflexivity.
Qed.

(** The bytes that the read-modify-write steps of [set_line_param_] give
    when each read returns the byte written before, for every first byte. *)
Lemma line_steps_check_all : forallb wk2132_i2c_terms.line_steps_check (seqZ 0 256) = true.
Proof. vm_compute. reflexivity. Qed.

Lemma read_back_after_write replies pre a r w rest :
  reads_back replies (pre ++ i2c.WriteRegister a r [w] :: i2c.ReadRegister a r 1 :: rest) ->
  i2c.received (replies (S (length pre))) = [w].
Proof.
  intros H. apply (H (S (length pre)) a r w).
  - rewrite (cons_middle (i2c.WriteRegister a r [w])), app_assoc.
    apply list_lookup_middle. rewrite length_app. cbn. lia.
  - rewrite (cons_middle (i2c.WriteRegister a r [w])), app_assoc.
    rewrite take_app_length' by (rewrite length_app; cbn; lia).
    apply last_written_snoc.
Qed.

(** X8.  set_line_param_ of wk2132_i2c.cpp sets data_bits_ to 8 and makes
    one read-modify-write of the line configuration register to clear its
    four low bits, one more for two stop bits and one more for a parity
    (two, four or six bus exchanges).  On a device that answers each read
    with the byte last written to the register, the last byte written has
    the four high bits of the byte first read and, in the four low bits,
    the stop-length bit and the parity bits of the configuration. *)
Theorem line_param_on_a_register_that_reads_back (ch : wk2132_i2c.WK2132Channel)
        (c : wk2132_i2c.WK2132Component) :
  let r := wk2132_i2c.set_line_param_ ch c in
  let n := length (wk2132_i2c.traffic_of c) in
  let address := i2c_address (wk2132_i2c.base_address_ c) (wk2132_i2c.channel_ ch) 0 in
  let bits := line_bits (wk2132_i2c.stop_bits_ ch) (wk2132_i2c.parity_ ch) in
  let for_stop := if bool_decide (wk2132_i2c.stop_bits_ ch = 2) then 2%nat else 0%nat in
  let for_parity :=
    match wk2132_i2c.parity_ ch with
    | UART_CONFIG_PARITY_NONE => 0%nat
    | _ => 2%nat
    end in
  reads_back (wk2132_i2c.reply_of c) (wk2132_i2c.traffic_of (snd r)) ->
  last (wk2132_i2c.traffic_of (snd r)) =
    Some (i2c.WriteRegister address REG_WK2132_LCR
                            [Z.lor (Z.land (byte_at c n) 0xF0) bits]) /\
  length (wk2132_i2c.traffic_of (snd r)) = (n + 2 + for_stop + for_parity)%nat /\
  wk2132_i2c.data_bits_ (fst r) = 8.
Proof.
  cbv zeta. intros Hback.
  destruct (wk2132_i2c_line.set_line_param_traffic ch c) as (T & Hch).
  rewrite T in Hback |- *. rewrite Hch. clear T Hch.
  unfold wk2132_i2c_terms.line_param_traffic in *. cbv zeta in *.
  set (address := i2c_address (wk2132_i2c.base_address_ c) (wk2132_i2c.channel_ ch) 0) in *.
  set (tc := wk2132_i2c.traffic_of c) in *.
  pose proof (wk2132_i2c_data.deposit_byte_range 1
                (i2c.received (wk2132_i2c.reply_of c (length tc)))) as Hg.
  fold (byte_at c (length tc)) in Hg.
  pose proof (for_all_bytes _ line_steps_check_all _ Hg) as Hsteps.
  unfold wk2132_i2c_terms.line_steps_check in Hsteps. cbv zeta in Hsteps.
  rewrite !andb_true_iff, !bool_decide_eq_true in Hsteps.
  destruct Hsteps as (((((S0 & S1) & S2) & S3) & S4) & S5).
  change (u8 1) with 1 in S1, S4, S5. change (u8 10) with 10 in S2, S4.
  change (u8 12) with 12 in S3, S5.
  set (g := byte_at c (length tc)) in *.
  set (w1 := u8 (Z.land (u8 0xF0) g)) in *.
  set (R := i2c.ReadRegister address REG_WK2132_LCR 1) in *.
  unfold line_bits.
  assert (Hb1 : forall rest,
             reads_back (wk2132_i2c.reply_of c)
               (tc ++ R :: i2c.WriteRegister address REG_WK2132_LCR [w1] :: R :: rest) ->
             byte_at c (length tc + 2) = u8 w1).
  { intros rest H. apply byte_at_of_reply.
    pose proof (read_back_after_write (wk2132_i2c.reply_of c) (tc ++ [R]) address
                  REG_WK2132_LCR w1 rest) as Hr.
    rewrite <- app_assoc in Hr. cbn [app] in Hr. specialize (Hr H).
    rewrite length_app in Hr. cbn [length] in Hr.
    replace (length tc + 2)%nat with (S (length tc + 1)) by lia. exact Hr. }
  assert (Hb2 : forall w2 rest,
             reads_back (wk2132_i2c.reply_of c)
               (tc ++ R :: i2c.WriteRegister address REG_WK2132_LCR [w1] :: R ::
                  i2c.WriteRegister address REG_WK2132_LCR [w2] :: R :: rest) ->
             byte_at c (length tc + 4) = u8 w2).
  { intros w2 rest H. apply byte_at_of_reply.
    pose proof (read_back_after_write (wk2132_i2c.reply_of c)
                  (tc ++ [R; i2c.WriteRegister address REG_WK2132_LCR [w1]; R])
                  address REG_WK2132_LCR w2 rest) as Hr.
    rewrite <- app_assoc in Hr. cbn [app] in Hr. specialize (Hr H).
    rewrite length_app in Hr. cbn [length] in Hr.
    replace (length tc + 4)%nat with (S (length tc + 3)) by lia. exact Hr. }
  case_bool_decide as Hstop; destruct (wk2132_i2c.parity_ ch);
    cbn [length app Nat.add] in *;
    (split; [|split; [rewrite length_app; cbn [length]; lia | reflexivity]]);
    rewrite last_app; cbn [last].
  - rewrite (Hb1 _ Hback). fold w1. rewrite Z.lor_0_r.
    change (u8 LCR_STPL) with 1. change LCR_STPL with 1. congruence.
  - rewrite (Hb2 _ _ Hback), (Hb1 _ Hback).
    change (u8 LCR_STPL) with 1. change (u8 (Z.lor LCR_PAEN LCR_PAR_EVEN)) with 12.
    change (Z.lor LCR_STPL (Z.lor LCR_PAEN LCR_PAR_EVEN)) with 13. congruence.
  - rewrite (Hb2 _ _ Hback), (Hb1 _ Hback).
    change (u8 LCR_STPL) with 1. change (u8 (Z.lor LCR_PAEN LCR_PAR_ODD)) with 10.
    change (Z.lor LCR_STPL (Z.lor LCR_PAEN LCR_PAR_ODD)) with 11. congruence.
  - change (Z.lor 0 0) with 0. fold g w1. congruence.
  - rewrite (Hb1 _ Hback).
    change (u8 (Z.lor LCR_PAEN LCR_PAR_EVEN)) with 12.
    change (Z.lor 0 (Z.lor LCR_PAEN LCR_PAR_EVEN)) with 12. congruence.
  - rewrite (Hb1 _ Hback).
    change (u8 (Z.lor LCR_PAEN LCR_PAR_ODD)) with 10.
    change (Z.lor 0 (Z.lor LCR_PAEN LCR_PAR_ODD)) with 10. congruence.
Qed.

(** A line configuration register that holds 0xC3 and reads back what is
    written; two stop bits and even parity leave it at 0xCD. *)
Lemma line_param_on_a_register_that_reads_back_witness :
  let ch :=
    {| wk2132_i2c.baud_rate_ := 9600; wk2132_i2c.stop_bits_ := 2;
       wk2132_i2c.data_bits_ := 7; wk2132_i2c.parity_ := UART_CONFIG_PARITY_EVEN;
       wk2132_i2c.receive_buffer_ := RingBuffer.init 255; wk2132_i2c.channel_ := 1;
       wk2132_i2c.data_ := 0; wk2132_i2c.channel_name_ := "uart2" |} in
  let c := example.component_on
             (example.scripted
                [example.ok [0xC3]; example.ok []; example.ok [0xC0]; example.ok [];
                 example.ok [0xC1]; example.ok []] (example.ok [])) in
  let r := wk2132_i2c.set_line_param_ ch c in
  reads_back (wk2132_i2c.reply_of c) (wk2132_i2c.traffic_of (snd r)) /\
  last (wk2132_i2c.traffic_of (snd r)) =
    Some (i2c.WriteRegister 0x72 REG_WK2132_LCR [0xCD]).
Proof.
  cbv zeta.
  match goal with
  | |- ?P /\ _ => assert (Hback : P)
  end.
  { intros k a r w Hk Hw.
    do 6 (destruct k as [|k];
          [vm_compute in Hk; try discriminate Hk; injection Hk as <- <-;
           vm_compute in Hw; try discriminate Hw; injection Hw as <-;
           vm_compute; reflexivity|]).
    vm_compute in Hk. discriminate Hk. }
  split; [exact Hback|].
  destruct (line_param_on_a_register_that_reads_back _ _ Hback) as (H & _).
  exact H.
Defined.

(** ** The receive path of wk2132_i2c.cpp, on the bytes held *)

Module wk2132_i2c_receive.
Import wk2132_i2c wk2132_i2c_terms wk2132_i2c_facts wk2132_i2c_data.

Lemma length_garbage c n : length (garbage c n) = Z.to_nat n.
Proof. unfold garbage. rewrite length_fmap, length_seq. reflexivity. Qed.

Lemma set_receive_buffer_same ch : set_receive_buffer (receive_buffer_ ch) ch = ch.
Proof. destruct ch. reflexivity. Qed.

Lemma wf_bounded SIZE b : RingBuffer.wf SIZE b -> RingBuffer.bounded SIZE b.
Proof. intros Hwf. exact (RingBuffer.wf_count _ _ Hwf). Qed.

Lemma quiet_read_fifo ch n : quiet (read_fifo ch n).
Proof.
  intros c. unfold read_fifo, bind, inherited, host.uninitialised, host.set_address,
    host.read, host.transact, i2c.exchange, host.log, ret. cbn.
  destruct (i2c.is_ok _); frame_by_computation.
Qed.

Section WithBuild.
Variable build : Build.
#[local] Abbreviation SIZE := (RING_BUFFER_SIZE build).

Lemma xfer_spec ch c :
  RingBuffer.wf SIZE (receive_buffer_ ch) ->
  let m := clamp build (fst (rx_in_fifo_ ch c)) (RingBuffer.free SIZE (receive_buffer_ ch)) in
  let r := xfer_fifo_to_buffer_ build ch c in
  let ch' := snd (fst r) in
  fst (fst r) = m /\
  0 <= m <= SIZE /\
  Z.of_nat (length (delivered build ch c)) = m /\
  RingBuffer.wf SIZE (receive_buffer_ ch') /\
  RingBuffer.contents SIZE (receive_buffer_ ch') =
    RingBuffer.contents SIZE (receive_buffer_ ch) ++ delivered build ch c /\
  RingBuffer.count_ (receive_buffer_ ch') = RingBuffer.count_ (receive_buffer_ ch) + m /\
  ch' = set_receive_buffer (receive_buffer_ ch') ch /\
  frame c (snd r).
Proof.
  intros Hwf. cbv zeta.
  pose proof (wf_bounded _ _ Hwf) as Hb.
  pose proof (rx_in_fifo_range ch c) as Hn.
  destruct (clamp_fits build _ _ Hb (proj1 Hn)) as (Hm & Hroom).
  pose proof (quiet_rx_in_fifo ch c) as F1.
  pose proof (xfer_unfold build ch c) as Hx. cbv zeta in Hx. rewrite Hx. clear Hx.
  unfold delivered. cbv zeta.
  set (c1 := snd (rx_in_fifo_ ch c)) in *.
  set (m := clamp build _ _) in *.
  assert (Hlen : Z.of_nat (length (i2c.deposit m
                   (i2c.received (reply_of c1 (length (traffic_of c1)))) (garbage c1 m))) = m).
  { rewrite length_deposit, length_garbage. lia. }
  split; [case_bool_decide; reflexivity|].
  split; [exact Hm|]. split; [exact Hlen|].
  case_bool_decide as Hz; cbn [fst snd receive_buffer_ set_receive_buffer].
  - destruct (read_fifo_spec ch m c1) as (_ & Hd & _).
    cbv zeta in Hd. rewrite Hd.
    set (data := i2c.deposit m _ _) in *.
    destruct (push_loop_appends build (Z.to_nat m) 0 data (receive_buffer_ ch) Hwf
                ltac:(lia)) as (Hwf' & Hcont).
    destruct (push_loop_accepts build (Z.to_nat m) 0 data (receive_buffer_ ch) Hb
                ltac:(lia)) as (_ & Hc).
    split; [exact Hwf'|]. split; [|split; [lia|split; [reflexivity|]]].
    + rewrite Hcont. f_equal.
      replace (Z.to_nat m) with (length data) by lia. apply slice_all.
    + eapply frame_trans; [exact F1 | apply quiet_read_fifo].
  - assert (m = 0) as Hm0 by lia.
    split; [exact Hwf|]. split; [|split; [lia|split; [|exact F1]]].
    + destruct (i2c.deposit m _ _) as [|x l]; [rewrite app_nil_r; reflexivity|].
      cbn [length] in Hlen. lia.
    + symmetry. apply set_receive_buffer_same.
Qed.
End WithBuild.

End wk2132_i2c_receive.

(** X9.  A transfer keeps the receive buffer in order and appends to the
    bytes held, after the ones already there and in the order of delivery,
    the bytes of its local array after the raw read: what the bus delivered,
    and the uninitialised bytes of the array where it delivered less.  The
    channel is otherwise unchanged, and so are the configuration of the
    component and the answers the bus will give. *)
Theorem xfer_appends_in_order (build : wk2132_i2c.Build)
        (ch : wk2132_i2c.WK2132Channel) (c : wk2132_i2c.WK2132Component) :
  RingBuffer.wf (wk2132_i2c.RING_BUFFER_SIZE build) (wk2132_i2c.receive_buffer_ ch) ->
  let r := wk2132_i2c.xfer_fifo_to_buffer_ build ch c in
  let ch' := snd (fst r) in
  let data := wk2132_i2c_terms.delivered build ch c in
  RingBuffer.wf (wk2132_i2c.RING_BUFFER_SIZE build) (wk2132_i2c.receive_buffer_ ch') /\
  RingBuffer.contents (wk2132_i2c.RING_BUFFER_SIZE build) (wk2132_i2c.receive_buffer_ ch') =
    RingBuffer.contents (wk2132_i2c.RING_BUFFER_SIZE build) (wk2132_i2c.receive_buffer_ ch)
      ++ data /\
  Z.of_nat (length data) = fst (fst r) /\
  ch' = wk2132_i2c.set_receive_buffer (wk2132_i2c.receive_buffer_ ch') ch /\
  wk2132_i2c.frame c (snd r).
Proof.
  intros Hwf. cbv zeta.
  destruct (wk2132_i2c_receive.xfer_spec build ch c Hwf)
    as (Hr & _ & Hlen & Hwf' & Hcont & _ & Hch & Hf).
  rewrite Hr. auto.
Qed.

(** Three bytes are held, the FIFO announces 50 and the device delivers
    20 bytes 0x55: the buffer then holds the three and the twenty. *)
Lemma xfer_appends_in_order_witness :
  let build := example.build255 in
  let ch := example.channel 0 "uart1" (example.filled 3) in
  let c := example.component_on example.fifo50 in
  let r := wk2132_i2c.xfer_fifo_to_buffer_ build ch c in
  RingBuffer.wf (wk2132_i2c.RING_BUFFER_SIZE build) (wk2132_i2c.receive_buffer_ ch) /\
  RingBuffer.contents (wk2132_i2c.RING_BUFFER_SIZE build)
    (wk2132_i2c.receive_buffer_ (snd (fst r))) =
    [1; 2; 3] ++ replicate 20 0x55 ++ ((fun i => 0xA0 + Z.of_nat i) <$> seq 20 30).
Proof.
  cbv zeta.
  assert (Hwf : RingBuffer.wf (wk2132_i2c.RING_BUFFER_SIZE example.build255)
                  (wk2132_i2c.receive_buffer_
                     (example.channel 0 "uart1" (example.filled 3)))).
  { split; vm_compute; try reflexivity; split; congruence. }
  split; [exact Hwf|].
  destruct (xfer_appends_in_order example.build255
              (example.channel 0 "uart1" (example.filled 3))
              (example.component_on example.fifo50) Hwf) as (_ & H & _).
  rewrite H. vm_compute. reflexivity.
Defined.

Module wk2132_i2c_reader.
Import wk2132_i2c wk2132_i2c_terms wk2132_i2c_facts wk2132_i2c_data wk2132_i2c_receive.

Section WithBuild.
Variable build : Build.
#[local] Abbreviation SIZE := (RING_BUFFER_SIZE build).

(** [available] in one piece. *)
Lemma available_spec ch c :
  RingBuffer.wf SIZE (receive_buffer_ ch) ->
  let a := available build ch c in
  let ch1 := snd (fst a) in
  RingBuffer.wf SIZE (receive_buffer_ ch1) /\
  fst (fst a) = RingBuffer.count_ (receive_buffer_ ch1) /\
  (RingBuffer.count_ (receive_buffer_ ch) <> 0 -> ch1 = ch /\ snd a = c) /\
  (RingBuffer.count_ (receive_buffer_ ch) = 0 ->
   RingBuffer.contents SIZE (receive_buffer_ ch1) = delivered build ch c) /\
  frame c (snd a).
Proof.
  intros Hwf. cbv zeta.
  pose proof (RingBuffer.wf_size _ _ Hwf) as HS.
  pose proof (RingBuffer.wf_count _ _ Hwf) as Hc.
  unfold available, RingBuffer.count. case_bool_decide as Hz.
  - rewrite bind_run.
    destruct (xfer_spec build ch c Hwf) as (Hr & Hm & _ & Hwf' & Hcont & Hcount & _ & Hf).
    destruct (xfer_fifo_to_buffer_ build ch c) as [[moved ch1] c1].
    unfold ret. cbn [fst snd] in *.
    split; [exact Hwf'|]. split; [|split; [lia|split; [|exact Hf]]].
    + rewrite Hcount, Hz, Hr, Z.add_0_l. apply to_int_small. lia.
    + intros _. rewrite Hcont, (contents_empty SIZE _ Hz). reflexivity.
  - unfold ret. cbn [fst snd].
    split; [exact Hwf|]. split; [apply to_int_small; lia|].
    split; [auto|]. split; [lia | apply frame_refl].
Qed.

(** [read_array] of no more bytes than are held. *)
Lemma read_array_held buffer requested ch c :
  RingBuffer.wf SIZE (receive_buffer_ ch) ->
  0 <= requested <= RingBuffer.count_ (receive_buffer_ ch) ->
  requested <= Z.of_nat (length buffer) ->
  let r := read_array build buffer requested ch c in
  let held := RingBuffer.contents SIZE (receive_buffer_ ch) in
  fst (fst r) = (true, take (Z.to_nat requested) held ++ drop (Z.to_nat requested) buffer) /\
  RingBuffer.wf SIZE (receive_buffer_ (snd (fst r))) /\
  RingBuffer.contents SIZE (receive_buffer_ (snd (fst r))) =
    drop (Z.to_nat requested) held /\
  snd r = c.
Proof.
  intros Hwf Hreq Hlen. cbv zeta.
  pose proof (read_array_unfold build buffer requested ch c) as Hu. cbv zeta in Hu.
  rewrite Hu. clear Hu. rewrite bool_decide_eq_false_2 by lia.
  destruct (pop_loop_moves build (Z.to_nat requested) 0 buffer (receive_buffer_ ch) Hwf
              ltac:(lia) ltac:(lia)) as (Hout & Hwf' & _ & Hcont).
  change (Z.of_nat 0) with 0 in *. cbv zeta in *.
  cbn [fst snd receive_buffer_ set_receive_buffer].
  rewrite Hout, Hcont. auto.
Qed.
End WithBuild.

End wk2132_i2c_reader.

(** X10.  What available() announces, read_array delivers.  On a receive
    buffer in order, available() returns the number of bytes held
    afterwards, without bus traffic when bytes were held already and after
    one transfer otherwise; a read_array of that many bytes then returns
    true, makes no bus traffic and prints no warning, puts all the bytes
    held, oldest first, at the start of the caller's array and leaves the
    buffer empty. *)
Theorem available_bytes_can_be_read (build : wk2132_i2c.Build)
        (ch : wk2132_i2c.WK2132Channel) (c : wk2132_i2c.WK2132Component)
        (buffer : list Z) :
  RingBuffer.wf (wk2132_i2c.RING_BUFFER_SIZE build) (wk2132_i2c.receive_buffer_ ch) ->
  let a := wk2132_i2c.available build ch c in
  let n := fst (fst a) in
  let ch1 := snd (fst a) in
  let held := RingBuffer.contents (wk2132_i2c.RING_BUFFER_SIZE build)
                                  (wk2132_i2c.receive_buffer_ ch1) in
  n <= Z.of_nat (length buffer) ->
  let r := wk2132_i2c.read_array build buffer n ch1 (snd a) in
  n = Z.of_nat (length held) /\
  (RingBuffer.count (wk2132_i2c.receive_buffer_ ch) <> 0 -> ch1 = ch /\ snd a = c) /\
  fst (fst r) = (true, held ++ drop (Z.to_nat n) buffer) /\
  RingBuffer.contents (wk2132_i2c.RING_BUFFER_SIZE build)
                      (wk2132_i2c.receive_buffer_ (snd (fst r))) = [] /\
  snd r = snd a.
Proof.
  intros Hwf. cbv zeta.
  destruct (wk2132_i2c_reader.available_spec build ch c Hwf) as (Hwf1 & Hn & Hsame & _ & _).
  cbv zeta in *.
  destruct (wk2132_i2c.available build ch c) as [[n ch1] c1]. cbn [fst snd] in *.
  intros Hlen.
  pose proof (RingBuffer.wf_count _ _ Hwf1) as Hc.
  pose proof (length_contents (wk2132_i2c.RING_BUFFER_SIZE build) _ (proj1 Hc)) as Hl.
  destruct (wk2132_i2c_reader.read_array_held build buffer n ch1 c1 Hwf1
              ltac:(lia) Hlen) as (Hr & _ & Hcont & Hc1).
  cbv zeta in *. rewrite Hr, Hcont.
  split; [lia|]. split; [exact Hsame|].
  rewrite take_ge by lia. rewrite (drop_ge (RingBuffer.contents _ _)) by lia. auto.
Qed.

(** An empty buffer, a FIFO that announces 50 bytes and delivers 20: the 50
    bytes of the transfer are announced and read into an array of 60. *)
Lemma available_bytes_can_be_read_witness :
  let build := example.build255 in
  let ch := example.channel 0 "uart1" (RingBuffer.init 255) in
  let c := example.component_on example.fifo50 in
  let a := wk2132_i2c.available build ch c in
  let r := wk2132_i2c.read_array build (replicate 60 0) (fst (fst a)) (snd (fst a)) (snd a) in
  RingBuffer.wf (wk2132_i2c.RING_BUFFER_SIZE build) (wk2132_i2c.receive_buffer_ ch) /\
  fst (fst a) <= Z.of_nat (length (replicate 60 0)) /\
  fst (fst a) = 50 /\
  fst (fst (fst r)) = true.
Proof.
  cbv zeta.
  assert (Hwf : RingBuffer.wf (wk2132_i2c.RING_BUFFER_SIZE example.build255)
                  (wk2132_i2c.receive_buffer_
                     (example.channel 0 "uart1" (RingBuffer.init 255)))).
  { split; vm_compute; try reflexivity; split; congruence. }
  assert (Hlen : fst (fst (wk2132_i2c.available example.build255
                             (example.channel 0 "uart1" (RingBuffer.init 255))
                             (example.component_on example.fifo50)))
                 <= Z.of_nat (length (replicate 60 0))).
  { vm_compute. discriminate. }
  split; [exact Hwf|]. split; [exact Hlen|]. split; [vm_compute; reflexivity|].
  destruct (available_bytes_can_be_read example.build255 _ _ (replicate 60 0) Hwf Hlen)
    as (_ & _ & H & _).
  rewrite H. reflexivity.
Defined.

(** X11.  peek_byte does not consume.  On a receive buffer in order it
    makes a transfer only when no byte is held, returns true and the oldest
    byte held afterwards, or false with the referenced byte untouched when
    none is held even then, and leaves the bytes held as they are; a
    read_array of one byte after a successful peek_byte returns that same
    byte and true. *)
Theorem peek_byte_does_not_consume (build : wk2132_i2c.Build) (item : Z)
        (ch : wk2132_i2c.WK2132Channel) (c : wk2132_i2c.WK2132Component) :
  RingBuffer.wf (wk2132_i2c.RING_BUFFER_SIZE build) (wk2132_i2c.receive_buffer_ ch) ->
  let p := wk2132_i2c.peek_byte build item ch c in
  let ch1 := snd (fst p) in
  let held := RingBuffer.contents (wk2132_i2c.RING_BUFFER_SIZE build)
                                  (wk2132_i2c.receive_buffer_ ch) in
  let held1 := RingBuffer.contents (wk2132_i2c.RING_BUFFER_SIZE build)
                                   (wk2132_i2c.receive_buffer_ ch1) in
  RingBuffer.wf (wk2132_i2c.RING_BUFFER_SIZE build) (wk2132_i2c.receive_buffer_ ch1) /\
  held1 = (if bool_decide (held = [])
           then wk2132_i2c_terms.delivered build ch c else held) /\
  (held <> [] -> ch1 = ch /\ snd p = c) /\
  fst (fst p) = match held1 with
                | [] => (false, item)
                | oldest :: _ => (true, oldest)
                end /\
  (forall buffer,
      fst (fst (fst p)) = true -> buffer <> [] ->
      let r := wk2132_i2c.read_array build buffer 1 ch1 (snd p) in
      fst (fst (fst r)) = true /\
      array_get (snd (fst (fst r))) 0 = snd (fst (fst p))).
Proof.
  intros Hwf. cbv zeta.
  pose proof (RingBuffer.wf_count _ _ Hwf) as Hc.
  pose proof (length_contents (wk2132_i2c.RING_BUFFER_SIZE build) _ (proj1 Hc)) as Hl.
  unfold wk2132_i2c.peek_byte, RingBuffer.count. rewrite bind_run.
  set (m := if bool_decide (RingBuffer.count_ (wk2132_i2c.receive_buffer_ ch) = 0)
            then _ else _).
  assert (Hm : RingBuffer.wf (wk2132_i2c.RING_BUFFER_SIZE build)
                 (wk2132_i2c.receive_buffer_ (fst (m c))) /\
               RingBuffer.contents (wk2132_i2c.RING_BUFFER_SIZE build)
                 (wk2132_i2c.receive_buffer_ (fst (m c))) =
                 (if bool_decide (RingBuffer.contents (wk2132_i2c.RING_BUFFER_SIZE build)
                                    (wk2132_i2c.receive_buffer_ ch) = [])
                  then wk2132_i2c_terms.delivered build ch c
                  else RingBuffer.contents (wk2132_i2c.RING_BUFFER_SIZE build)
                         (wk2132_i2c.receive_buffer_ ch)) /\
               (RingBuffer.count_ (wk2132_i2c.receive_buffer_ ch) <> 0 ->
                fst (m c) = ch /\ snd (m c) = c)).
  { subst m. case_bool_decide as Hz.
    - rewrite bind_run.
      destruct (wk2132_i2c_receive.xfer_spec build ch c Hwf)
        as (_ & _ & _ & Hwf' & Hcont & _).
      destruct (wk2132_i2c.xfer_fifo_to_buffer_ build ch c) as [[moved ch1] c1].
      unfold ret. cbn [fst snd] in *.
      split; [exact Hwf'|]. split; [|lia].
      rewrite Hcont, (contents_empty _ _ Hz). rewrite bool_decide_eq_true_2 by reflexivity.
      reflexivity.
    - unfold ret. cbn [fst snd]. split; [exact Hwf|]. split; [|auto].
      rewrite bool_decide_eq_false_2; [reflexivity|].
      intros He. rewrite He in Hl. cbn in Hl. lia. }
  destruct Hm as (Hwf1 & Hcont1 & Hsame).
  destruct (m c) as [ch1 c1]. cbn [fst snd] in *. clear m.
  rewrite (peek_as_pop (wk2132_i2c.RING_BUFFER_SIZE build)).
  pose proof (pop_oldest (wk2132_i2c.RING_BUFFER_SIZE build) item _ Hwf1) as Hpop.
  destruct (fst (RingBuffer.pop _ item (wk2132_i2c.receive_buffer_ ch1)))
    as [found seen] eqn:Hp.
  unfold ret. cbn [fst snd wk2132_i2c.receive_buffer_ wk2132_i2c.set_receive_buffer].
  rewrite wk2132_i2c_receive.set_receive_buffer_same.
  split; [exact Hwf1|]. split; [exact Hcont1|]. split.
  { intros Hne. apply Hsame. intros Hz.
    apply Hne, contents_empty, Hz. }
  split; [exact Hpop|].
  intros buffer Hfound Hbuf. subst found.
  pose proof (RingBuffer.wf_count _ _ Hwf1) as Hc1.
  pose proof (length_contents (wk2132_i2c.RING_BUFFER_SIZE build) _ (proj1 Hc1)) as Hl1.
  destruct (RingBuffer.contents _ (wk2132_i2c.receive_buffer_ ch1)) as [|oldest rest] eqn:E;
    [discriminate Hpop|].
  injection Hpop as ->.
  cbn [length] in Hl1.
  destruct buffer as [|x buffer]; [congruence|].
  destruct (wk2132_i2c_reader.read_array_held build (x :: buffer) 1 ch1 c1 Hwf1
              ltac:(lia) ltac:(cbn [length]; lia)) as (Hr & _).
  cbv zeta in Hr. rewrite Hr, E. cbn [fst snd].
  split; reflexivity.
Qed.

(** Three bytes 1, 2, 3 are held: peek_byte returns 1 and so does the
    read_array of one byte after it. *)
Lemma peek_byte_does_not_consume_witness :
  let build := example.build255 in
  let ch := example.channel 0 "uart1" (example.filled 3) in
  let c := example.component_on example.fifo50 in
  let p := wk2132_i2c.peek_byte build 0 ch c in
  RingBuffer.wf (wk2132_i2c.RING_BUFFER_SIZE build) (wk2132_i2c.receive_buffer_ ch) /\
  fst (fst p) = (true, 1) /\
  RingBuffer.contents (wk2132_i2c.RING_BUFFER_SIZE build)
                      (wk2132_i2c.receive_buffer_ (snd (fst p))) = [1; 2; 3].
Proof.
  cbv zeta.
  assert (Hwf : RingBuffer.wf (wk2132_i2c.RING_BUFFER_SIZE example.build255)
                  (wk2132_i2c.receive_buffer_
                     (example.channel 0 "uart1" (example.filled 3)))).
  { split; vm_compute; try reflexivity; split; congruence. }
  split; [exact Hwf|].
  destruct (peek_byte_does_not_consume example.build255 0
              (example.channel 0 "uart1" (example.filled 3))
              (example.component_on example.fifo50) Hwf) as (_ & Hheld & _ & Hp & _).
  rewrite Hp, Hheld. vm_compute. auto.
Defined.

(** X12.  write_array makes exactly one bus exchange, a raw write to the
    FIFO address of the channel, of the first min(length, XFER_MAX_SIZE)
    bytes of the caller's array: what lies beyond XFER_MAX_SIZE is not sent,
    then or later, and only an error line tells so.  The warning flag
    afterwards is the failure of that one exchange, a failed exchange adds
    its error line, and nothing else is printed. *)
Theorem write_array_sends_one_clamped_transfer (build : wk2132_i2c.Build)
        (buffer : list Z) (length : Z) (ch : wk2132_i2c.WK2132Channel)
        (rt : wk2132_i2c_tx.Runtime) :
  let c := wk2132_i2c_tx.device rt in
  let n := Z.min length (wk2132_i2c.XFER_MAX_SIZE build) in
  let sent := take (Z.to_nat n) buffer in
  let reply := wk2132_i2c.reply_of c (List.length (wk2132_i2c.traffic_of c)) in
  let lines := List.length (wk2132_i2c.console_of c) in
  let rt' := snd (wk2132_i2c_tx.write_array build buffer length ch rt) in
  let c' := wk2132_i2c_tx.device rt' in
  wk2132_i2c.traffic_of c' =
    wk2132_i2c.traffic_of c ++
      [i2c.Write (i2c_address (wk2132_i2c.base_address_ c) (wk2132_i2c.channel_ ch) 1) sent] /\
  Z.of_nat (List.length sent) <= wk2132_i2c.XFER_MAX_SIZE build /\
  warning_ (wk2132_i2c.host c') = negb (i2c.is_ok (i2c.code reply)) /\
  wk2132_i2c_tx.journal rt' =
    wk2132_i2c_tx.journal rt
      ++ (if bool_decide (length > wk2132_i2c.XFER_MAX_SIZE build)
          then [(lines, wk2132_i2c_tx.WriteTooLong length (wk2132_i2c.XFER_MAX_SIZE build))]
          else [])
      ++ (if i2c.is_ok (i2c.code reply) then []
          else [(lines, wk2132_i2c_tx.WriteError (wk2132_i2c.channel_ ch)
                          (array_get buffer 0) n (i2c.code reply))]) /\
  wk2132_i2c.console_of c' = wk2132_i2c.console_of c /\
  wk2132_i2c.frame c c'.
Proof.
  cbv zeta. unfold wk2132_i2c_tx.write_array.
  assert (Hsent : forall n : Z, n <= wk2132_i2c.XFER_MAX_SIZE build ->
            Z.of_nat (List.length (take (Z.to_nat n) buffer))
              <= wk2132_i2c.XFER_MAX_SIZE build).
  { intros n Hn. pose proof (wk2132_i2c_data.XFER_MAX_SIZE_range build) as HS.
    rewrite length_take. lia. }
  case_bool_decide as Hlong.
  - rewrite Z.min_r by lia.
    unfold bind, ret, wk2132_i2c_tx.report, wk2132_i2c_tx.on_device, wk2132_i2c.inherited,
      host.write, host.transact, i2c.exchange, host.set_address,
      wk2132_i2c.traffic_of, wk2132_i2c.reply_of, wk2132_i2c.console_of.
    cbn -[wk2132_i2c.XFER_MAX_SIZE i2c_address Z.to_nat Z.max].
    destruct (i2c.is_ok _) eqn:Hok;
      cbn -[wk2132_i2c.XFER_MAX_SIZE i2c_address Z.to_nat Z.max];
      rewrite ?app_nil_r, <- ?app_assoc;
      (split; [reflexivity|]); (split; [apply Hsent; lia|]);
      repeat (split; [reflexivity|]); split; reflexivity.
  - rewrite Z.min_l by lia.
    unfold bind, ret, wk2132_i2c_tx.report, wk2132_i2c_tx.on_device, wk2132_i2c.inherited,
      host.write, host.transact, i2c.exchange, host.set_address,
      wk2132_i2c.traffic_of, wk2132_i2c.reply_of, wk2132_i2c.console_of.
    cbn -[wk2132_i2c.XFER_MAX_SIZE i2c_address Z.to_nat Z.max].
    destruct (i2c.is_ok _) eqn:Hok;
      cbn -[wk2132_i2c.XFER_MAX_SIZE i2c_address Z.to_nat Z.max];
      rewrite ?app_nil_r;
      (split; [reflexivity|]); (split; [apply Hsent; lia|]);
      repeat (split; [reflexivity|]); split; reflexivity.
Qed.

(** ** Waiting for the transmitter *)

Module wk2132_i2c_wait.
Import wk2132_i2c wk2132_i2c_tx wk2132_i2c_terms wk2132_i2c_facts wk2132_i2c_data.

Lemma reads_only_refl c : reads_only c c.
Proof. exists []. rewrite app_nil_r. auto. Qed.

Lemma reads_only_trans c1 c2 c3 : reads_only c1 c2 -> reads_only c2 c3 -> reads_only c1 c3.
Proof.
  intros (l1 & T1 & R1) (l2 & T2 & R2). exists (l1 ++ l2).
  rewrite T2, T1, <- app_assoc, forallb_app, R1, R2. auto.
Qed.

Lemma get_reads_only r c : reads_only c (snd (get r c)).
Proof.
  destruct (get_spec r c) as (T & _). eexists. split; [exact T | reflexivity].
Qed.

Lemma tx_fifo_is_not_empty_reads_only ch c :
  reads_only c (snd (tx_fifo_is_not_empty_ ch c)) /\
  frame c (snd (tx_fifo_is_not_empty_ ch c)).
Proof.
  unfold tx_fifo_is_not_empty_. rewrite bind_run. unfold ret. cbn [snd].
  split; [apply get_reads_only | apply quiet_get].
Qed.

Lemma tx_in_fifo_reads_only ch c :
  reads_only c (snd (tx_in_fifo_ ch c)) /\
  frame c (snd (tx_in_fifo_ ch c)) /\
  0 <= fst (tx_in_fifo_ ch c) <= 256.
Proof.
  unfold tx_in_fifo_. rewrite bind_run.
  pose proof (get_range (channel_reg ch REG_WK2132_TFCNT) c) as Hr.
  pose proof (get_reads_only (channel_reg ch REG_WK2132_TFCNT) c) as R1.
  pose proof (quiet_get (channel_reg ch REG_WK2132_TFCNT) c) as F1.
  set (c1 := snd (get (channel_reg ch REG_WK2132_TFCNT) c)) in *.
  case_bool_decide as Hz.
  - rewrite bind_run.
    pose proof (get_reads_only (channel_reg ch REG_WK2132_FSR) c1) as R2.
    pose proof (quiet_get (channel_reg ch REG_WK2132_FSR) c1) as F2.
    case_bool_decide; unfold ret, FIFO_SIZE; cbn [fst snd];
      (split; [eapply reads_only_trans; eauto|]);
      (split; [eapply frame_trans; eauto | lia]).
  - unfold ret. cbn [fst snd]. split; [exact R1|]. split; [exact F1 | lia].
Qed.

Lemma on_device_run {A} (m : M WK2132Component A) rt :
  on_device m rt =
    (fst (m (device rt)),
     {| device := snd (m (device rt)); journal := journal rt; clock := clock rt;
        clock_reads := clock_reads rt |}).
Proof. unfold on_device. destruct (m (device rt)). reflexivity. Qed.

Lemma flush_loop_waited ch start polls : forall rt,
  waited rt (snd (flush_loop polls ch start rt)).
Proof.
  induction polls as [|polls IH]; intros rt; cbn [flush_loop].
  - unfold ret. cbn [snd].
    split; [apply reads_only_refl | apply frame_refl | reflexivity | left; reflexivity].
  - rewrite bind_run, on_device_run. cbn [fst snd].
    destruct (tx_fifo_is_not_empty_reads_only ch (device rt)) as (R1 & F1).
    set (rt1 := Build_Runtime _ _ _ _).
    destruct (fst (tx_fifo_is_not_empty_ ch (device rt))).
    + rewrite bind_run. unfold millis. cbn [fst snd].
      set (rt2 := Build_Runtime _ _ _ _).
      case_bool_decide.
      * rewrite bind_run, on_device_run. cbn [fst snd].
        destruct (tx_in_fifo_reads_only ch (device rt2)) as (R2 & F2 & Hrem).
        unfold bind, report, ret. cbn [fst snd device journal clock].
        split; cbn [device journal clock].
        -- eapply reads_only_trans; [exact R1 | exact R2].
        -- eapply frame_trans; [exact F1 | exact F2].
        -- reflexivity.
        -- right. eexists _, _. split; [exact Hrem | reflexivity].
      * unfold yield. rewrite bind_run. unfold ret. cbn [fst snd].
        destruct (IH rt2) as [R3 F3 C3 J3].
        split.
        -- eapply reads_only_trans; [exact R1 | exact R3].
        -- eapply frame_trans; [exact F1 | exact F3].
        -- rewrite C3. reflexivity.
        -- exact J3.
    + unfold ret. cbn [snd].
      split; [exact R1 | exact F1 | reflexivity | left; reflexivity].
Qed.

(** The loop is left at the latest at the first reading of the clock that
    is more than 100 ms after the start. *)
Lemma flush_loop_deadline ch start polls : forall rt (j : nat),
  (j < polls)%nat ->
  u32 (u32 (clock rt (clock_reads rt + j)%nat) - start) > 100 ->
  let r := flush_loop polls ch start rt in
  fst r = Some tt /\ (clock_reads (snd r) <= clock_reads rt + S j)%nat.
Proof.
  induction polls as [|polls IH]; intros rt j Hj Hlate; [lia|].
  cbv zeta. cbn [flush_loop].
  rewrite bind_run, on_device_run. cbn [fst snd].
  set (rt1 := Build_Runtime _ _ _ _).
  destruct (fst (tx_fifo_is_not_empty_ ch (device rt))).
  - rewrite bind_run. unfold millis. cbn [fst snd clock clock_reads].
    set (rt2 := Build_Runtime _ _ _ _).
    case_bool_decide as Hnow.
    + rewrite bind_run, on_device_run. cbn [fst snd].
      unfold bind, report, ret. cbn [fst snd clock_reads].
      split; [reflexivity | subst rt2 rt1; cbn [clock_reads]; lia].
    + unfold yield. rewrite bind_run. unfold ret. cbn [fst snd].
      destruct j as [|j].
      { exfalso. apply Hnow. rewrite Nat.add_0_r in Hlate. exact Hlate. }
      destruct (IH rt2 j ltac:(lia)) as (Hr & Hreads).
      { subst rt2 rt1. cbn [clock clock_reads].
        replace (S (clock_reads rt) + j)%nat with (clock_reads rt + S j)%nat by lia.
        exact Hlate. }
      cbv zeta in Hr, Hreads. split; [exact Hr|].
      subst rt2 rt1. cbn [clock_reads] in Hreads |- *. lia.
  - unfold ret. cbn [fst snd]. subst rt1. cbn [clock_reads]. split; [reflexivity | lia].
Qed.

End wk2132_i2c_wait.


(** X14.  flush waits no longer than the clock allows.  The time waited is
    the 32-bit difference between a reading of the millisecond clock and
    the reading taken on entry, so it is right across a wrap of the clock;
    when the reading of some poll is more than 100 ms after the start,
    flush has returned by that poll, whatever the device answers, having
    read the clock no more often than that. *)
Theorem flush_returns_by_the_deadline (polls j : nat) (ch : wk2132_i2c.WK2132Channel)
        (rt : wk2132_i2c_tx.Runtime) :
  let first := wk2132_i2c_tx.clock_reads rt in
  let start_time := u32 (wk2132_i2c_tx.clock rt first) in
  let now := u32 (wk2132_i2c_tx.clock rt (first + 1 + j)%nat) in
  (j < polls)%nat ->
  u32 (now - start_time) > 100 ->
  let r := wk2132_i2c_tx.flush polls ch rt in
  fst r = Some tt /\
  (wk2132_i2c_tx.clock_reads (snd r) <= first + 2 + j)%nat.
Proof.
  cbv zeta. intros Hj Hlate. unfold wk2132_i2c_tx.flush. rewrite bind_run.
  destruct (wk2132_i2c_wait.flush_loop_deadline ch
              (fst (wk2132_i2c_tx.millis rt)) polls (snd (wk2132_i2c_tx.millis rt)) j Hj)
    as (Hr & Hreads).
  { unfold wk2132_i2c_tx.millis. cbn [fst snd wk2132_i2c_tx.clock wk2132_i2c_tx.clock_reads].
    replace (S (wk2132_i2c_tx.clock_reads rt) + j)%nat
      with (wk2132_i2c_tx.clock_reads rt + 1 + j)%nat by lia.
    exact Hlate. }
  cbv zeta in Hr, Hreads. split; [exact Hr|].
  etransitivity; [exact Hreads|].
  unfold wk2132_i2c_tx.millis. cbn [snd wk2132_i2c_tx.clock_reads]. lia.
Qed.

(** A transmitter that never reports its FIFO empty and a clock that starts
    40 ms before its wrap and advances 30 ms per reading: the fourth
    reading after the start is 120 ms later, and flush has returned. *)
Lemma flush_returns_by_the_deadline_witness :
  let rt := {| wk2132_i2c_tx.device :=
                 example.component_on (example.scripted [] (example.ok [FSR_TFEMPTY]));
               wk2132_i2c_tx.journal := [];
               wk2132_i2c_tx.clock := fun k => 2 ^ 32 - 40 + 30 * Z.of_nat k;
               wk2132_i2c_tx.clock_reads := 0 |} in
  let r := wk2132_i2c_tx.flush 10 (example.channel 0 "uart1" (RingBuffer.init 255)) rt in
  (3 < 10)%nat /\
  u32 (u32 (wk2132_i2c_tx.clock rt (0 + 1 + 3)%nat) - u32 (wk2132_i2c_tx.clock rt 0%nat)) > 100 /\
  fst r = Some tt.
Proof.
  cbv zeta.
  assert (Hj : (3 < 10)%nat) by lia.
  split; [exact Hj|].
  match goal with
  | |- ?P /\ _ => assert (Hlate : P) by (vm_compute; reflexivity)
  end.
  split; [exact Hlate|].
  destruct (flush_returns_by_the_deadline 10 3
              (example.channel 0 "uart1" (RingBuffer.init 255)) _ Hj Hlate) as (H & _).
  exact H.
Defined.

(** ** The periodic transfer over the channels *)

Module wk2132_i2c_loop.
Import wk2132_i2c wk2132_i2c_tx wk2132_i2c_terms wk2132_i2c_facts wk2132_i2c_data.
Import wk2132_i2c_receive.

Section WithBuild.
Variable build : Build.
#[local] Abbreviation SIZE := (RING_BUFFER_SIZE build).

Lemma transfer_children_spec children : forall transferred c,
  0 <= transferred < 2 ^ 32 ->
  Forall (fun ch => RingBuffer.wf SIZE (receive_buffer_ ch)) children ->
  let r := transfer_children build transferred children c in
  Forall2 (extended SIZE) children (snd (fst r)) /\
  fst (fst r) = size_t (transferred + (bytes_held (snd (fst r)) - bytes_held children)) /\
  frame c (snd r).
Proof.
  induction children as [|child rest IH]; intros transferred c Ht Hwf; cbv zeta;
    cbn [transfer_children].
  - unfold ret. cbn [fst snd bytes_held foldr].
    split; [constructor|]. split; [|apply frame_refl].
    unfold size_t. rewrite u32_small by lia. lia.
  - apply Forall_cons in Hwf as (Hchild & Hrest).
    rewrite bind_run.
    destruct (xfer_spec build child c Hchild)
      as (Hr & Hm & _ & Hwf' & Hcont & Hcount & Hch & Hf).
    destruct (xfer_fifo_to_buffer_ build child c) as [[moved child'] c1].
    cbn [fst snd] in *. rewrite bind_run.
    assert (Hu : 0 <= size_t (transferred + moved) < 2 ^ 32) by apply u32_range.
    destruct (IH (size_t (transferred + moved)) c1 Hu Hrest) as (Hall & Htotal & Hf').
    cbv zeta in *.
    destruct (transfer_children build _ rest c1) as [[total rest'] c2].
    unfold ret. cbn [fst snd] in *.
    split; [|split].
    + constructor; [|exact Hall].
      split; [exact Hwf'|]. split; [exact Hch|]. eexists. exact Hcont.
    + rewrite Htotal. cbn [bytes_held foldr]. fold (bytes_held rest) (bytes_held rest').
      unfold RingBuffer.count. rewrite Hcount. unfold size_t, u32.
      rewrite Zplus_mod_idemp_l. f_equal. lia.
    + eapply frame_trans; [exact Hf | exact Hf'].
Qed.
End WithBuild.

End wk2132_i2c_loop.

(** X15.  The transfer loop of loop() keeps every receive buffer in order
    and only appends to the bytes each one holds; it leaves the channels and
    the configuration of the component otherwise as they are; and the total
    it computes is the number of bytes by which the buffers have grown
    together (as a size_t). *)
Theorem transfer_loop_only_appends (build : wk2132_i2c.Build)
        (children : list wk2132_i2c.WK2132Channel) (c : wk2132_i2c.WK2132Component) :
  Forall (fun ch => RingBuffer.wf (wk2132_i2c.RING_BUFFER_SIZE build)
                                  (wk2132_i2c.receive_buffer_ ch)) children ->
  let r := wk2132_i2c_tx.transfer_children build 0 children c in
  let children' := snd (fst r) in
  Forall2 (wk2132_i2c_terms.extended (wk2132_i2c.RING_BUFFER_SIZE build)) children children' /\
  fst (fst r) =
    size_t (wk2132_i2c_terms.bytes_held children' - wk2132_i2c_terms.bytes_held children) /\
  wk2132_i2c.frame c (snd r).
Proof.
  intros Hwf. cbv zeta.
  destruct (wk2132_i2c_loop.transfer_children_spec build children 0 c ltac:(lia) Hwf)
    as (Hall & Htotal & Hf).
  cbv zeta in *. rewrite Z.add_0_l in Htotal. auto.
Qed.

(** Two channels with three bytes and none held, and a device that first
    announces 50 bytes for one channel and then nothing: the loop counts the
    50 bytes of the first transfer. *)
Lemma transfer_loop_only_appends_witness :
  let build := example.build255 in
  let children := [example.channel 0 "uart1" (example.filled 3);
                   example.channel 1 "uart2" (RingBuffer.init 255)] in
  let c := example.component_on
             (example.scripted [example.ok [50]; example.ok (replicate 50 7)] (example.ok [0])) in
  let r := wk2132_i2c_tx.transfer_children build 0 children c in
  Forall (fun ch => RingBuffer.wf (wk2132_i2c.RING_BUFFER_SIZE build)
                                  (wk2132_i2c.receive_buffer_ ch)) children /\
  fst (fst r) = 50 /\
  wk2132_i2c_terms.bytes_held (snd (fst r)) = 53.
Proof.
  cbv zeta.
  match goal with
  | |- ?P /\ _ => assert (Hwf : P)
  end.
  { repeat constructor; vm_compute; congruence. }
  split; [exact Hwf|].
  destruct (transfer_loop_only_appends example.build255 _
              (example.component_on
                 (example.scripted [example.ok [50]; example.ok (replicate 50 7)]
                                   (example.ok [0]))) Hwf) as (_ & H & _).
  rewrite H. vm_compute. auto.
Defined.

(** ** The channels after setup *)

Module wk2132_i2c_ready.
Import wk2132_i2c wk2132_i2c_terms wk2132_i2c_facts.

Lemma log_keeps_the_device l c :
  let c' := snd (inherited (host.log l) c) in
  base_address_ c' = base_address_ c /\ crystal_ c' = crystal_ c /\
  page1_ c' = page1_ c /\ traffic_of c' = traffic_of c.
Proof. cbv zeta. unfold inherited, host.log. cbn. auto. Qed.

Lemma setup_channel_result ch c :
  let r := setup_channel_ ch c in
  fst r = ready ch /\
  page1_ (snd r) = false /\
  base_address_ (snd r) = base_address_ c /\
  crystal_ (snd r) = crystal_ c.
Proof.
  cbv zeta. unfold setup_channel_. rewrite !bind_run.
  destruct (log_keeps_the_device (SettingUpUARTNamed (channel_name_ ch)) c)
    as (B0 & C0 & _).
  set (c0 := snd (inherited (host.log _) c)) in *.
  pose proof (quiet_assign (channel_reg ch REG_WK2132_SCR) (Z.lor SCR_RXEN SCR_TXEN) c0) as F1.
  set (c1 := snd (assign _ _ c0)) in *.
  pose proof (quiet_reset_fifo ch c1) as F2.
  set (c2 := snd (reset_fifo_ ch c1)) in *.
  set (ch' := set_receive_buffer _ ch).
  destruct (wk2132_i2c_line.set_line_param_traffic ch' c2) as (_ & Hch).
  pose proof (quiet_set_line_param ch' c2) as F3.
  set (c3 := snd (set_line_param_ ch' c2)) in *.
  rewrite Hch.
  destruct (set_baudrate_spec (set_data_bits 8 ch') c3) as (_ & P4).
  pose proof (quiet_set_baudrate (set_data_bits 8 ch') c3) as F4.
  set (c4 := snd (set_baudrate_ _ c3)) in *.
  unfold ret. cbn [fst snd].
  pose proof (frame_trans _ _ _ (frame_trans _ _ _ (frame_trans _ _ _ F1 F2) F3) F4) as F.
  split; [reflexivity|]. split; [exact P4|].
  rewrite (same_base_address _ _ F), (same_crystal _ _ F). auto.
Qed.

Lemma setup_children_result children : forall c,
  page1_ c = false ->
  let r := setup_children children c in
  fst r = ready <$> children /\
  page1_ (snd r) = false /\
  base_address_ (snd r) = base_address_ c /\
  crystal_ (snd r) = crystal_ c.
Proof.
  induction children as [|child rest IH]; intros c Hp; cbv zeta; cbn [setup_children].
  - unfold ret. cbn. auto.
  - rewrite !bind_run.
    destruct (setup_channel_result child c) as (Hch & P1 & B1 & C1).
    cbv zeta in *. rewrite Hch.
    destruct (IH _ P1) as (Hrest & P2 & B2 & C2). cbv zeta in *.
    unfold ret. cbn [fst snd fmap list_fmap].
    rewrite Hrest, P2, B2, C2, B1, C1. auto.
Qed.

End wk2132_i2c_ready.


(** ** The channel setup of wk2132.cpp *)

Module wk2132_channel_facts.
Import wk2132 wk2132_facts.

(** What a register read of wk2132.cpp returns and leaves in the caller's
    byte. *)
Lemma legacy_read_value reg_number channel buffer c :
  let d := i2c.deposit 1 (i2c.received (reply_of c (length (traffic_of c)))) buffer in
  let r := read_wk2132_register_ reg_number channel buffer 1 c in
  fst r = (array_get d 0, d) /\
  indeterminate (host (snd r)) = indeterminate (host c).
Proof.
  unfold read_wk2132_register_, bind, ret, inherited, host.read_register, host.transact,
    i2c.exchange, host.set_address, traffic_of, reply_of.
  cbn -[i2c.deposit array_get].
  destruct (i2c.is_ok _); cbn -[i2c.deposit array_get]; auto.
Qed.

Lemma legacy_uninitialised_run n c :
  inherited (host.uninitialised n) c =
    ((fun i => u8 (indeterminate (host c) i)) <$> seq 0 (Z.to_nat n), c).
Proof. destruct c. reflexivity. Qed.

(** The exchanges of [set_line_param_]: one read and one write of the line
    configuration register. *)
Lemma legacy_line_param_exchanges ch c :
  let r := set_line_param_ ch c in
  let address := i2c_address (base_address_ c) (channel_ ch) 0 in
  (exists written,
      traffic_of (snd r) =
        traffic_of c ++ [i2c.ReadRegister address REG_WK2132_LCR 1;
                         i2c.WriteRegister address REG_WK2132_LCR [written]]) /\
  fst r = set_data_bits 8 ch /\
  page1_ (snd r) = page1_ c.
Proof.
  cbv zeta. unfold set_line_param_. rewrite bind_run, legacy_uninitialised_run.
  cbn [fst snd]. set (lcr := _ <$> seq 0 (Z.to_nat 1)).
  rewrite bind_run.
  cbn [channel_ set_data_bits stop_bits_ parity_ data_bits_].
  destruct (legacy_read_spec REG_WK2132_LCR (channel_ ch) lcr 1 c) as (T1 & P1 & F1).
  destruct (read_wk2132_register_ REG_WK2132_LCR (channel_ ch) lcr 1 c) as [[v d] c1].
  cbn [fst snd] in *. rewrite !bind_run.
  set (w := match parity_ ch with
            | UART_CONFIG_PARITY_NONE => _
            | UART_CONFIG_PARITY_EVEN => _
            | UART_CONFIG_PARITY_ODD => _
            end).
  destruct (legacy_write_spec REG_WK2132_LCR (channel_ ch) [w] 1 c1) as (T2 & P2 & F2).
  set (c2 := snd (write_wk2132_register_ REG_WK2132_LCR (channel_ ch) [w] 1 c1)) in *.
  unfold ret. cbn [fst snd].
  split; [|split; [reflexivity|]].
  - exists w.
    change (traffic_of (snd (inherited (host.log (LineConfig 8 (stop_bits_ ch) (parity_ ch) w))
                                       c2))) with (traffic_of c2).
    rewrite T2, T1, (same_base_address _ _ F1), <- app_assoc. reflexivity.
  - change (page1_ (snd (inherited (host.log (LineConfig 8 (stop_bits_ ch) (parity_ ch) w))
                                   c2))) with (page1_ c2).
    congruence.
Qed.

End wk2132_channel_facts.

